(** * Local AI server deployment tool ([deploy.py]): model and properties

    A shallow embedding of the hardware prober, the report printer, the
    installer and the service commands of [deploy.py], followed by the
    properties of the specification that were checked against it.

    Conventions of the model.
    - Text is a [string] of bytes; the Python string methods below are the
      ASCII fragment of their Python counterparts (white space and letter
      case outside ASCII are not modelled).
    - Side effects go through the monad [M]: a function of the [World]
      (directories, files, console, standard input, counters of external
      calls and of random draws) that returns the new world and either a
      value or a raised exception.  What was done before an exception is
      raised stays done.
    - Everything the tool asks of the machine it runs on (shell commands,
      spawned programs, HTTP probes, random bytes, the processor count,
      the formatting of floats) is answered by a [Host].  Answers are
      indexed by the number of external calls made so far, so that the same
      command may succeed later in a run although it failed earlier.
      External commands are taken not to touch the files the tool itself
      reads and writes.
    - The configuration file is kept apart from the text files, as the
      document it holds ([config_doc]); writing it with [json.dump] and
      reading it back with [json.load] is the identity.
    - Failures of the operating system other than a missing or mistyped
      path (permissions, encodings, a full disk) are not modelled, nor is
      the time stamp of a log line. *)

From Stdlib Require Import ZArith Ascii String DecimalString Lia.
From stdpp Require Import base gmap strings list.

Local Open Scope Z_scope.

(* ===================================================================== *)
(** ** Python string primitives *)
(* ===================================================================== *)

Module Py.

Definition nl : string := String "010" EmptyString.
Definition dq : string := String "034" EmptyString.

(** [c.lower()] on one ASCII character. *)
Definition lower_char (c : ascii) : ascii :=
  let n := nat_of_ascii c in
  if ((65 <=? n) && (n <=? 90))%nat then ascii_of_nat (n + 32) else c.

(** [s.lower()]. *)
Fixpoint lower (s : string) : string :=
  match s with
  | EmptyString => EmptyString
  | String c r => String (lower_char c) (lower r)
  end.

(** [s.startswith(p)]. *)
Fixpoint startswith (p s : string) : bool :=
  match p, s with
  | EmptyString, _ => true
  | String _ _, EmptyString => false
  | String a p', String b s' => Ascii.eqb a b && startswith p' s'
  end.

(** [needle in hay]. *)
Fixpoint contains (needle hay : string) : bool :=
  match hay with
  | EmptyString => startswith needle EmptyString
  | String _ r => startswith needle hay || contains needle r
  end.

(** The characters [str.strip()] and [str.split()] treat as white space. *)
Definition is_space (c : ascii) : bool :=
  let n := nat_of_ascii c in
  (((9 <=? n) && (n <=? 13)) || ((28 <=? n) && (n <=? 32)))%nat.

Fixpoint mem_char (c : ascii) (set : string) : bool :=
  match set with
  | EmptyString => false
  | String d r => Ascii.eqb c d || mem_char c r
  end.

Fixpoint lstrip_by (p : ascii -> bool) (s : string) : string :=
  match s with
  | EmptyString => EmptyString
  | String c r => if p c then lstrip_by p r else s
  end.

Fixpoint rstrip_by (p : ascii -> bool) (s : string) : string :=
  match s with
  | EmptyString => EmptyString
  | String c r =>
      match rstrip_by p r with
      | EmptyString => if p c then EmptyString else String c EmptyString
      | r' => String c r'
      end
  end.

(** [s.strip()]. *)
Definition strip (s : string) : string :=
  rstrip_by is_space (lstrip_by is_space s).

(** [s.strip(chars)]. *)
Definition strip_chars (chars s : string) : string :=
  rstrip_by (fun c => mem_char c chars) (lstrip_by (fun c => mem_char c chars) s).

(** [s.split(sep)] for a non-empty separator: the pieces between the
    non-overlapping occurrences of [sep], found from the left.  [skip]
    counts the characters of a separator still to be passed over and [cur]
    is the piece under construction. *)
Fixpoint split_go (sep s : string) (skip : nat) (cur : string) : list string :=
  match s with
  | EmptyString => [cur]
  | String c r =>
      match skip with
      | S k => split_go sep r k cur
      | O =>
          if startswith sep s
          then cur :: split_go sep r (String.length sep - 1) EmptyString
          else split_go sep r O (cur +:+ String c EmptyString)
      end
  end.

Definition split (sep s : string) : list string := split_go sep s O EmptyString.

(** [s.split()]: the maximal runs of characters that are not white space. *)
Fixpoint words_go (s : string) (cur : string) : list string :=
  match s with
  | EmptyString => match cur with EmptyString => [] | _ => [cur] end
  | String c r =>
      if is_space c
      then match cur with
           | EmptyString => words_go r EmptyString
           | _ => cur :: words_go r EmptyString
           end
      else words_go r (cur +:+ String c EmptyString)
  end.

Definition split_ws (s : string) : list string := words_go s EmptyString.

(** The lines a text file yields when iterated over: each keeps its
    terminating newline, the last one may lack it. *)
Fixpoint lines_go (s : string) (cur : string) : list string :=
  match s with
  | EmptyString => match cur with EmptyString => [] | _ => [cur] end
  | String c r =>
      if Ascii.eqb c "010"
      then (cur +:+ nl) :: lines_go r EmptyString
      else lines_go r (cur +:+ String c EmptyString)
  end.

Definition file_lines (s : string) : list string := lines_go s EmptyString.

(** [str(n)] for an integer. *)
Definition str_of_int (n : Z) : string := NilZero.string_of_int (Z.to_int n).

Definition digit_val (c : ascii) : option Z :=
  let n := nat_of_ascii c in
  if ((48 <=? n) && (n <=? 57))%nat then Some (Z.of_nat (n - 48)) else None.

(** The digits of an integer literal given to [int()]: at least one digit,
    single underscores allowed between digits only. *)
Fixpoint int_digits (s : string) (acc : Z) (after_digit : bool) : option Z :=
  match s with
  | EmptyString => if after_digit then Some acc else None
  | String c r =>
      match digit_val c with
      | Some d => int_digits r (10 * acc + d) true
      | None =>
          if Ascii.eqb c "_" && after_digit then int_digits r acc false else None
      end
  end.

(** [int(s)] for a string: [None] stands for [ValueError]. *)
Definition int_of_str (s : string) : option Z :=
  match strip s with
  | String "-" r => Z.opp <$> int_digits r 0 false
  | String "+" r => int_digits r 0 false
  | t => int_digits t 0 false
  end.

(** [sep.join(l)] with [sep] empty. *)
Definition concat (l : list string) : string := fold_right String.append EmptyString l.

(** [c * n] for a one-character string. *)
Fixpoint repeat_char (c : ascii) (n : nat) : string :=
  match n with
  | O => EmptyString
  | S k => String c (repeat_char c k)
  end.

End Py.

(* ===================================================================== *)
(** ** Exceptions and the effect monad *)
(* ===================================================================== *)

(** The exceptions the modelled code can meet.  [KeyboardInterrupt] and
    [SystemExit] are the ones that are not subclasses of [Exception]. *)
Inductive exn : Type :=
  | FileNotFoundError
  | IsADirectoryError
  | NotADirectoryError
  | FileExistsError
  | IndexError
  | ValueError
  | OverflowError
  | KeyError
  | TypeError
  | EOFError
  | URLError
  | KeyboardInterrupt
  | SystemExit (code : Z).

#[global] Instance exn_eq_dec : EqDecision exn.
Proof. solve_decision. Defined.

Definition is_Exception (e : exn) : bool :=
  match e with
  | KeyboardInterrupt | SystemExit _ => false
  | _ => true
  end.

Inductive result (A : Type) : Type :=
  | Ok (a : A)
  | Raise (e : exn).
Arguments Ok {A} a.
Arguments Raise {A} e.

(* ===================================================================== *)
(** ** Data model *)
(* ===================================================================== *)

Record GPUInfo := mkGPUInfo {
  index : Z;
  name : string;
  memory_total_mb : Z;
  memory_free_mb : Z;
  driver_version : string;
  cuda_version : string;
  compute_capability : string
}.

(** A RAM size in gigabytes as [detect_system] computes it: either the
    initial [0.0] or [round(kb / 1024 / 1024, 1)] for the integer [kb] read
    from the memory table.  The floating-point value is kept symbolic. *)
Inductive gigabytes : Type :=
  | GB_zero
  | GB_of_kB (kb : Z).

Record SystemInfo := mkSystemInfo {
  os_name : string;
  os_version : string;
  cpu_model : string;
  cpu_cores : Z;
  ram_total_gb : gigabytes;
  ram_available_gb : gigabytes;
  gpus : list GPUInfo;
  cuda_available : bool;
  docker_available : bool;
  nvidia_docker_available : bool
}.

(** The configuration document, with the keys of [DEFAULT_CONFIG].  The
    tensor-parallel key may be missing (the code reads it with a default);
    the memory-utilisation fraction is kept as the text [str()] gives for
    it. *)
Record Config := mkConfig {
  llm_model : string;
  llm_backend : string;
  llm_tensor_parallel_size : option Z;
  llm_max_model_len : Z;
  llm_gpu_memory_utilization : string;
  llm_quantization : string;
  embedding_model : string;
  embedding_device : string;
  server_vllm_host : string;
  server_vllm_port : Z;
  server_anythingllm_port : Z;
  paths_base_dir : string;
  paths_models_dir : string;
  paths_data_dir : string
}.

(** What [config.json] holds: a document with the expected keys and value
    types, or anything else, on which loading the file or reading a key
    raises before the manifest is written ([JSONDecodeError], a
    [ValueError], or [KeyError] or [TypeError]: the model keeps
    [ValueError]). *)
Inductive config_doc : Type :=
  | cfg_ok (c : Config)
  | cfg_bad.

(** What is written to the console. *)
Inductive event : Type :=
  | Print (s : string)
  | Log (level : string) (message : string)
  | Prompt (s : string).

(** What standard input holds: typed lines, or the user's interrupt. *)
Inductive input_item : Type :=
  | Line (s : string)
  | Interrupt.

Record proc := mkProc {
  returncode : Z;
  stdout : string
}.

Record World := mkWorld {
  dirs : gset string;
  files : gmap string string;
  config_file : option config_doc;
  executable : gset string;
  console : list event;
  stdin : list input_item;
  ticks : nat;
  drawn : nat
}.

Record Host := mkHost {
  home : string;
  (** [subprocess.run(cmd, shell=True)] at the [n]-th external call. *)
  shell : nat -> string -> proc;
  (** [subprocess.run(argv)]: [None] when the program cannot be started,
      which raises [FileNotFoundError]. *)
  spawn : nat -> list string -> option Z;
  (** [urllib.request.urlopen(url, timeout=5)]: [false] when it raises. *)
  urlopen : nat -> string -> bool;
  (** [os.urandom(16).hex()] at the [n]-th draw. *)
  urandom_hex : nat -> string;
  (** [os.cpu_count()]. *)
  cpu_count : option Z;
  (** [int(float(s))]; [None] when it raises ([ValueError] for a text
      that is no number, [OverflowError] for an infinity: the model keeps
      [ValueError] for both). *)
  int_of_float : string -> option Z;
  (** [f"{x:.1f}"] for a RAM size and for [mb / 1024]. *)
  fmt_gb : gigabytes -> string;
  fmt_mb_as_gb : Z -> string;
  (** [os.environ.get("USER", "")]. *)
  env_user : string;
  (** [str(e)] for a caught exception. *)
  exn_message : exn -> string;
  (** [json.dumps(asdict(info), indent=2)]. *)
  report_json : SystemInfo -> string
}.

Definition M (A : Type) : Type := World -> World * result A.

Definition ret {A} (a : A) : M A := fun w => (w, Ok a).

Definition raise {A} (e : exn) : M A := fun w => (w, Raise e).

Definition bind {A B} (c : M A) (k : A -> M B) : M B :=
  fun w =>
    match c w with
    | (w', Ok a) => k a w'
    | (w', Raise e) => (w', Raise e)
    end.

(** [try: c  except <those e with p e>: h e]. *)
Definition try_except {A} (c : M A) (p : exn -> bool) (h : exn -> M A) : M A :=
  fun w =>
    match c w with
    | (w', Ok a) => (w', Ok a)
    | (w', Raise e) => if p e then h e w' else (w', Raise e)
    end.

Declare Scope py_scope.
Delimit Scope py_scope with py.
Notation "x <- c ;; k" := (bind c (fun x => k))
  (at level 100, c at next level, right associativity) : py_scope.
Notation "c ;; k" := (bind c (fun _ => k))
  (at level 100, right associativity) : py_scope.
Local Open Scope py_scope.

Definition of_option {A} (e : exn) (o : option A) : M A :=
  match o with
  | Some a => ret a
  | None => raise e
  end.

(** [l[i]]. *)
Definition item {A} (l : list A) (i : nat) : M A := of_option IndexError (l !! i).

(** *** World updates *)

Definition tick (w : World) : World :=
  mkWorld (dirs w) (files w) (config_file w) (executable w) (console w)
          (stdin w) (S (ticks w)) (drawn w).

Definition emit (e : event) (w : World) : World :=
  mkWorld (dirs w) (files w) (config_file w) (executable w) (console w ++ [e])
          (stdin w) (ticks w) (drawn w).

Definition set_stdin (l : list input_item) (w : World) : World :=
  mkWorld (dirs w) (files w) (config_file w) (executable w) (console w)
          l (ticks w) (drawn w).

Definition set_files (f : gmap string string) (w : World) : World :=
  mkWorld (dirs w) f (config_file w) (executable w) (console w)
          (stdin w) (ticks w) (drawn w).

Definition set_dirs (d : gset string) (w : World) : World :=
  mkWorld d (files w) (config_file w) (executable w) (console w)
          (stdin w) (ticks w) (drawn w).

Definition set_config (c : option config_doc) (w : World) : World :=
  mkWorld (dirs w) (files w) c (executable w) (console w)
          (stdin w) (ticks w) (drawn w).

Definition set_executable (x : gset string) (w : World) : World :=
  mkWorld (dirs w) (files w) (config_file w) x (console w)
          (stdin w) (ticks w) (drawn w).

Definition draw (w : World) : World :=
  mkWorld (dirs w) (files w) (config_file w) (executable w) (console w)
          (stdin w) (ticks w) (S (drawn w)).

(** *** File-system and console primitives *)

(** [d / n] on paths. *)
Definition path_in (d n : string) : string := d +:+ "/" +:+ n.

(** [print(s)]. *)
Definition print (s : string) : M unit := fun w => (emit (Print s) w, Ok tt).

(** [os.path.exists(p)] and [Path.exists()]. *)
Definition path_exists (p : string) (w : World) : bool :=
  bool_decide (p ∈ dirs w) || bool_decide (is_Some (files w !! p)).

Definition exists_ (p : string) : M bool := fun w => (w, Ok (path_exists p w)).

(** [open(p)] for reading: the open file, given by its unread text. *)
Definition open_read (p : string) : M string :=
  fun w =>
    if bool_decide (p ∈ dirs w) then (w, Raise IsADirectoryError)
    else match files w !! p with
         | Some s => (w, Ok s)
         | None => (w, Raise FileNotFoundError)
         end.

(** [open(d / n, mode)] for writing: the directory [d] must exist and the
    path must not be a directory. *)
Definition check_writable (d p : string) : M unit :=
  fun w =>
    if bool_decide (p ∈ dirs w) then (w, Raise IsADirectoryError)
    else if bool_decide (d ∈ dirs w) then (w, Ok tt)
    else if bool_decide (is_Some (files w !! d)) then (w, Raise NotADirectoryError)
    else (w, Raise FileNotFoundError).

(** [with open(d / n, 'w') as f: f.write(s)]. *)
Definition write_file (d n s : string) : M unit :=
  let p := path_in d n in
  check_writable d p ;;
  fun w => (set_files (<[p := s]> (files w)) w, Ok tt).

(** [with open(d / n, 'a') as f: f.write(s)]. *)
Definition append_file (d n s : string) : M unit :=
  let p := path_in d n in
  check_writable d p ;;
  fun w => (set_files (<[p := default EmptyString (files w !! p) +:+ s]> (files w)) w, Ok tt).

(** [p.mkdir(parents=True, exist_ok=True)]. *)
Definition mkdir_p (p : string) : M unit :=
  fun w =>
    if bool_decide (is_Some (files w !! p)) then (w, Raise FileExistsError)
    else (set_dirs ({[p]} ∪ dirs w) w, Ok tt).

(** [p.chmod(0o755)]. *)
Definition chmod_755 (p : string) : M unit :=
  fun w =>
    if path_exists p w then (set_executable ({[p]} ∪ executable w) w, Ok tt)
    else (w, Raise FileNotFoundError).

(** [input(prompt)]. *)
Definition input (prompt : string) : M string :=
  fun w =>
    let w1 := emit (Prompt prompt) w in
    match stdin w with
    | [] => (w1, Raise EOFError)
    | Line s :: rest => (set_stdin rest w1, Ok s)
    | Interrupt :: rest => (set_stdin rest w1, Raise KeyboardInterrupt)
    end.

(* ===================================================================== *)
(** ** Hardware detection *)
(* ===================================================================== *)

Section Deploy.

Variable host : Host.

Definition BASE_DIR : string := path_in (home host) ".local-ai-server".
Definition CONFIG_FILE : string := path_in BASE_DIR "config.json".
Definition LOG_DIR : string := path_in BASE_DIR "logs".
Definition MODELS_DIR : string := path_in BASE_DIR "models".
Definition DATA_DIR : string := path_in BASE_DIR "data".

Definition DEFAULT_CONFIG : Config :=
  {| llm_model := "Qwen/Qwen3-32B-Instruct";
     llm_backend := "vllm";
     llm_tensor_parallel_size := Some 1;
     llm_max_model_len := 4096;
     llm_gpu_memory_utilization := "0.85";
     llm_quantization := "awq";
     embedding_model := "BAAI/bge-large-en-v1.5";
     embedding_device := "cpu";
     server_vllm_host := "0.0.0.0";
     server_vllm_port := 8000;
     server_anythingllm_port := 3001;
     paths_base_dir := BASE_DIR;
     paths_models_dir := MODELS_DIR;
     paths_data_dir := DATA_DIR |}.

(** [run_command(cmd)]: the shell runs the command and its exit status and
    output come back; [check] is never set, so nothing is raised. *)
Definition run_command (cmd : string) : M proc :=
  fun w => (tick w, Ok (shell host (ticks w) cmd)).

(** The search for the toolkit version in the output of [nvcc --version]:
    the first line that mentions a release and splits on the word decides. *)
Fixpoint scan_release (lines : list string) : string :=
  match lines with
  | [] => "Unknown"
  | line :: rest =>
      if Py.contains "release" (Py.lower line)
      then match Py.split "release" line with
           | _ :: p1 :: _ => Py.strip (hd EmptyString (Py.split "," p1))
           | _ => scan_release rest
           end
      else scan_release rest
  end.

(** The loop of [detect_gpus] over the lines of the device table. *)
Fixpoint gpu_rows (cuda : string) (lines : list string) : M (list GPUInfo) :=
  match lines with
  | [] => ret []
  | line :: rest =>
      match Py.strip line with
      | EmptyString => gpu_rows cuda rest
      | _ =>
          let parts := map Py.strip (Py.split "," line) in
          if (5 <=? length parts)%nat then
            p0 <- item parts 0 ;;
            cc_result <- run_command
              ("nvidia-smi --query-gpu=compute_cap --format=csv,noheader -i " +:+ p0) ;;
            let compute_cap :=
              if returncode cc_result =? 0 then Py.strip (stdout cc_result)
              else "Unknown" in
            idx <- of_option ValueError (Py.int_of_str p0) ;;
            p1 <- item parts 1 ;;
            p2 <- item parts 2 ;;
            total <- of_option ValueError (int_of_float host p2) ;;
            p3 <- item parts 3 ;;
            free <- of_option ValueError (int_of_float host p3) ;;
            p4 <- item parts 4 ;;
            gs <- gpu_rows cuda rest ;;
            ret (mkGPUInfo idx p1 total free p4 cuda compute_cap :: gs)
          else gpu_rows cuda rest
      end
  end.

(** The query for the device table. *)
Definition gpu_query : string :=
  "nvidia-smi --query-gpu=index,name,memory.total,memory.free,driver_version "
  +:+ "--format=csv,noheader,nounits".

Definition detect_gpus : M (list GPUInfo) :=
  result <- run_command gpu_query ;;
  if negb (returncode result =? 0) then ret []
  else
    cuda_result <- run_command "nvidia-smi --query-gpu=driver_version --format=csv,noheader" ;;
    nvcc_result <- run_command "nvcc --version" ;;
    let cuda :=
      if returncode nvcc_result =? 0
      then scan_release (Py.split Py.nl (stdout nvcc_result))
      else "Unknown" in
    gpu_rows cuda (Py.split Py.nl (Py.strip (stdout result))).

(** The value of a [KEY=value] line of the OS release file. *)
Definition release_value (line : string) : M string :=
  v <- item (Py.split "=" line) 1 ;;
  ret (Py.strip_chars Py.dq (Py.strip v)).

Fixpoint os_release_rows (lines : list string) (nm ver : string) : M (string * string) :=
  match lines with
  | [] => ret (nm, ver)
  | line :: rest =>
      if Py.startswith "NAME=" line then
        v <- release_value line ;; os_release_rows rest v ver
      else if Py.startswith "VERSION_ID=" line then
        v <- release_value line ;; os_release_rows rest nm v
      else os_release_rows rest nm ver
  end.

Fixpoint cpuinfo_rows (lines : list string) (model : string) : M string :=
  match lines with
  | [] => ret model
  | line :: rest =>
      if Py.startswith "model name" line then
        v <- item (Py.split ":" line) 1 ;; ret (Py.strip v)
      else cpuinfo_rows rest model
  end.

(** [int(line.split()[1]) / 1024 / 1024]. *)
Definition meminfo_value (line : string) : M gigabytes :=
  v <- item (Py.split_ws line) 1 ;;
  kb <- of_option ValueError (Py.int_of_str v) ;;
  ret (GB_of_kB kb).

Fixpoint meminfo_rows (lines : list string) (total avail : gigabytes)
  : M (gigabytes * gigabytes) :=
  match lines with
  | [] => ret (total, avail)
  | line :: rest =>
      if Py.startswith "MemTotal:" line then
        v <- meminfo_value line ;; meminfo_rows rest v avail
      else if Py.startswith "MemAvailable:" line then
        v <- meminfo_value line ;; meminfo_rows rest total v
      else meminfo_rows rest total avail
  end.

(** [if os.path.exists(p): with open(p) as f: ...] over the lines of [p],
    with [dflt] the values the variables hold before. *)
Definition if_exists {A} (p : string) (dflt : A) (body : list string -> M A) : M A :=
  present <- exists_ p ;;
  if present
  then (text <- open_read p ;; body (Py.file_lines text))
  else ret dflt.

(** The three file-based parts of [detect_system]. *)
Definition detect_os : M (string * string) :=
  if_exists "/etc/os-release" ("Unknown", "Unknown")
    (fun ls => os_release_rows ls "Unknown" "Unknown").

Definition detect_cpu : M string :=
  if_exists "/proc/cpuinfo" "Unknown" (fun ls => cpuinfo_rows ls "Unknown").

Definition detect_ram : M (gigabytes * gigabytes) :=
  if_exists "/proc/meminfo" (GB_zero, GB_zero)
    (fun ls => meminfo_rows ls GB_zero GB_zero).

Definition detect_system : M SystemInfo :=
  os <- detect_os ;;
  let cores := default 0 (cpu_count host) in
  cpu <- detect_cpu ;;
  ram <- detect_ram ;;
  gs <- detect_gpus ;;
  docker_result <- run_command "docker --version" ;;
  nvidia_docker_result <-
    run_command "docker run --rm --gpus all nvidia/cuda:12.0-base nvidia-smi" ;;
  ret (mkSystemInfo (fst os) (snd os) cpu cores (fst ram) (snd ram) gs
         (0 <? length gs)%nat
         (returncode docker_result =? 0)
         (returncode nvidia_docker_result =? 0)).

(* ===================================================================== *)
(** ** The system report and its recommendations *)
(* ===================================================================== *)

(** ["=" * 60] and ["-" * 60]. *)
Definition rule_eq : string := Py.repeat_char "=" 60.
Definition rule_dash : string := Py.repeat_char "-" 60.

(** [sum(g.memory_total_mb for g in info.gpus)]. *)
Definition total_vram (info : SystemInfo) : Z :=
  fold_right Z.add 0 (map memory_total_mb (gpus info)).

Definition report_header (info : SystemInfo) : list string :=
  [ Py.nl +:+ rule_eq;
    "SYSTEM DETECTION REPORT";
    rule_eq;
    Py.nl +:+ "📦 Operating System: " +:+ os_name info +:+ " " +:+ os_version info;
    "🖥️  CPU: " +:+ cpu_model info +:+ " (" +:+ Py.str_of_int (cpu_cores info) +:+ " cores)";
    "🧠 RAM: " +:+ fmt_gb host (ram_available_gb info) +:+ " GB available / "
      +:+ fmt_gb host (ram_total_gb info) +:+ " GB total";
    Py.nl +:+ "🐳 Docker: "
      +:+ (if docker_available info then "✅ Available" else "❌ Not installed");
    "🎮 NVIDIA Docker: "
      +:+ (if nvidia_docker_available info then "✅ Available" else "❌ Not configured") ].

Definition report_gpu (gpu : GPUInfo) : list string :=
  [ Py.nl +:+ "  GPU " +:+ Py.str_of_int (index gpu) +:+ ": " +:+ name gpu;
    "    Memory: " +:+ fmt_mb_as_gb host (memory_free_mb gpu) +:+ " GB free / "
      +:+ fmt_mb_as_gb host (memory_total_mb gpu) +:+ " GB total";
    "    Driver: " +:+ driver_version gpu;
    "    CUDA: " +:+ cuda_version gpu;
    "    Compute Capability: " +:+ compute_capability gpu ].

(** The device section: the devices, or the notice that there is none. *)
Definition report_gpus (info : SystemInfo) : list string :=
  match gpus info with
  | [] => [ Py.nl +:+ "⚠️  No NVIDIA GPUs detected!" ]
  | _ :: _ =>
      [ Py.nl +:+ "🎯 GPUs Detected: " +:+ Py.str_of_int (Z.of_nat (length (gpus info)));
        "💾 Total VRAM: " +:+ fmt_mb_as_gb host (total_vram info) +:+ " GB" ]
      ++ concat (map report_gpu (gpus info))
  end.

(** The model recommendation, by number of devices and video memory. *)
Definition report_advice (info : SystemInfo) : list string :=
  if (2 <=? length (gpus info))%nat then
    if 45000 <=? total_vram info then
      [ "Sufficient VRAM for 70B model (4-bit quantized)";
        "   Recommended: Llama-3.3-70B-AWQ with tensor_parallel_size=2" ]
    else if 24000 <=? total_vram info then
      [ "Limited VRAM - recommend 32B or smaller model";
        "   Recommended: Qwen3-32B-Instruct or Gemma-3-27B" ]
    else []
  else
    match gpus info with
    | [g] =>
        if 30000 <=? memory_total_mb g then
          [ "RTX 5090 detected - excellent for 32B models";
            "   Recommended: Qwen3-32B-Instruct or Gemma-3-27B" ]
        else if 20000 <=? memory_total_mb g then
          [ "Single GPU with good VRAM";
            "   Recommended: Qwen3-14B-Instruct or Gemma-3-12B" ]
        else
          [ "Limited VRAM - recommend smaller model";
            "   Recommended: Qwen3-8B-Instruct" ]
    | _ => []
    end.

(** The remediation hints about the container engine. *)
Definition report_hints (info : SystemInfo) : list string :=
  (if negb (docker_available info)
   then [ Py.nl +:+ "⚠️  Docker not installed - required for deployment";
          "   Run: curl -fsSL https://get.docker.com | sh" ]
   else [])
  ++
  (if docker_available info && negb (nvidia_docker_available info)
   then [ Py.nl +:+ "⚠️  NVIDIA Container Toolkit not configured";
          "   Required for GPU access in Docker containers" ]
   else []).

Definition report_lines (info : SystemInfo) : list string :=
  report_header info
  ++ report_gpus info
  ++ [ Py.nl +:+ rule_dash; "RECOMMENDATIONS"; rule_dash ]
  ++ report_advice info
  ++ report_hints info
  ++ [ Py.nl +:+ rule_eq ].

Fixpoint print_all (ls : list string) : M unit :=
  match ls with
  | [] => ret tt
  | l :: rest => print l ;; print_all rest
  end.

Definition print_system_report (info : SystemInfo) : M unit :=
  print_all (report_lines info).

(* ===================================================================== *)
(** ** The installer *)
(* ===================================================================== *)

Record Installer := mkInstaller {
  auto_mode : bool;
  system_info : option SystemInfo
}.

(** [self.log(message, level)]: one console line; the time stamp in front
    of the message is not part of the model. *)
Definition log (message level : string) : M unit :=
  fun w => (emit (Log level message) w, Ok tt).

Definition confirm (self : Installer) (message : string) (dflt : bool) : M bool :=
  if auto_mode self then ret dflt
  else
    response <- input (message +:+ (if dflt then " [Y/n]: " else " [y/N]: ")) ;;
    match Py.lower (Py.strip response) with
    | EmptyString => ret dflt
    | r => ret (String.eqb r "y" || String.eqb r "yes")
    end.

Definition run_step (name command : string) (check : bool) : M bool :=
  log ("Running: " +:+ name) "INFO" ;;
  result <- run_command command ;;
  if negb (returncode result =? 0)
  then (log ("Failed: " +:+ name) "ERROR" ;; ret (negb check))
  else (log ("Completed: " +:+ name) "SUCCESS" ;; ret true).

Fixpoint make_dirs (ds : list string) : M unit :=
  match ds with
  | [] => ret tt
  | d :: rest => mkdir_p d ;; log ("Created: " +:+ d) "INFO" ;; make_dirs rest
  end.

(** [CONFIG_FILE.exists()] and [json.dump(c, f)] on [CONFIG_FILE]. *)
Definition config_exists : M bool := fun w => (w, Ok (bool_decide (is_Some (config_file w)))).

Definition dump_config (c : Config) : M unit :=
  fun w => (set_config (Some (cfg_ok c)) w, Ok tt).

Definition setup_directories : M (option bool) :=
  log "Setting up directories..." "INFO" ;;
  make_dirs [BASE_DIR; LOG_DIR; MODELS_DIR; DATA_DIR] ;;
  present <- config_exists ;;
  if present then ret None
  else (dump_config DEFAULT_CONFIG ;;
        log ("Created default config: " +:+ CONFIG_FILE) "INFO" ;;
        ret None).

(** [f.read()] on an open file: the unread text, and the file at its end. *)
Definition read (f : string) : string * string := (f, EmptyString).

Definition is_wsl : M bool :=
  try_except
    (f <- open_read "/proc/version" ;;
     let '(first, f1) := read f in
     if Py.contains "microsoft" (Py.lower first) then ret true
     else let '(second, _) := read f1 in
          ret (Py.contains "wsl" (Py.lower second)))
    (fun e => bool_decide (e = FileNotFoundError))
    (fun _ => ret false).

(** [for cmd in commands: if not self.run_step(prefix + cmd, cmd): return False]. *)
Fixpoint run_steps_checked (prefix : string) (cmds : list string) : M bool :=
  match cmds with
  | [] => ret true
  | cmd :: rest =>
      ok <- run_step (prefix +:+ cmd) cmd true ;;
      if ok then run_steps_checked prefix rest else ret false
  end.

(** [for x in items: self.run_step(name x, command x, check=False)]. *)
Fixpoint run_steps_unchecked (name command : string -> string) (items : list string)
  : M unit :=
  match items with
  | [] => ret tt
  | x :: rest =>
      run_step (name x) (command x) false ;; run_steps_unchecked name command rest
  end.

Definition install_nvidia_drivers (self : Installer) : M (option bool) :=
  log "Checking NVIDIA drivers..." "INFO" ;;
  wsl <- is_wsl ;;
  if wsl then
    log "WSL environment detected. NVIDIA drivers are managed by Windows host." "SUCCESS" ;;
    result <- run_command "nvidia-smi" ;;
    if negb (returncode result =? 0)
    then (log "⚠️  nvidia-smi failed. Ensure NVIDIA drivers are installed on Windows." "WARNING" ;;
          c <- confirm self "Continue anyway?" false ;;
          ret (Some c))
    else ret (Some true)
  else
    result <- run_command "nvidia-smi" ;;
    if returncode result =? 0
    then (log "NVIDIA drivers already installed" "SUCCESS" ;; ret (Some true))
    else
      c <- confirm self "NVIDIA drivers not found. Install them?" true ;;
      if negb c then ret (Some false)
      else
        ok <- run_steps_checked "Driver install: "
                [ "sudo apt-get update";
                  "sudo apt-get install -y ubuntu-drivers-common";
                  "sudo ubuntu-drivers autoinstall" ] ;;
        if negb ok then ret (Some false)
        else (log "NVIDIA drivers installed. REBOOT REQUIRED!" "WARNING" ;;
              ret (Some true)).

Definition cuda_path : string :=
  "export PATH=/usr/local/cuda/bin:$PATH" +:+ Py.nl
  +:+ "export LD_LIBRARY_PATH=/usr/local/cuda/lib64:$LD_LIBRARY_PATH" +:+ Py.nl.

Definition install_cuda_toolkit (self : Installer) : M (option bool) :=
  log "Checking CUDA toolkit..." "INFO" ;;
  result <- run_command "nvcc --version" ;;
  if returncode result =? 0
  then (log "CUDA toolkit already installed" "SUCCESS" ;; ret (Some true))
  else
    c <- confirm self "CUDA toolkit not found. Install it?" true ;;
    if negb c then ret (Some false)
    else
      run_steps_unchecked (fun cmd => "CUDA install: " +:+ cmd) (fun cmd => cmd)
        [ "wget https://developer.download.nvidia.com/compute/cuda/repos/ubuntu2204/x86_64/cuda-keyring_1.1-1_all.deb";
          "sudo dpkg -i cuda-keyring_1.1-1_all.deb";
          "sudo apt-get update";
          "sudo apt-get install -y cuda-toolkit-12-4";
          "rm cuda-keyring_1.1-1_all.deb" ] ;;
      append_file (home host) ".bashrc" (Py.nl +:+ "# CUDA" +:+ Py.nl +:+ cuda_path) ;;
      log "CUDA toolkit installed. Run 'source ~/.bashrc' or restart terminal" "SUCCESS" ;;
      ret (Some true).

Definition install_docker (self : Installer) : M (option bool) :=
  log "Checking Docker..." "INFO" ;;
  result <- run_command "docker --version" ;;
  if returncode result =? 0
  then (log "Docker already installed" "SUCCESS" ;; ret (Some true))
  else
    c <- confirm self "Docker not found. Install it?" true ;;
    if negb c then ret (Some false)
    else
      ok <- run_step "Install Docker" "curl -fsSL https://get.docker.com | sh" true ;;
      if negb ok then ret (Some false)
      else
        match env_user host with
        | EmptyString => ret (Some true)
        | user =>
            run_step "Add user to docker group"
              ("sudo usermod -aG docker " +:+ user) false ;;
            ret (Some true)
        end.

Definition install_nvidia_container_toolkit (self : Installer) : M (option bool) :=
  log "Checking NVIDIA Container Toolkit..." "INFO" ;;
  result <- run_command "docker run --rm --gpus all nvidia/cuda:12.0-base nvidia-smi" ;;
  if returncode result =? 0
  then (log "NVIDIA Container Toolkit already working" "SUCCESS" ;; ret (Some true))
  else
    c <- confirm self "NVIDIA Container Toolkit not configured. Install it?" true ;;
    if negb c then ret (Some false)
    else
      run_steps_unchecked (fun _ => "NVIDIA Container Toolkit") (fun cmd => cmd)
        [ "curl -fsSL https://nvidia.github.io/libnvidia-container/gpgkey | sudo gpg --dearmor -o /usr/share/keyrings/nvidia-container-toolkit-keyring.gpg";
          "curl -s -L https://nvidia.github.io/libnvidia-container/stable/deb/nvidia-container-toolkit.list | sed 's#deb https://#deb [signed-by=/usr/share/keyrings/nvidia-container-toolkit-keyring.gpg] https://#g' | sudo tee /etc/apt/sources.list.d/nvidia-container-toolkit.list";
          "sudo apt-get update";
          "sudo apt-get install -y nvidia-container-toolkit";
          "sudo nvidia-ctk runtime configure --runtime=docker";
          "sudo systemctl restart docker" ] ;;
      log "NVIDIA Container Toolkit installed" "SUCCESS" ;;
      ret (Some true).

(** *** Manifest generation *)

(** [l[-1]] for the pieces of a split. *)
Definition last_piece (l : list string) : string := List.last l EmptyString.

(** A text given line by line, each line ended by a newline. *)
Definition text_of_lines (ls : list string) : string :=
  Py.concat (map (fun l => l +:+ Py.nl) ls).

Definition compose_lines (config : Config) (tensor_parallel : Z) : list string :=
  [ "version: '3.8'";
    EmptyString;
    "services:";
    "  # vLLM - LLM Inference Server with Multi-GPU support";
    "  vllm:";
    "    image: vllm/vllm-openai:latest";
    "    container_name: local-ai-vllm";
    "    runtime: nvidia";
    "    environment:";
    "      - NVIDIA_VISIBLE_DEVICES=all";
    "      - HF_TOKEN=${HF_TOKEN:-}";
    "    volumes:";
    "      - " +:+ MODELS_DIR +:+ ":/root/.cache/huggingface";
    "      - /dev/shm:/dev/shm";
    "    ports:";
    "      - " +:+ Py.dq +:+ Py.str_of_int (server_vllm_port config) +:+ ":8000" +:+ Py.dq;
    "    command: >";
    "      --model " +:+ llm_model config;
    "      --tensor-parallel-size " +:+ Py.str_of_int tensor_parallel;
    "      --max-model-len " +:+ Py.str_of_int (llm_max_model_len config);
    "      --gpu-memory-utilization " +:+ llm_gpu_memory_utilization config;
    "      --dtype auto";
    "      --trust-remote-code";
    "    deploy:";
    "      resources:";
    "        reservations:";
    "          devices:";
    "            - driver: nvidia";
    "              count: all";
    "              capabilities: [gpu]";
    "    healthcheck:";
    "      test: [" +:+ Py.dq +:+ "CMD" +:+ Py.dq +:+ ", " +:+ Py.dq +:+ "curl" +:+ Py.dq +:+ ", " +:+ Py.dq +:+ "-f" +:+ Py.dq +:+ ", " +:+ Py.dq +:+ "http://localhost:8000/health" +:+ Py.dq +:+ "]";
    "      interval: 30s";
    "      timeout: 10s";
    "      retries: 5";
    "      start_period: 300s";
    "    restart: unless-stopped";
    EmptyString;
    "  # AnythingLLM - RAG + Web UI";
    "  anythingllm:";
    "    image: mintplexlabs/anythingllm:latest";
    "    container_name: local-ai-anythingllm";
    "    volumes:";
    "      - " +:+ DATA_DIR +:+ "/anythingllm:/app/server/storage";
    "      - " +:+ DATA_DIR +:+ "/documents:/app/server/storage/documents";
    "    ports:";
    "      - " +:+ Py.dq +:+ Py.str_of_int (server_anythingllm_port config) +:+ ":3001" +:+ Py.dq;
    "    environment:";
    "      - STORAGE_DIR=/app/server/storage";
    "      - LLM_PROVIDER=generic-openai";
    "      - GENERIC_OPEN_AI_BASE_PATH=http://vllm:8000/v1";
    "      - GENERIC_OPEN_AI_MODEL_PREF=" +:+ last_piece (Py.split "/" (llm_model config));
    "      - GENERIC_OPEN_AI_MODEL_TOKEN_LIMIT=" +:+ Py.str_of_int (llm_max_model_len config);
    "      - EMBEDDING_ENGINE=native";
    "      - VECTOR_DB=lancedb";
    "      - TTS_PROVIDER=native";
    "      - PASSWORDLESS_AUTH=false";
    "    depends_on:";
    "      vllm:";
    "        condition: service_healthy";
    "    healthcheck:";
    "      test: [" +:+ Py.dq +:+ "CMD" +:+ Py.dq +:+ ", " +:+ Py.dq +:+ "curl" +:+ Py.dq +:+ ", " +:+ Py.dq +:+ "-f" +:+ Py.dq +:+ ", " +:+ Py.dq +:+ "http://localhost:3001/api/ping" +:+ Py.dq +:+ "]";
    "      interval: 30s";
    "      timeout: 10s";
    "      retries: 3";
    "    restart: unless-stopped";
    EmptyString;
    "volumes:";
    "  vllm-models:";
    "  anythingllm-storage:";
    EmptyString;
    "networks:";
    "  default:";
    "    name: local-ai-network" ].

Definition docker_compose (config : Config) (tensor_parallel : Z) : string :=
  text_of_lines (compose_lines config tensor_parallel).

(** The configuration [create_docker_compose] works from: the defaults when
    there is no file, the document of the file otherwise. *)
Definition loaded (w : World) : result Config :=
  match config_file w with
  | None => Ok DEFAULT_CONFIG
  | Some (cfg_ok c) => Ok c
  | Some cfg_bad => Raise ValueError
  end.

Definition load_config : M Config := fun w => (w, loaded w).

(** The tensor-parallel degree that goes into the manifest: the configured
    one (2 when the key is missing), bounded by the number of detected
    devices when a hardware snapshot is at hand. *)
Definition manifest_tensor_parallel (self : Installer) (config : Config) : Z :=
  let tensor_parallel := default 2 (llm_tensor_parallel_size config) in
  match system_info self with
  | Some info => Z.min tensor_parallel (Z.of_nat (length (gpus info)))
  | None => tensor_parallel
  end.

Definition create_docker_compose (self : Installer) : M (option bool) :=
  log "Creating Docker Compose configuration..." "INFO" ;;
  config <- load_config ;;
  let tensor_parallel := manifest_tensor_parallel self config in
  write_file BASE_DIR "docker-compose.yml" (docker_compose config tensor_parallel) ;;
  log ("Created: " +:+ path_in BASE_DIR "docker-compose.yml") "SUCCESS" ;;
  ret (Some true).

(** *** Secrets file and helper scripts *)

Definition env_lines (token : string) : list string :=
  [ "# Local AI Server Environment Variables";
    "# Add your HuggingFace token here for gated models (e.g., Llama-2)";
    "HF_TOKEN=";
    EmptyString;
    "# Auto-generated vLLM API Key (do not share!)";
    "VLLM_API_KEY=" +:+ token;
    EmptyString;
    "# Optional: Anthropic API key for fallback";
    "ANTHROPIC_API_KEY=";
    EmptyString;
    "# Optional: OpenAI API key for fallback";
    "OPENAI_API_KEY=" ].

Definition start_script_lines : list string :=
  [ "#!/bin/bash";
    "cd " +:+ BASE_DIR;
    "docker compose --env-file .env up -d";
    "echo " +:+ Py.dq +:+ "Services starting..." +:+ Py.dq;
    "echo " +:+ Py.dq +:+ "vLLM API: http://localhost:8000" +:+ Py.dq;
    "echo " +:+ Py.dq +:+ "AnythingLLM UI: http://localhost:3001" +:+ Py.dq;
    "echo " +:+ Py.dq +:+ Py.dq;
    "echo " +:+ Py.dq +:+ "Use 'docker compose logs -f' to view logs" +:+ Py.dq ].

Definition stop_script_lines : list string :=
  [ "#!/bin/bash";
    "cd " +:+ BASE_DIR;
    "docker compose down";
    "echo " +:+ Py.dq +:+ "Services stopped." +:+ Py.dq ].

Definition status_script_lines : list string :=
  [ "#!/bin/bash";
    "cd " +:+ BASE_DIR;
    "echo " +:+ Py.dq +:+ "=== Container Status ===" +:+ Py.dq;
    "docker compose ps";
    "echo " +:+ Py.dq +:+ Py.dq;
    "echo " +:+ Py.dq +:+ "=== GPU Usage ===" +:+ Py.dq;
    "nvidia-smi --query-gpu=index,name,utilization.gpu,memory.used,memory.total --format=csv";
    "echo " +:+ Py.dq +:+ Py.dq;
    "echo " +:+ Py.dq +:+ "=== Service Health ===" +:+ Py.dq;
    "curl -s http://localhost:8000/health && echo " +:+ Py.dq +:+ " vLLM: OK" +:+ Py.dq +:+ " || echo " +:+ Py.dq +:+ "vLLM: DOWN" +:+ Py.dq;
    "curl -s http://localhost:3001/api/ping && echo " +:+ Py.dq +:+ " AnythingLLM: OK" +:+ Py.dq +:+ " || echo " +:+ Py.dq +:+ "AnythingLLM: DOWN" +:+ Py.dq ].

Definition logs_script_lines : list string :=
  [ "#!/bin/bash";
    "cd " +:+ BASE_DIR;
    "docker compose logs -f " +:+ Py.dq +:+ "$@" +:+ Py.dq ].

(** [os.urandom(16).hex()]. *)
Definition urandom_token : M string :=
  fun w => (draw w, Ok (urandom_hex host (drawn w))).

Definition create_env_file : M (option bool) :=
  present <- exists_ (path_in BASE_DIR ".env") ;;
  if present
  then (log ".env file already exists, skipping" "INFO" ;; ret (Some true))
  else (token <- urandom_token ;;
        write_file BASE_DIR ".env" (text_of_lines (env_lines token)) ;;
        log ("Created: " +:+ path_in BASE_DIR ".env") "SUCCESS" ;;
        log "Edit .env file to add your HuggingFace token for gated models" "WARNING" ;;
        ret (Some true)).

Definition write_script (n : string) (ls : list string) : M unit :=
  write_file BASE_DIR n (text_of_lines ls) ;;
  chmod_755 (path_in BASE_DIR n).

Definition create_management_scripts : M (option bool) :=
  write_script "start.sh" start_script_lines ;;
  write_script "stop.sh" stop_script_lines ;;
  write_script "status.sh" status_script_lines ;;
  write_script "logs.sh" logs_script_lines ;;
  log "Created management scripts in ~/.local-ai-server/" "SUCCESS" ;;
  ret (Some true).

Definition pull_images : M (option bool) :=
  log "Pulling Docker images (this may take a while)..." "INFO" ;;
  run_steps_unchecked (fun image => "Pulling " +:+ image)
    (fun image => "docker pull " +:+ image)
    [ "vllm/vllm-openai:latest";
      "mintplexlabs/anythingllm:latest" ] ;;
  ret (Some true).

(** *** The installation run *)

Definition steps (self : Installer) : list (string * M (option bool)) :=
  [ ("Setup directories", setup_directories);
    ("Install NVIDIA drivers", install_nvidia_drivers self);
    ("Install CUDA toolkit", install_cuda_toolkit self);
    ("Install Docker", install_docker self);
    ("Install NVIDIA Container Toolkit", install_nvidia_container_toolkit self);
    ("Create Docker Compose", create_docker_compose self);
    ("Create .env file", create_env_file);
    ("Create management scripts", create_management_scripts);
    ("Pull Docker images", pull_images) ].

(** The heading logged before a step is attempted. *)
Definition banner (name : string) : string :=
  Py.nl +:+ Py.repeat_char "=" 40 +:+ Py.nl +:+ name +:+ Py.nl +:+ Py.repeat_char "=" 40.

(** One turn of the loop over the steps: the heading, then the step inside
    [try ... except Exception].  The result tells whether the loop goes on
    ([true]) or the run returns [False]. *)
Definition attempt (self : Installer) (name : string) (func : M (option bool)) : M bool :=
  log (banner name) "INFO" ;;
  try_except
    (result <- func ;;
     match result with
     | Some false =>
         log ("Step failed: " +:+ name) "ERROR" ;;
         confirm self "Continue anyway?" true
     | _ => ret true
     end)
    is_Exception
    (fun e =>
       log ("Error in " +:+ name +:+ ": " +:+ exn_message host e) "ERROR" ;;
       confirm self "Continue anyway?" true).

Fixpoint run_steps (self : Installer) (l : list (string * M (option bool))) : M bool :=
  match l with
  | [] => ret true
  | (name, func) :: rest =>
      go_on <- attempt self name func ;;
      if go_on then run_steps self rest else ret false
  end.

Definition summary_lines : list string :=
  [ EmptyString;
    "📁 Installation directory: " +:+ BASE_DIR;
    EmptyString;
    "🚀 To start the server:";
    "   cd " +:+ BASE_DIR;
    "   ./start.sh";
    EmptyString;
    "   Or: docker compose up -d";
    EmptyString;
    "🌐 Access points:";
    "   - AnythingLLM UI: http://localhost:3001";
    "   - vLLM API: http://localhost:8000/v1";
    EmptyString;
    "📋 Management commands:";
    "   - Start:  " +:+ BASE_DIR +:+ "/start.sh";
    "   - Stop:   " +:+ BASE_DIR +:+ "/stop.sh";
    "   - Status: " +:+ BASE_DIR +:+ "/status.sh";
    "   - Logs:   " +:+ BASE_DIR +:+ "/logs.sh";
    EmptyString;
    "⚠️  Important:";
    "   1. Edit " +:+ BASE_DIR +:+ "/.env to add your HuggingFace token";
    "   2. First startup may take 10-30 minutes to download the model";
    "   3. Check logs with: docker compose logs -f vllm" ].

Definition run_full_install (self0 : Installer) : M bool :=
  log "Starting full installation..." "INFO" ;;
  info <- detect_system ;;
  let self := mkInstaller (auto_mode self0) (Some info) in
  print_system_report info ;;
  go <- confirm self (Py.nl +:+ "Proceed with installation?") true ;;
  if negb go then ret false
  else
    finished <- run_steps self (steps self) ;;
    if negb finished then ret false
    else
      print (Py.nl +:+ rule_eq) ;;
      print "INSTALLATION COMPLETE" ;;
      print rule_eq ;;
      print (text_of_lines summary_lines) ;;
      ret true.

(* ===================================================================== *)
(** ** Service management *)
(* ===================================================================== *)

(** [os.chdir(d)]. *)
Definition chdir (d : string) : M unit :=
  fun w =>
    if bool_decide (d ∈ dirs w) then (w, Ok tt)
    else if bool_decide (is_Some (files w !! d)) then (w, Raise NotADirectoryError)
    else (w, Raise FileNotFoundError).

(** [subprocess.run(argv)]: the exit status, or [FileNotFoundError] when
    the program cannot be started. *)
Definition subprocess_run (argv : list string) : M Z :=
  fun w => (tick w, match spawn host (ticks w) argv with
                    | Some rc => Ok rc
                    | None => Raise FileNotFoundError
                    end).

(** [urllib.request.urlopen(url, timeout=5)]. *)
Definition urlopen_get (url : string) : M unit :=
  fun w => (tick w, if urlopen host (ticks w) url then Ok tt else Raise URLError).

Definition start_services : M unit :=
  chdir BASE_DIR ;;
  subprocess_run ["docker"; "compose"; "--env-file"; ".env"; "up"; "-d"] ;;
  print (Py.nl +:+ "🚀 Services starting...") ;;
  print "   vLLM API: http://localhost:8000" ;;
  print "   AnythingLLM UI: http://localhost:3001" ;;
  print (Py.nl +:+ "   Use 'docker compose logs -f' to monitor startup").

Definition stop_services : M unit :=
  chdir BASE_DIR ;;
  subprocess_run ["docker"; "compose"; "down"] ;;
  print "Services stopped.".

Definition status_gpu_argv : list string :=
  [ "nvidia-smi";
    "--query-gpu=index,name,utilization.gpu,memory.used,memory.total";
    "--format=csv" ].

Definition show_status : M unit :=
  chdir BASE_DIR ;;
  print "=== Container Status ===" ;;
  subprocess_run ["docker"; "compose"; "ps"] ;;
  print (Py.nl +:+ "=== GPU Usage ===") ;;
  subprocess_run status_gpu_argv ;;
  print (Py.nl +:+ "=== Service Health ===") ;;
  try_except
    (urlopen_get "http://localhost:8000/health" ;; print "✅ vLLM: Running")
    (fun _ => true)
    (fun _ => print "❌ vLLM: Not responding") ;;
  try_except
    (urlopen_get "http://localhost:3001/api/ping" ;; print "✅ AnythingLLM: Running")
    (fun _ => true)
    (fun _ => print "❌ AnythingLLM: Not responding").

(* ===================================================================== *)
(** ** Entry point *)
(* ===================================================================== *)

(** The subcommands of the command line. *)
Inductive command : Type :=
  | Detect
  | Install (auto : bool)
  | Serve
  | Start
  | Stop
  | Status.

(** [sys.exit(n)]. *)
Definition sys_exit {A} (n : Z) : M A := raise (SystemExit n).

(** [if not BASE_DIR.exists(): print(msg); sys.exit(1)]. *)
Definition require_installed (msg : string) : M unit :=
  present <- exists_ BASE_DIR ;;
  if present then ret tt else (print msg ;; sys_exit 1).

Definition main (cmd : command) : M unit :=
  match cmd with
  | Detect =>
      info <- detect_system ;;
      print_system_report info ;;
      write_file (home host) "hardware_report.json" (report_json host info) ;;
      print (Py.nl +:+ "Report saved to: " +:+ path_in (home host) "hardware_report.json")
  | Install auto =>
      success <- run_full_install (mkInstaller auto None) ;;
      sys_exit (if success then 0 else 1)
  | Serve | Start =>
      require_installed "❌ Not installed. Run 'python3 deploy.py install' first." ;;
      start_services
  | Stop =>
      require_installed "❌ Not installed." ;;
      stop_services
  | Status =>
      require_installed "❌ Not installed." ;;
      show_status
  end.

(** The exit status of the process: [sys.exit]'s argument, 0 when [main]
    returns, 1 when an exception escapes, 130 for the user's interrupt. *)
Definition exit_status {A} (r : result A) : Z :=
  match r with
  | Ok _ => 0
  | Raise (SystemExit n) => n
  | Raise KeyboardInterrupt => 130
  | Raise _ => 1
  end.

Definition run (cmd : command) (w : World) : World * Z :=
  let '(w', r) := main cmd w in (w', exit_status r).

End Deploy.

(** What a device descriptor owes to a row of the device table: its total
    and free memory are [int(float(.))] of the third and fourth fields. *)
Definition reported (host : Host) (line : string) (g : GPUInfo) : Prop :=
  let parts := map Py.strip (Py.split "," line) in
  exists p2 p3,
    parts !! 2%nat = Some p2 /\ parts !! 3%nat = Some p3
    /\ int_of_float host p2 = Some (memory_total_mb g)
    /\ int_of_float host p3 = Some (memory_free_mb g).

(** The tensor-parallel degree a printed recommendation advises: the
    integer that follows [tensor_parallel_size=] in the first line that
    has one. *)
Fixpoint advised_degree (lines : list string) : option Z :=
  match lines with
  | [] => None
  | line :: rest =>
      match Py.split "tensor_parallel_size=" line with
      | [_; v] => Py.int_of_str v
      | _ => advised_degree rest
      end
  end.

(* ===================================================================== *)
(** ** Sample machines *)
(* ===================================================================== *)

Module Sample.

(** [int(float(s))] on integer numerals (below 2^53, where the detour
    through a float loses nothing) and on texts that are no number at
    all, which raise [ValueError]. *)
Definition numeral_int_of_float (s : string) : option Z := Py.int_of_str s.

(** A machine given by its shell; no program can be spawned directly and
    no service answers. *)
Definition machine (sh : nat -> string -> proc) (can_spawn : bool) : Host :=
  {| home := "/home/user";
     shell := sh;
     spawn := fun _ _ => if can_spawn then Some 1 else None;
     urlopen := fun _ _ => false;
     urandom_hex := fun _ => "000102030405060708090a0b0c0d0e0f";
     cpu_count := Some 8;
     int_of_float := numeral_int_of_float;
     fmt_gb := fun _ => "0.0";
     fmt_mb_as_gb := fun _ => "0.0";
     env_user := "user";
     exn_message := fun _ => "error";
     report_json := fun _ => "{}" |}.

Definition not_found : proc := mkProc 127 EmptyString.

(** No tool is installed: every command ends with status 127. *)
Definition bare : Host := machine (fun _ _ => not_found) false.

(** The device query answers with [table]; every other command fails. *)
Definition with_gpu_table (table : string) : Host :=
  machine (fun _ cmd =>
             if Py.startswith "nvidia-smi --query-gpu=index" cmd
             then mkProc 0 table else not_found) true.

Definition nothing : World :=
  {| dirs := ∅; files := ∅; config_file := None; executable := ∅;
     console := []; stdin := []; ticks := 0; drawn := 0 |}.

(** A machine on which the base directory exists and nothing else. *)
Definition installed (h : Host) : World :=
  {| dirs := {[ BASE_DIR h ]}; files := ∅; config_file := None; executable := ∅;
     console := []; stdin := []; ticks := 0; drawn := 0 |}.

Definition gpu (i mb : Z) : GPUInfo :=
  mkGPUInfo i "GPU" mb mb "570.86" "12.4" "9.0".

Definition snapshot (gs : list GPUInfo) : SystemInfo :=
  mkSystemInfo "Ubuntu" "22.04" "CPU" 8 (GB_of_kB 65536000) (GB_of_kB 60000000)
    gs (0 <? length gs)%nat true true.

End Sample.


(* ===================================================================== *)
(** ** Vocabulary of the properties *)
(* ===================================================================== *)

(** Between [w] and [w'] the state the installer manages is the same,
    except the files at the paths in [T] and, when [D] is set, the number
    of random tokens drawn. *)
Record frame (T : list string) (D : bool) (w w' : World) : Prop := mkFrame {
  frame_dirs : dirs w' = dirs w;
  frame_config : config_file w' = config_file w;
  frame_drawn : D = false -> drawn w' = drawn w;
  frame_files : forall p, p ∉ T -> files w' !! p = files w !! p
}.

(** A computation that raises nothing but subclasses of [Exception]. *)
Definition benign {A} (c : M A) : Prop :=
  forall w e, snd (c w) = Raise e -> is_Exception e = true.

(** A computation that stays within a frame and is benign. *)
Definition tame {A} (T : list string) (D : bool) (c : M A) : Prop :=
  (forall w, frame T D w (fst (c w))) /\ benign c.

(** The manifest file after the manifest step, from the world before it. *)
Definition manifest_after (host : Host) (self : Installer) (w : World) : option string :=
  let old := files w !! path_in (BASE_DIR host) "docker-compose.yml" in
  match loaded host w with
  | Raise _ => old
  | Ok c =>
      if bool_decide (path_in (BASE_DIR host) "docker-compose.yml" ∈ dirs w) then old
      else if bool_decide (BASE_DIR host ∈ dirs w)
           then Some (docker_compose host c (manifest_tensor_parallel self c))
           else old
  end.

(** The world after the loop has attempted the given steps one after the
    other, none left out. *)
Definition after_attempts (host : Host) (self : Installer)
    (l : list (string * M (option bool))) (w : World) : World :=
  fold_left (fun w st => fst (attempt host self (fst st) (snd st) w)) l w.

(** What the directories step may change: it creates some of its four
    directories (none when the base directory's path is taken by a file,
    the base directory at least otherwise) and writes the default
    configuration when there is none; what loading the configuration gives
    is the same before and after. *)
Definition setup_effect (host : Host) (w w' : World) : Prop :=
  files w' = files w
  /\ drawn w' = drawn w
  /\ dirs w ⊆ dirs w'
  /\ (forall p, p ∈ dirs w' ->
        p ∈ dirs w
        \/ p ∈ [BASE_DIR host; LOG_DIR host; MODELS_DIR host; DATA_DIR host])
  /\ (is_Some (files w !! BASE_DIR host) -> dirs w' = dirs w)
  /\ (~ is_Some (files w !! BASE_DIR host) -> BASE_DIR host ∈ dirs w')
  /\ loaded host w' = loaded host w.

(** What one pass over the nine steps, or a whole unattended run, does to
    the manifest, the secrets file and what they depend on. *)
Definition pass_effect (host : Host) (self : Installer) (w w' : World) : Prop :=
  let B := BASE_DIR host in
  let P := path_in (BASE_DIR host) "docker-compose.yml" in
  let E := path_in (BASE_DIR host) ".env" in
  loaded host w' = loaded host w
  /\ dirs w ⊆ dirs w'
  /\ (P ∈ dirs w' <-> P ∈ dirs w)
  /\ (is_Some (files w !! B) -> dirs w' = dirs w)
  /\ (~ is_Some (files w !! B) -> B ∈ dirs w')
  /\ files w' !! B = files w !! B
  /\ files w' !! P =
       match loaded host w with
       | Raise _ => files w !! P
       | Ok c =>
           if bool_decide (P ∈ dirs w) then files w !! P
           else if bool_decide (B ∈ dirs w')
                then Some (docker_compose host c (manifest_tensor_parallel self c))
                else files w !! P
       end
  /\ (path_exists E w = true ->
      files w' !! E = files w !! E /\ drawn w' = drawn w).

(** A console event other than the heading of a step: headings are the
    log lines that begin with a newline and an equals sign. *)
Definition quiet (e : event) : bool :=
  match e with
  | Log _ m => negb (Py.startswith (Py.nl +:+ "=") m)
  | _ => true
  end.

(** The headings on a console, oldest first. *)
Definition headings (l : list event) : list event :=
  List.filter (fun e => negb (quiet e)) l.

(** A computation that puts no heading on the console. *)
Definition hushed {A} (c : M A) : Prop :=
  forall w, headings (console (fst (c w))) = headings (console w).

(** *** Vocabulary of the further properties *)

(** The position of the first command that ends with a non-zero status
    when the commands are run one after the other, the first of them as
    external call number [t]. *)
Fixpoint first_failure (host : Host) (t : nat) (cmds : list string) : option nat :=
  match cmds with
  | [] => None
  | cmd :: rest =>
      if returncode (shell host t cmd) =? 0
      then S <$> first_failure host (S t) rest
      else Some O
  end.

(** Whether the kernel version file of a world marks a Windows host. *)
Definition on_wsl (w : World) : bool :=
  match files w !! "/proc/version" with
  | Some content => Py.contains "microsoft" (Py.lower content)
  | None => false
  end.

(** The three commands of the driver installation. *)
Definition driver_commands : list string :=
  [ "sudo apt-get update";
    "sudo apt-get install -y ubuntu-drivers-common";
    "sudo ubuntu-drivers autoinstall" ].

(** Two worlds that differ at most by the external calls made and, when
    [P] holds, by lines printed: no directory, file, configuration,
    permission, random draw or line of input lies between them. *)
Record looked (P : bool) (w w' : World) : Prop := mkLooked {
  looked_dirs : dirs w' = dirs w;
  looked_files : files w' = files w;
  looked_config : config_file w' = config_file w;
  looked_executable : executable w' = executable w;
  looked_stdin : stdin w' = stdin w;
  looked_drawn : drawn w' = drawn w;
  looked_console :
    if P then exists ls, console w' = console w ++ map Print ls
    else console w' = console w
}.

(** A computation that only looks. *)
Definition observer {A} (P : bool) (c : M A) : Prop := forall w, looked P w (fst (c w)).

(** Standard input that gives no consent to a question whose default is
    yes: it is at its end, or its next line is neither blank nor "y" nor
    "yes". *)
Definition refused (l : list input_item) : bool :=
  match l with
  | [] => true
  | Line r :: _ =>
      match Py.lower (Py.strip r) with
      | EmptyString => false
      | a => negb (String.eqb a "y" || String.eqb a "yes")
      end
  | Interrupt :: _ => false
  end.

(** The four helper scripts of the installation. *)
Definition script_names : list string := ["start.sh"; "stop.sh"; "status.sh"; "logs.sh"].

(* ===================================================================== *)
(** ** The secrets file as the other tools read it *)
(* ===================================================================== *)

(** [s[n:]]. *)
Fixpoint str_drop (n : nat) (s : string) : string :=
  match n, s with
  | O, _ => s
  | S k, String _ r => str_drop k r
  | S _, EmptyString => EmptyString
  end.

(** [s.split(sep, 1)] for a non-empty separator: the text before the
    first occurrence of [sep] and the text after it, or [s] alone when
    there is none.  [cur] is the piece under construction. *)
Fixpoint split1_go (sep s cur : string) : list string :=
  match s with
  | EmptyString => [cur]
  | String c r =>
      if Py.startswith sep s
      then [cur; str_drop (String.length sep) s]
      else split1_go sep r (cur +:+ String c EmptyString)
  end.

Definition split1 (sep s : string) : list string := split1_go sep s EmptyString.

(** A text without white space. *)
Fixpoint spaceless (s : string) : bool :=
  match s with
  | EmptyString => true
  | String c r => negb (Py.is_space c) && spaceless r
  end.

(** [test_server.py]. *)
Module TestServer.
Section TestServer.

Variable host : Host.

(** [Path.home() / ".local-ai-server" / ".env"]. *)
Definition env_path : string := path_in (path_in (home host) ".local-ai-server") ".env".

(** The loop over the lines of the secrets file: [Some key] when a line
    makes the function return, [None] when the loop runs out. *)
Fixpoint api_key_rows (lines : list string) : M (option string) :=
  match lines with
  | [] => ret None
  | line :: rest =>
      if Py.startswith "VLLM_API_KEY=" line
      then (v <- item (split1 "=" line) 1 ;; ret (Some (Py.strip v)))
      else api_key_rows rest
  end.

Definition get_api_key : M string :=
  found <- try_except
             (present <- exists_ env_path ;;
              if present
              then (f <- open_read env_path ;; api_key_rows (Py.file_lines f))
              else ret None)
             is_Exception
             (fun _ => ret None) ;;
  match found with
  | Some key => ret key
  | None => ret "not-needed"
  end.

End TestServer.
End TestServer.

(** [models.py]. *)
Module Models.

(** The numbers of sizes are floats in the source; the table holds whole
    numbers only. *)
Record ModelInfo := mkModelInfo {
  id : string;
  name : string;
  size_gb : Z;
  vram_required_gb : Z;
  min_gpus : Z;
  quantization : string;
  description : string;
  use_case : string;
  hf_gated : bool
}.

Definition MODELS : list ModelInfo :=
  [
    mkModelInfo "Qwen/Qwen3-32B-Instruct"
      "Qwen3 32B Instruct (2026 SOTA)"
      18 22 1 "awq"
      "Top-tier 2026 model, excellent reasoning, multilingual, 128k context"
      "General purpose, reasoning, analysis, multilingual"
      false;
    mkModelInfo "Qwen/Qwen3-Coder-32B"
      "Qwen3 Coder 32B (2026 Best Coding)"
      18 22 1 "awq"
      "SOTA coding model for 2026, agentic capabilities"
      "Coding, debugging, code generation, SWE agents"
      false;
    mkModelInfo "google/gemma-3-27b"
      "Gemma 3 27B (2026)"
      15 18 1 "awq"
      "Google's latest, excellent performance-per-watt, strong reasoning"
      "General purpose, efficient deployment"
      false;
    mkModelInfo "casperhansen/llama-3.3-70b-instruct-awq"
      "Llama 3.3 70B Instruct (AWQ)"
      37 30 1 "awq"
      "Meta's latest 70B, 128k context, high quality but tight VRAM fit"
      "High-quality general purpose, tool use"
      true;
    mkModelInfo "deepseek-ai/DeepSeek-Coder-V2-Lite-Instruct"
      "DeepSeek Coder V2 Lite 16B"
      9 12 1 "awq"
      "Excellent specialized coding model, 300+ languages"
      "Code generation, completion, refactoring"
      false;
    mkModelInfo "Qwen/Qwen3-14B-Instruct"
      "Qwen3 14B Instruct"
      8 11 1 "awq"
      "Balanced performance, good quality at smaller size"
      "General purpose, resource-efficient"
      false;
    mkModelInfo "mistralai/Ministral-14B-2507"
      "Ministral 14B (2026)"
      8 11 1 "awq"
      "Mistral's edge model with vision capabilities"
      "General purpose, multimodal"
      false;
    mkModelInfo "Qwen/Qwen3-8B-Instruct"
      "Qwen3 8B Instruct"
      5 7 1 "awq"
      "Fast 8B model with strong performance"
      "General purpose, fast responses"
      false;
    mkModelInfo "google/gemma-3-12b"
      "Gemma 3 12B (2026)"
      7 9 1 "awq"
      "Google's efficient mid-size model"
      "General purpose, balanced"
      false;
    mkModelInfo "mistralai/Mistral-Small-3.2-Instruct"
      "Mistral Small 3.2 7B (2026)"
      4 6 1 "awq"
      "Latest Mistral small model, very fast"
      "Fast responses, high throughput"
      false;
    mkModelInfo "google/gemma-3-4b"
      "Gemma 3 4B (2026)"
      3 5 1 "awq"
      "Smallest Gemma 3, excellent for testing and edge deployment"
      "Testing, edge deployment, rapid prototyping"
      false ].

Fixpoint find_by_id (model_id : string) (models : list ModelInfo) : option ModelInfo :=
  match models with
  | [] => None
  | model :: rest =>
      if String.eqb (id model) model_id then Some model else find_by_id model_id rest
  end.

Definition get_model_by_id (model_id : string) : option ModelInfo :=
  find_by_id model_id MODELS.

(** The three assignments to [config["llm"]]. *)
Definition with_model (model : ModelInfo) (config : Config) : Config :=
  {| llm_model := id model;
     llm_backend := llm_backend config;
     llm_tensor_parallel_size := Some (min_gpus model);
     llm_max_model_len := llm_max_model_len config;
     llm_gpu_memory_utilization := llm_gpu_memory_utilization config;
     llm_quantization := quantization model;
     embedding_model := embedding_model config;
     embedding_device := embedding_device config;
     server_vllm_host := server_vllm_host config;
     server_vllm_port := server_vllm_port config;
     server_anythingllm_port := server_anythingllm_port config;
     paths_base_dir := paths_base_dir config;
     paths_models_dir := paths_models_dir config;
     paths_data_dir := paths_data_dir config |}.

Section Models.

Variable host : Host.

(** [models.py] names the same file as [deploy.py] does. *)
Definition CONFIG_FILE : string :=
  path_in (path_in (home host) ".local-ai-server") "config.json".

(** A document that is not of the expected shape counts as one on which
    [json.load] or the assignments raise, as in [loaded]. *)
Definition update_config_model (model : ModelInfo) : M bool :=
  present <- config_exists ;;
  if negb present
  then (print ("❌ Config file not found: " +:+ CONFIG_FILE) ;;
        print "   Run 'python3 deploy.py install' first" ;;
        ret false)
  else
    config <- load_config host ;;
    dump_config (with_model model config) ;;
    print (Py.nl +:+ "✅ Config updated with model: " +:+ name model) ;;
    print ("   File: " +:+ CONFIG_FILE) ;;
    print (Py.nl +:+ "⚠️  You need to regenerate docker-compose.yml:") ;;
    print "   python3 deploy.py install" ;;
    print (Py.nl +:+ "   Then restart services:") ;;
    print "   docker compose down && docker compose up -d" ;;
    ret true.

(** [Path.home() / ".local-ai-server" / ".env"]. *)
Definition env_file : string := path_in (path_in (home host) ".local-ai-server") ".env".

(** The loop over the lines of the secrets file: [Some b] when a line
    makes the function return [b], [None] when the loop runs out. *)
Fixpoint hf_token_rows (lines : list string) : M (option bool) :=
  match lines with
  | [] => ret None
  | line :: rest =>
      if Py.startswith "HF_TOKEN=" line
      then (v <- item (split1 "=" line) 1 ;;
            let token := Py.strip v in
            ret (Some (0 <? String.length token)%nat))
      else hf_token_rows rest
  end.

Definition check_hf_token : M bool :=
  present <- exists_ env_file ;;
  if negb present then ret false
  else
    f <- open_read env_file ;;
    let '(content, _) := read f in
    if Py.contains "HF_TOKEN=" content
    then (returned <- hf_token_rows (Py.split Py.nl content) ;;
          match returned with
          | Some b => ret b
          | None => ret false
          end)
    else ret false.

End Models.
End Models.
(* ===================================================================== *)
(** ** Properties *)
(* ===================================================================== *)

(** *** The monad *)

Lemma bind_ok {A B} (c : M A) (k : A -> M B) w w' a :
  c w = (w', Ok a) -> bind c k w = k a w'.
Proof. intros E. unfold bind. now rewrite E. Qed.

Lemma bind_raise {A B} (c : M A) (k : A -> M B) w w' e :
  c w = (w', Raise e) -> bind c k w = (w', Raise e).
Proof. intros E. unfold bind. now rewrite E. Qed.

Lemma bind_inv {A B} (c : M A) (k : A -> M B) w w' b :
  bind c k w = (w', Ok b) ->
  exists w1 a, c w = (w1, Ok a) /\ k a w1 = (w', Ok b).
Proof.
  unfold bind. destruct (c w) as [w1 [a|e]]; intros E.
  - now exists w1, a.
  - discriminate.
Qed.

(** Reduction of the monad's plumbing and of the world's fields, leaving
    paths and texts as they are written. *)
Ltac mred :=
  cbv delta [bind ret raise try_except of_option item exists_];
  cbn [fst snd orb andb negb dirs files config_file executable console stdin ticks drawn
       emit tick draw set_files set_dirs set_config set_stdin set_executable].

Tactic Notation "mred" "in" hyp(H) :=
  cbv delta [bind ret raise try_except of_option item exists_] in H;
  cbn [fst snd orb andb negb dirs files config_file executable console stdin ticks drawn
       emit tick draw set_files set_dirs set_config set_stdin set_executable] in H.

Lemma bool_decide_false_not_elem (p : string) (d : gset string) :
  p ∉ d -> bool_decide (p ∈ d) = false.
Proof. intros H. now apply bool_decide_eq_false. Qed.
(** *** The virtualised-Linux check *)

(** C10.  [is_wsl] answers whether the kernel version file contains
    "microsoft" in any letter case, and answers no when there is no such
    file; the second test, for "wsl", reads a file that is already at its
    end, gets the empty text and so never holds. *)
Theorem is_wsl_only_microsoft :
  (forall (w : World) (content : string),
      "/proc/version" ∉ dirs w ->
      files w !! "/proc/version" = Some content ->
      is_wsl w = (w, Ok (Py.contains "microsoft" (Py.lower content))))
  /\ (forall w : World,
      "/proc/version" ∉ dirs w ->
      files w !! "/proc/version" = None ->
      is_wsl w = (w, Ok false))
  /\ (forall f : string,
      let f1 := snd (read f) in
      fst (read f1) = EmptyString
      /\ Py.contains "wsl" (Py.lower (fst (read f1))) = false).
Proof.
  split; [|split].
  - intros w content Hd Hf.
    unfold is_wsl, try_except, bind, open_read.
    rewrite (bool_decide_false_not_elem _ _ Hd), Hf. simpl.
    destruct (Py.contains "microsoft" (Py.lower content)); reflexivity.
  - intros w Hd Hf.
    unfold is_wsl, try_except, bind, open_read.
    rewrite (bool_decide_false_not_elem _ _ Hd), Hf. reflexivity.
  - intros f. simpl. split; reflexivity.
Qed.

Lemma is_wsl_only_microsoft_witness :
  let content := "Linux version 5.15.153.1-microsoft-standard-WSL2" in
  let w := set_files {[ "/proc/version" := content ]} Sample.nothing in
  is_wsl w = (w, Ok (Py.contains "microsoft" (Py.lower content))).
Proof.
  intros content w.
  apply (proj1 is_wsl_only_microsoft w content).
  - simpl. set_solver.
  - reflexivity.
Defined.

(** A kernel that names only WSL is not recognised. *)
Example is_wsl_misses_wsl_marker :
  snd (is_wsl (set_files {[ "/proc/version" := "Linux version 5.15 WSL2" ]} Sample.nothing))
  = Ok false.
Proof. reflexivity. Qed.
(** *** Manifest generation *)

Section Manifest.

Variable host : Host.

(** With a hardware snapshot at hand, the degree for the manifest is the
    smaller of the configured degree and the number of devices. *)
Lemma manifest_tensor_parallel_clamped (self : Installer) (c : Config) info T :
  system_info self = Some info ->
  llm_tensor_parallel_size c = Some T ->
  manifest_tensor_parallel self c = Z.min T (Z.of_nat (length (gpus info))).
Proof. intros Hs Ht. unfold manifest_tensor_parallel. now rewrite Hs, Ht. Qed.

(** Given a readable configuration and the base directory, the manifest
    step writes the rendered text and reports success. *)
Lemma create_docker_compose_writes (self : Installer) (c : Config) (w : World) :
  config_file w = Some (cfg_ok c) ->
  BASE_DIR host ∈ dirs w ->
  path_in (BASE_DIR host) "docker-compose.yml" ∉ dirs w ->
  files (fst (create_docker_compose host self w)) !! path_in (BASE_DIR host) "docker-compose.yml"
    = Some (docker_compose host c (manifest_tensor_parallel self c))
  /\ snd (create_docker_compose host self w) = Ok (Some true).
Proof.
  intros Hc Hb Hn.
  unfold create_docker_compose, log, load_config, loaded, write_file, check_writable.
  mred. rewrite Hc. mred.
  rewrite (bool_decide_false_not_elem _ _ Hn), (bool_decide_eq_true_2 _ Hb). mred.
  split; [apply lookup_insert_eq | reflexivity].
Qed.

(** C1.  On a machine without any detected device the degree written into
    the manifest is 0 for every configured degree of at least 1 (it is
    the smaller of the two numbers), not 1; the manifest is generated all
    the same. *)
Theorem manifest_tensor_parallel_no_gpu
    (self : Installer) (c : Config) (info : SystemInfo) (T : Z) (w : World) :
  system_info self = Some info ->
  gpus info = [] ->
  llm_tensor_parallel_size c = Some T ->
  1 <= T ->
  config_file w = Some (cfg_ok c) ->
  BASE_DIR host ∈ dirs w ->
  path_in (BASE_DIR host) "docker-compose.yml" ∉ dirs w ->
  manifest_tensor_parallel self c = 0
  /\ In "      --tensor-parallel-size 0"
        (compose_lines host c (manifest_tensor_parallel self c))
  /\ files (fst (create_docker_compose host self w)) !! path_in (BASE_DIR host) "docker-compose.yml"
     = Some (docker_compose host c 0)
  /\ snd (create_docker_compose host self w) = Ok (Some true).
Proof.
  intros Hs Hg Ht HT Hc Hb Hn.
  assert (E : manifest_tensor_parallel self c = 0).
  { rewrite (manifest_tensor_parallel_clamped self c info T Hs Ht), Hg. simpl. lia. }
  destruct (create_docker_compose_writes self c w Hc Hb Hn) as [Hw Hr].
  rewrite E in *. repeat split; try assumption.
  unfold compose_lines. simpl. tauto.
Qed.

(** The clamping law where it holds: with at least one device the degree
    in the manifest is [min(T, G)]. *)
Lemma manifest_tensor_parallel_some_gpu
    (self : Installer) (c : Config) (info : SystemInfo) (T : Z) :
  system_info self = Some info ->
  llm_tensor_parallel_size c = Some T ->
  (1 <= length (gpus info))%nat ->
  manifest_tensor_parallel self c = Z.min T (Z.of_nat (length (gpus info)))
  /\ In ("      --tensor-parallel-size "
          +:+ Py.str_of_int (Z.min T (Z.of_nat (length (gpus info)))))
        (compose_lines host c (manifest_tensor_parallel self c)).
Proof.
  intros Hs Ht _.
  rewrite (manifest_tensor_parallel_clamped self c info T Hs Ht).
  split; [reflexivity|]. unfold compose_lines. simpl. tauto.
Qed.

End Manifest.

Lemma manifest_tensor_parallel_no_gpu_witness :
  let h := Sample.bare in
  let self := mkInstaller true (Some (Sample.snapshot [])) in
  let c := DEFAULT_CONFIG h in
  let w := set_config (Some (cfg_ok c)) (Sample.installed h) in
  manifest_tensor_parallel self c = 0
  /\ In "      --tensor-parallel-size 0"
        (compose_lines h c (manifest_tensor_parallel self c))
  /\ files (fst (create_docker_compose h self w)) !! path_in (BASE_DIR h) "docker-compose.yml"
     = Some (docker_compose h c 0)
  /\ snd (create_docker_compose h self w) = Ok (Some true).
Proof.
  intros h self c w.
  apply (manifest_tensor_parallel_no_gpu h self c (Sample.snapshot []) 1 w).
  - reflexivity.
  - reflexivity.
  - reflexivity.
  - lia.
  - reflexivity.
  - vm_compute. set_solver.
  - vm_compute. set_solver.
Defined.
(** *** Recommendations *)

(** C3 (as amended).  With two or more devices and at least 45000 MB of
    combined video memory the report recommends the 70B-class model with
    the fixed advice [tensor_parallel_size=2], whatever the number of
    devices. *)
Theorem report_advice_70b_fixed_degree (info : SystemInfo) :
  (2 <= length (gpus info))%nat ->
  45000 <= total_vram info ->
  report_advice info =
    [ "Sufficient VRAM for 70B model (4-bit quantized)";
      "   Recommended: Llama-3.3-70B-AWQ with tensor_parallel_size=2" ]
  /\ advised_degree (report_advice info) = Some 2.
Proof.
  intros Hn Hv.
  assert (E : report_advice info =
    [ "Sufficient VRAM for 70B model (4-bit quantized)";
      "   Recommended: Llama-3.3-70B-AWQ with tensor_parallel_size=2" ]).
  { unfold report_advice.
    apply Nat.leb_le in Hn. rewrite Hn.
    apply Z.leb_le in Hv. now rewrite Hv. }
  rewrite E. split; reflexivity.
Qed.

Lemma report_advice_70b_fixed_degree_witness :
  let info := Sample.snapshot [Sample.gpu 0 24564; Sample.gpu 1 24564] in
  report_advice info =
    [ "Sufficient VRAM for 70B model (4-bit quantized)";
      "   Recommended: Llama-3.3-70B-AWQ with tensor_parallel_size=2" ]
  /\ advised_degree (report_advice info) = Some 2.
Proof.
  intros info. apply (report_advice_70b_fixed_degree info).
  - simpl. lia.
  - unfold total_vram. simpl. lia.
Defined.

(** C3 (as stated) fails with three devices of 24 GB: the advised degree
    is 2, the number of devices is 3. *)
Lemma report_advice_three_gpus :
  let info := Sample.snapshot [Sample.gpu 0 24564; Sample.gpu 1 24564; Sample.gpu 2 24564] in
  (2 <= length (gpus info))%nat
  /\ 45000 <= total_vram info
  /\ advised_degree (report_advice info) = Some 2
  /\ advised_degree (report_advice info) <> Some (Z.of_nat (length (gpus info))).
Proof.
  intros info. split; [simpl; lia|]. split; [unfold total_vram; simpl; lia|].
  split; [reflexivity|]. vm_compute. intros E. discriminate E.
Qed.

(** Scenario 1 of the specification: two devices of 24 GB. *)
Example report_advice_scenario_1 :
  advised_degree (report_advice (Sample.snapshot [Sample.gpu 0 24576; Sample.gpu 1 24576]))
  = Some 2.
Proof. reflexivity. Qed.

(** Scenario 2 of the specification: one device of 32 GB. *)
Example report_advice_scenario_2 :
  report_advice (Sample.snapshot [Sample.gpu 0 32768]) =
    [ "RTX 5090 detected - excellent for 32B models";
      "   Recommended: Qwen3-32B-Instruct or Gemma-3-27B" ].
Proof. reflexivity. Qed.
(** *** The hardware prober *)

Section Prober.

Variable host : Host.

Lemma item_inv {A} (l : list A) (i : nat) w w' a :
  item l i w = (w', Ok a) -> l !! i = Some a /\ w' = w.
Proof.
  unfold item, of_option, ret, raise. destruct (l !! i); intros E; inversion E.
  now subst.
Qed.

Lemma of_option_inv {A} (e : exn) (o : option A) w w' a :
  of_option e o w = (w', Ok a) -> o = Some a /\ w' = w.
Proof.
  unfold of_option, ret, raise. destruct o; intros E; inversion E. now subst.
Qed.

(** A source that does not exist leaves the default value, and the world
    as it is. *)
Lemma if_exists_absent {A} (p : string) (dflt : A) body w :
  path_exists p w = false -> if_exists p dflt body w = (w, Ok dflt).
Proof. intros E. unfold if_exists, exists_, bind. now rewrite E. Qed.

(** When the device query fails there is no device, and no exception. *)
Lemma detect_gpus_query_fails w :
  returncode (shell host (ticks w) gpu_query) <> 0 ->
  detect_gpus host w = (tick w, Ok []).
Proof.
  intros Hrc. unfold detect_gpus, run_command. mred.
  apply Z.eqb_neq in Hrc. now rewrite Hrc.
Qed.

Lemma gpu_rows_reported cuda lines :
  forall w w' gs,
    gpu_rows host cuda lines w = (w', Ok gs) ->
    Forall (fun g => exists line, In line lines /\ reported host line g) gs.
Proof.
  induction lines as [|line rest IH]; intros w w' gs E.
  - inversion E. constructor.
  - assert (Hrest : forall w0 w0' gs0,
               gpu_rows host cuda rest w0 = (w0', Ok gs0) ->
               Forall (fun g => exists l, In l (line :: rest) /\ reported host l g) gs0).
    { intros w0 w0' gs0 E0. specialize (IH _ _ _ E0).
      eapply Forall_impl; [exact IH|]. intros g (l & Hl & Hr).
      exists l. split; [now right | exact Hr]. }
    cbn [gpu_rows] in E. destruct (Py.strip line) eqn:Hs; [eapply Hrest; eassumption|].
    destruct (5 <=? length (map Py.strip (Py.split "," line)))%nat eqn:Hlen;
      [|eapply Hrest; eassumption].
    apply bind_inv in E as (w1 & p0 & _ & E).
    apply bind_inv in E as (w2 & cc & _ & E).
    apply bind_inv in E as (w3 & idx & _ & E).
    apply bind_inv in E as (w4 & p1 & _ & E).
    apply bind_inv in E as (w5 & p2 & H2 & E).
    apply bind_inv in E as (w6 & total & Ht & E).
    apply bind_inv in E as (w7 & p3 & H3 & E).
    apply bind_inv in E as (w8 & free & Hf & E).
    apply bind_inv in E as (w9 & p4 & _ & E).
    apply bind_inv in E as (w10 & gs' & Hgs & E).
    inversion E; subst.
    apply item_inv in H2 as [H2 _]. apply item_inv in H3 as [H3 _].
    apply of_option_inv in Ht as [Ht _]. apply of_option_inv in Hf as [Hf _].
    constructor; [|eapply Hrest; eassumption].
    exists line. split; [now left|].
    exists p2, p3. simpl. auto.
Qed.

(** C2 (as amended).  Every descriptor the prober returns carries, as
    total and free memory, exactly what [int(float(.))] gives on the
    third and fourth fields of a row of the device table; nothing is
    bounded, so free memory is at most total memory in the snapshot
    exactly when the tool reported it so. *)
Theorem detect_gpus_reports_verbatim (w w' : World) (gs : list GPUInfo) :
  detect_gpus host w = (w', Ok gs) ->
  Forall (fun g =>
            exists line,
              In line (Py.split Py.nl (Py.strip (stdout (shell host (ticks w) gpu_query))))
              /\ reported host line g)
         gs.
Proof.
  intros E. unfold detect_gpus in E.
  apply bind_inv in E as (w1 & result & Hq & E).
  unfold run_command in Hq. inversion Hq; subst. clear Hq.
  destruct (negb (returncode (shell host (ticks w) gpu_query) =? 0)).
  - inversion E. constructor.
  - apply bind_inv in E as (w2 & r2 & _ & E).
    apply bind_inv in E as (w3 & r3 & _ & E).
    now apply gpu_rows_reported in E.
Qed.

(** The file-based parts of the probe only read. *)
Lemma startswith_prefix (p s : string) :
  Py.startswith p s = true -> exists r, s = p +:+ r.
Proof.
  revert s. induction p as [|a p IH]; intros s H.
  - now exists s.
  - destruct s as [|b s]; [discriminate|]. simpl in H.
    apply andb_prop in H as [Hab Hp].
    apply Ascii.eqb_eq in Hab. subst b.
    destruct (IH _ Hp) as [r ->]. now exists r.
Qed.

Lemma split_go_nonempty (sep s : string) :
  forall k cur, exists a l, Py.split_go sep s k cur = a :: l.
Proof.
  induction s as [|c s IH]; intros k cur; simpl.
  - now eexists _, _.
  - destruct k; [|apply IH].
    destruct (Py.startswith sep (String c s)); [now eexists _, _ | apply IH].
Qed.

Lemma release_value_total (line : string) w :
  Py.startswith "NAME=" line = true \/ Py.startswith "VERSION_ID=" line = true ->
  exists v, release_value line w = (w, Ok v).
Proof.
  intros Hp.
  assert (Hl : exists a b l, Py.split "=" line = a :: b :: l).
  { destruct Hp as [Hp|Hp]; destruct (startswith_prefix _ _ Hp) as [r ->];
      unfold Py.split; simpl;
      match goal with
      | |- context [Py.split_go ?sep ?s ?k ?cur] =>
          destruct (split_go_nonempty sep s k cur) as (b & l & ->)
      end;
      now eexists _, _, _. }
  destruct Hl as (a & b & l & Hl).
  unfold release_value, item, of_option, bind, ret. rewrite Hl. simpl. now eexists.
Qed.

Lemma os_release_rows_total ls :
  forall nm ver w, exists r, os_release_rows ls nm ver w = (w, Ok r).
Proof.
  induction ls as [|line rest IH]; intros nm ver w; cbn [os_release_rows].
  - now eexists.
  - destruct (Py.startswith "NAME=" line) eqn:H1.
    + destruct (release_value_total line w) as [v Hv]; [now left|].
      unfold bind. rewrite Hv. apply IH.
    + destruct (Py.startswith "VERSION_ID=" line) eqn:H2.
      * destruct (release_value_total line w) as [v Hv]; [now right|].
        unfold bind. rewrite Hv. apply IH.
      * apply IH.
Qed.

(** The OS release file never makes the probe fail, whatever it holds. *)
Lemma detect_os_total w :
  "/etc/os-release" ∉ dirs w -> exists os, detect_os w = (w, Ok os).
Proof.
  intros Hd. unfold detect_os, if_exists, exists_. unfold bind at 1.
  destruct (path_exists "/etc/os-release" w) eqn:Hp; [|now eexists].
  unfold path_exists in Hp. rewrite (bool_decide_false_not_elem _ _ Hd) in Hp.
  simpl in Hp. apply bool_decide_eq_true_1 in Hp as [text Ht].
  unfold bind, open_read. rewrite (bool_decide_false_not_elem _ _ Hd), Ht.
  apply os_release_rows_total.
Qed.

(** The probe as a whole: once its four sources have answered, the
    snapshot is assembled from their answers and the two container
    checks, and nothing is raised. *)
Lemma detect_system_assembles w w1 os cpu ram gs :
  detect_os w = (w, Ok os) ->
  detect_cpu w = (w, Ok cpu) ->
  detect_ram w = (w, Ok ram) ->
  detect_gpus host w = (w1, Ok gs) ->
  detect_system host w =
    (tick (tick w1),
     Ok (mkSystemInfo (fst os) (snd os) cpu (default 0 (cpu_count host))
           (fst ram) (snd ram) gs (0 <? length gs)%nat
           (returncode (shell host (ticks w1) "docker --version") =? 0)
           (returncode (shell host (S (ticks w1))
                          "docker run --rm --gpus all nvidia/cuda:12.0-base nvidia-smi") =? 0))).
Proof.
  intros Hos Hcpu Hram Hgpu. unfold detect_system.
  rewrite (bind_ok _ _ _ _ _ Hos), (bind_ok _ _ _ _ _ Hcpu),
          (bind_ok _ _ _ _ _ Hram), (bind_ok _ _ _ _ _ Hgpu).
  reflexivity.
Qed.

(** C4 (as amended).  A source that is absent (a file that does not
    exist, a device query that fails) degrades its own field to the
    sentinel without raising and without touching the world, and the probe
    returns a snapshot as soon as each of its four sources has answered;
    the OS release file cannot make it fail. *)
Theorem detect_system_degrades (w : World) :
  (path_exists "/etc/os-release" w = false ->
     detect_os w = (w, Ok ("Unknown", "Unknown")))
  /\ (path_exists "/proc/cpuinfo" w = false -> detect_cpu w = (w, Ok "Unknown"))
  /\ (path_exists "/proc/meminfo" w = false ->
      detect_ram w = (w, Ok (GB_zero, GB_zero)))
  /\ (returncode (shell host (ticks w) gpu_query) <> 0 ->
      detect_gpus host w = (tick w, Ok []))
  /\ ("/etc/os-release" ∉ dirs w -> exists os, detect_os w = (w, Ok os))
  /\ (forall w1 os cpu ram gs,
        detect_os w = (w, Ok os) ->
        detect_cpu w = (w, Ok cpu) ->
        detect_ram w = (w, Ok ram) ->
        detect_gpus host w = (w1, Ok gs) ->
        exists w' info,
          detect_system host w = (w', Ok info)
          /\ os_name info = fst os /\ os_version info = snd os
          /\ cpu_model info = cpu
          /\ cpu_cores info = default 0 (cpu_count host)
          /\ ram_total_gb info = fst ram /\ ram_available_gb info = snd ram
          /\ gpus info = gs).
Proof.
  repeat split.
  - apply if_exists_absent.
  - apply if_exists_absent.
  - apply if_exists_absent.
  - apply detect_gpus_query_fails.
  - apply detect_os_total.
  - intros w1 os cpu ram gs Hos Hcpu Hram Hgpu.
    rewrite (detect_system_assembles w w1 os cpu ram gs Hos Hcpu Hram Hgpu).
    eexists _, _. split; [reflexivity|]. simpl. repeat split; reflexivity.
Qed.

(** On snapshots that [detect_system] returns the CUDA flag says whether
    there is a device. *)
Lemma detect_system_cuda_flag w w' info :
  detect_system host w = (w', Ok info) ->
  cuda_available info = (0 <? length (gpus info))%nat.
Proof.
  intros E. unfold detect_system in E.
  apply bind_inv in E as (w1 & os & _ & E).
  apply bind_inv in E as (w2 & cpu & _ & E).
  apply bind_inv in E as (w3 & ram & _ & E).
  apply bind_inv in E as (w4 & gs & _ & E).
  apply bind_inv in E as (w5 & d1 & _ & E).
  apply bind_inv in E as (w6 & d2 & _ & E).
  inversion E. reflexivity.
Qed.

(** C5.  A snapshot of the prober without devices has its CUDA flag off
    (and one with devices has it on); on a snapshot without devices the
    report prints the notice that no GPU was detected and gives no model
    recommendation: after the heading of the recommendations come only the
    hints about the container engine. *)
Theorem no_gpu_no_cuda_no_advice (w w' : World) (info : SystemInfo) :
  detect_system host w = (w', Ok info) ->
  (gpus info = [] ->
     cuda_available info = false
     /\ report_gpus host info = [ Py.nl +:+ "⚠️  No NVIDIA GPUs detected!" ]
     /\ report_advice info = []
     /\ report_lines host info =
          report_header host info
          ++ [ Py.nl +:+ "⚠️  No NVIDIA GPUs detected!";
               Py.nl +:+ rule_dash; "RECOMMENDATIONS"; rule_dash ]
          ++ report_hints info
          ++ [ Py.nl +:+ rule_eq ])
  /\ (gpus info <> [] -> cuda_available info = true).
Proof.
  intros E. rewrite (detect_system_cuda_flag _ _ _ E). split.
  - intros Hg. unfold report_lines, report_gpus, report_advice.
    rewrite Hg. repeat split; reflexivity.
  - intros Hg. destruct (gpus info); [congruence | reflexivity].
Qed.

End Prober.

Lemma detect_gpus_reports_verbatim_witness :
  let h := Sample.with_gpu_table "0, GPU, 24564, 24000, 570.86" in
  Forall (fun g =>
            exists line,
              In line (Py.split Py.nl
                         (Py.strip (stdout (shell h (ticks Sample.nothing) (gpu_query)))))
              /\ reported h line g)
         [ mkGPUInfo 0 "GPU" 24564 24000 "570.86" "Unknown" "Unknown" ].
Proof.
  intros h.
  apply (detect_gpus_reports_verbatim h Sample.nothing
           (fst (detect_gpus h Sample.nothing))).
  vm_compute. reflexivity.
Defined.

(** C2 (as stated) fails: a device table whose row reports more free than
    total memory goes into the snapshot as it is. *)
Lemma detect_gpus_free_above_total :
  let h := Sample.with_gpu_table "0, GPU, 100, 200, 535.00" in
  let g := mkGPUInfo 0 "GPU" 100 200 "535.00" "Unknown" "Unknown" in
  snd (detect_gpus h Sample.nothing) = Ok [g]
  /\ ~ (memory_free_mb g <= memory_total_mb g).
Proof.
  intros h g. split; [vm_compute; reflexivity|]. simpl. lia.
Qed.

Lemma detect_system_degrades_witness :
  exists w' info,
    detect_system Sample.bare Sample.nothing = (w', Ok info)
    /\ os_name info = "Unknown" /\ os_version info = "Unknown"
    /\ cpu_model info = "Unknown"
    /\ cpu_cores info = 8
    /\ ram_total_gb info = GB_zero /\ ram_available_gb info = GB_zero
    /\ gpus info = [].
Proof.
  destruct (detect_system_degrades Sample.bare Sample.nothing)
    as (Hos & Hcpu & Hram & Hgpu & _ & Hall).
  apply (Hall _ _ _ _ _ (Hos eq_refl) (Hcpu eq_refl) (Hram eq_refl)
           (Hgpu ltac:(simpl; lia))).
Defined.

(** C4 (as stated) fails: a device table with fields that are no numbers
    makes the whole probe raise. *)
Lemma detect_system_raises_on_malformed_table :
  snd (detect_system (Sample.with_gpu_table "x,y,z,w,v") Sample.nothing)
  = Raise ValueError.
Proof. vm_compute. reflexivity. Qed.

(** So does a processor table whose model line lacks its colon. *)
Example detect_system_raises_on_malformed_cpuinfo :
  snd (detect_system Sample.bare
         (set_files {[ "/proc/cpuinfo" := "model name" ]} Sample.nothing))
  = Raise IndexError.
Proof. vm_compute. reflexivity. Qed.

Lemma no_gpu_no_cuda_no_advice_witness :
  let info := mkSystemInfo "Unknown" "Unknown" "Unknown" 8 GB_zero GB_zero []
                false false false in
  cuda_available info = false
  /\ report_gpus Sample.bare info = [ Py.nl +:+ "⚠️  No NVIDIA GPUs detected!" ]
  /\ report_advice info = []
  /\ report_lines Sample.bare info =
       report_header Sample.bare info
       ++ [ Py.nl +:+ "⚠️  No NVIDIA GPUs detected!";
            Py.nl +:+ rule_dash; "RECOMMENDATIONS"; rule_dash ]
       ++ report_hints info
       ++ [ Py.nl +:+ rule_eq ].
Proof.
  intros info.
  refine (proj1 (no_gpu_no_cuda_no_advice Sample.bare Sample.nothing
                   (tick (tick (tick Sample.nothing))) info _) eq_refl).
  vm_compute. reflexivity.
Defined.
(** *** The secrets file *)

Section Secrets.

Variable host : Host.

(** With a secrets file in place the step only says that it skips. *)
Lemma create_env_file_skips (w : World) :
  path_exists (path_in (BASE_DIR host) ".env") w = true ->
  create_env_file host w
  = (emit (Log "INFO" ".env file already exists, skipping") w, Ok (Some true)).
Proof. intros Hx. unfold create_env_file, exists_, bind. rewrite Hx. reflexivity. Qed.

(** C6.  When the secrets file exists, the secrets step changes no file,
    draws no random token and reports success, saying that it skips; a
    token is drawn only when there is no secrets file. *)
Theorem create_env_file_keeps_existing (w : World) :
  (path_exists (path_in (BASE_DIR host) ".env") w = true ->
     create_env_file host w
     = (emit (Log "INFO" ".env file already exists, skipping") w, Ok (Some true))
     /\ files (fst (create_env_file host w)) = files w
     /\ drawn (fst (create_env_file host w)) = drawn w)
  /\ (drawn (fst (create_env_file host w)) <> drawn w ->
      path_exists (path_in (BASE_DIR host) ".env") w = false).
Proof.
  split.
  - intros Hx. rewrite (create_env_file_skips w Hx). repeat split; reflexivity.
  - intros Hd. destruct (path_exists (path_in (BASE_DIR host) ".env") w) eqn:Hx;
      [|reflexivity].
    rewrite (create_env_file_skips w Hx) in Hd. now contradiction Hd.
Qed.

(** Without a secrets file, and with the base directory in place, the step
    draws one token and writes the file with it. *)
Lemma create_env_file_creates (w : World) :
  path_exists (path_in (BASE_DIR host) ".env") w = false ->
  BASE_DIR host ∈ dirs w ->
  files (fst (create_env_file host w)) !! path_in (BASE_DIR host) ".env"
    = Some (text_of_lines (env_lines (urandom_hex host (drawn w))))
  /\ drawn (fst (create_env_file host w)) = S (drawn w)
  /\ snd (create_env_file host w) = Ok (Some true).
Proof.
  intros Hx Hb. unfold create_env_file. mred. rewrite Hx.
  unfold path_exists in Hx. apply orb_false_elim in Hx as [Hd _].
  unfold urandom_token, write_file, check_writable, log. mred.
  rewrite Hd, (bool_decide_eq_true_2 _ Hb). mred.
  repeat split; [apply lookup_insert_eq].
Qed.

End Secrets.

Lemma create_env_file_keeps_existing_witness :
  let h := Sample.bare in
  let w := set_files {[ path_in (BASE_DIR h) ".env" := "VLLM_API_KEY=0123" ]}
             (Sample.installed h) in
  create_env_file h w
  = (emit (Log "INFO" ".env file already exists, skipping") w, Ok (Some true))
  /\ files (fst (create_env_file h w)) = files w
  /\ drawn (fst (create_env_file h w)) = drawn w.
Proof.
  intros h w.
  apply (proj1 (create_env_file_keeps_existing h w)).
  vm_compute. reflexivity.
Defined.
(** *** The status command *)

Section Supervisor.

Variable host : Host.

(** C8 (as amended).  When the base directory exists and the two programs
    of the status command ([docker] and [nvidia-smi]) can be started, the
    command exits with status 0 whatever the two health probes do, and a
    probe that fails is printed as a service that does not respond. *)
Theorem status_exits_zero (w : World) (rc1 rc2 : Z) :
  BASE_DIR host ∈ dirs w ->
  spawn host (ticks w) ["docker"; "compose"; "ps"] = Some rc1 ->
  spawn host (S (ticks w)) status_gpu_argv = Some rc2 ->
  snd (run host Status w) = 0
  /\ console (fst (run host Status w)) =
       console w ++
       [ Print "=== Container Status ===";
         Print (Py.nl +:+ "=== GPU Usage ===");
         Print (Py.nl +:+ "=== Service Health ===");
         Print (if urlopen host (S (S (ticks w))) "http://localhost:8000/health"
                then "✅ vLLM: Running" else "❌ vLLM: Not responding");
         Print (if urlopen host (S (S (S (ticks w)))) "http://localhost:3001/api/ping"
                then "✅ AnythingLLM: Running" else "❌ AnythingLLM: Not responding") ].
Proof.
  intros Hb H1 H2.
  unfold run, main, require_installed, exists_, path_exists,
    show_status, chdir, subprocess_run, urlopen_get, print.
  mred. repeat (rewrite (bool_decide_eq_true_2 _ Hb); mred).
  rewrite H1. mred. rewrite H2. mred.
  destruct (urlopen host (S (S (ticks w))) "http://localhost:8000/health"); mred;
    destruct (urlopen host (S (S (S (ticks w)))) "http://localhost:3001/api/ping");
    mred; cbn [exit_status]; (split; [reflexivity|]);
    rewrite <- !app_assoc; reflexivity.
Qed.

End Supervisor.

Lemma status_exits_zero_witness :
  let h := Sample.with_gpu_table EmptyString in
  let w := Sample.installed h in
  snd (run h Status w) = 0
  /\ console (fst (run h Status w)) =
       console w ++
       [ Print "=== Container Status ===";
         Print (Py.nl +:+ "=== GPU Usage ===");
         Print (Py.nl +:+ "=== Service Health ===");
         Print (if urlopen h (S (S (ticks w))) "http://localhost:8000/health"
                then "✅ vLLM: Running" else "❌ vLLM: Not responding");
         Print (if urlopen h (S (S (S (ticks w)))) "http://localhost:3001/api/ping"
                then "✅ AnythingLLM: Running" else "❌ AnythingLLM: Not responding") ].
Proof.
  intros h w.
  apply (status_exits_zero h w 1 1).
  - vm_compute. set_solver.
  - reflexivity.
  - reflexivity.
Defined.

(** C8 (as stated) fails: with the base directory in place but no [docker]
    program to start, the status command ends on the uncaught
    [FileNotFoundError], with exit status 1. *)
Lemma status_fails_without_docker :
  let h := Sample.bare in
  let w := Sample.installed h in
  path_exists (BASE_DIR h) w = true
  /\ snd (main h Status w) = Raise FileNotFoundError
  /\ snd (run h Status w) = 1.
Proof. vm_compute. repeat split; reflexivity. Qed.
(** *** Frames: what each part of a run can change *)

Section Frames.

Variable T : list string.
Variable D : bool.

Lemma frame_refl w : frame T D w w.
Proof. now constructor. Qed.

Lemma frame_trans a b c : frame T D a b -> frame T D b c -> frame T D a c.
Proof.
  intros [d1 c1 r1 f1] [d2 c2 r2 f2]. constructor.
  - congruence.
  - congruence.
  - intros E. rewrite (r2 E). now apply r1.
  - intros p Hp. rewrite (f2 p Hp). now apply f1.
Qed.

Lemma frame_emit e w : frame T D w (emit e w).
Proof. now constructor. Qed.

Lemma frame_tick w : frame T D w (tick w).
Proof. now constructor. Qed.

Lemma tame_ret {A} (a : A) : tame T D (ret a).
Proof. split; [intros w; apply frame_refl | intros w e E; discriminate E]. Qed.

Lemma tame_raise {A} (e : exn) : is_Exception e = true -> tame T D (@raise A e).
Proof.
  intros He. split; [intros w; apply frame_refl|].
  intros w e' E. inversion E. now subst.
Qed.

Lemma tame_bind {A B} (c : M A) (k : A -> M B) :
  tame T D c -> (forall a, tame T D (k a)) -> tame T D (bind c k).
Proof.
  intros [Fc Bc] Hk. split.
  - intros w. unfold bind. specialize (Fc w). specialize (Bc w).
    destruct (c w) as [w1 [a|e]]; simpl in *; [|exact Fc].
    eapply frame_trans; [exact Fc|]. apply (proj1 (Hk a)).
  - intros w e. unfold bind. specialize (Bc w).
    destruct (c w) as [w1 [a|e1]]; simpl in *.
    + apply (proj2 (Hk a)).
    + intros E. apply Bc. inversion E. reflexivity.
Qed.

Lemma tame_try_except {A} (c : M A) (p : exn -> bool) (h : exn -> M A) :
  tame T D c -> (forall e, tame T D (h e)) -> tame T D (try_except c p h).
Proof.
  intros [Fc Bc] Hh. split.
  - intros w. unfold try_except. specialize (Fc w).
    destruct (c w) as [w1 [a|e]]; simpl in *; [exact Fc|].
    destruct (p e); simpl; [|exact Fc].
    eapply frame_trans; [exact Fc|]. apply (proj1 (Hh e)).
  - intros w e. unfold try_except. specialize (Bc w).
    destruct (c w) as [w1 [a|e1]]; simpl in *; [discriminate|].
    destruct (p e1); simpl.
    + apply (proj2 (Hh e1)).
    + intros E. apply Bc. exact E.
Qed.

Lemma tame_log m l : tame T D (log m l).
Proof. split; [intros w; apply frame_emit | intros w e E; discriminate E]. Qed.

Lemma tame_print s : tame T D (print s).
Proof. split; [intros w; apply frame_emit | intros w e E; discriminate E]. Qed.

Lemma tame_run_command host cmd : tame T D (run_command host cmd).
Proof. split; [intros w; apply frame_tick | intros w e E; discriminate E]. Qed.

Lemma tame_of_option {A} (e : exn) (o : option A) :
  is_Exception e = true -> tame T D (of_option e o).
Proof. intros He. destruct o; [apply tame_ret | now apply tame_raise]. Qed.

Lemma tame_item {A} (l : list A) (i : nat) : tame T D (item l i).
Proof. now apply tame_of_option. Qed.

Lemma tame_exists p : tame T D (exists_ p).
Proof. split; [intros w; apply frame_refl | intros w e E; discriminate E]. Qed.

Lemma tame_config_exists : tame T D config_exists.
Proof. split; [intros w; apply frame_refl | intros w e E; discriminate E]. Qed.

Lemma tame_open_read p : tame T D (open_read p).
Proof.
  split.
  - intros w. unfold open_read.
    destruct (bool_decide (p ∈ dirs w)); [apply frame_refl|].
    destruct (files w !! p); apply frame_refl.
  - intros w e. unfold open_read.
    destruct (bool_decide (p ∈ dirs w)); [intros E; now inversion E|].
    destruct (files w !! p); intros E; now inversion E.
Qed.

Lemma tame_load_config host : tame T D (load_config host).
Proof.
  split.
  - intros w. apply frame_refl.
  - intros w e. unfold load_config, loaded. simpl.
    destruct (config_file w) as [[c|]|]; intros E; now inversion E.
Qed.

Lemma tame_check_writable d p : tame T D (check_writable d p).
Proof.
  split.
  - intros w. unfold check_writable.
    repeat (match goal with |- context [bool_decide ?P] => destruct (bool_decide P) end);
      apply frame_refl.
  - intros w e. unfold check_writable.
    repeat (match goal with |- context [bool_decide ?P] => destruct (bool_decide P) end);
      intros E; now inversion E.
Qed.

Lemma frame_set_file p s w :
  p ∈ T -> frame T D w (set_files (<[p := s]> (files w)) w).
Proof.
  intros Hp. constructor; try reflexivity.
  intros q Hq. simpl. apply lookup_insert_ne. intros ->. contradiction.
Qed.

Lemma tame_write_file d n s : path_in d n ∈ T -> tame T D (write_file d n s).
Proof.
  intros Hp. unfold write_file. apply tame_bind; [apply tame_check_writable|].
  intros _. split; [intros w; now apply frame_set_file | intros w e E; discriminate E].
Qed.

Lemma tame_append_file d n s : path_in d n ∈ T -> tame T D (append_file d n s).
Proof.
  intros Hp. unfold append_file. apply tame_bind; [apply tame_check_writable|].
  intros _. split; [intros w; now apply frame_set_file | intros w e E; discriminate E].
Qed.

Lemma tame_chmod_755 p : tame T D (chmod_755 p).
Proof.
  split.
  - intros w. unfold chmod_755. destruct (path_exists p w); now constructor.
  - intros w e. unfold chmod_755. destruct (path_exists p w); intros E; now inversion E.
Qed.

Lemma tame_confirm self m d : auto_mode self = true -> tame T D (confirm self m d).
Proof. intros Ha. unfold confirm. rewrite Ha. apply tame_ret. Qed.

End Frames.

Lemma tame_urandom_token host T : tame T true (urandom_token host).
Proof.
  split; [|intros w e E; discriminate E].
  intros w. constructor; try reflexivity. intros E. discriminate E.
Qed.

(** Taming a computation piece by piece. *)
Create HintDb tame.

#[local] Hint Resolve tame_ret tame_log tame_print tame_run_command tame_item
  tame_exists tame_config_exists tame_open_read tame_load_config
  tame_chmod_755 tame_confirm tame_urandom_token : tame.

#[local] Hint Extern 2 (tame _ _ (of_option _ _)) =>
  apply tame_of_option; reflexivity : tame.
#[local] Hint Extern 2 (tame _ _ (raise _)) =>
  apply tame_raise; reflexivity : tame.
#[local] Hint Extern 2 (tame _ _ (write_file _ _ _)) =>
  apply tame_write_file; set_solver : tame.
#[local] Hint Extern 2 (tame _ _ (append_file _ _ _)) =>
  apply tame_append_file; set_solver : tame.

Ltac tame_step :=
  lazymatch goal with
  | |- tame _ _ (bind _ _) => apply tame_bind; [|intros ?]
  | |- tame _ _ (try_except _ _ _) => apply tame_try_except; [|intros ?]
  | |- tame _ _ (if ?b then _ else _) => destruct b
  | |- tame _ _ (match ?x with _ => _ end) => destruct x
  | |- _ => solve [eauto with tame]
  end.

Ltac tame_auto := repeat tame_step.

Section TameSteps.

Variable host : Host.
Variable T : list string.
Variable D : bool.

Lemma tame_print_all ls : tame T D (print_all ls).
Proof. induction ls; simpl; tame_auto. Qed.

Lemma tame_run_step name cmd check : tame T D (run_step host name cmd check).
Proof. unfold run_step. tame_auto. Qed.

Lemma tame_run_steps_checked prefix cmds :
  tame T D (run_steps_checked host prefix cmds).
Proof.
  induction cmds; cbn [run_steps_checked]; [tame_auto|].
  apply tame_bind; [apply tame_run_step|]. intros [|]; [exact IHcmds | tame_auto].
Qed.

Lemma tame_run_steps_unchecked name command items :
  tame T D (run_steps_unchecked host name command items).
Proof.
  induction items; cbn [run_steps_unchecked]; [tame_auto|].
  apply tame_bind; [apply tame_run_step|]. intros _. exact IHitems.
Qed.

Lemma tame_is_wsl : tame T D is_wsl.
Proof. unfold is_wsl. tame_auto. Qed.

End TameSteps.
(** *** The probe and the steps, each within its frame *)

Section StepFrames.

Variable host : Host.

Lemma tame_gpu_rows T D cuda lines : tame T D (gpu_rows host cuda lines).
Proof.
  induction lines as [|line rest IH]; cbn [gpu_rows]; [tame_auto|].
  destruct (Py.strip line); [exact IH|].
  destruct (5 <=? length (map Py.strip (Py.split "," line)))%nat; [|exact IH].
  tame_auto.
Qed.

Lemma tame_detect_gpus T D : tame T D (detect_gpus host).
Proof.
  unfold detect_gpus. tame_auto. apply tame_gpu_rows.
Qed.

Lemma tame_release_value T D line : tame T D (release_value line).
Proof. unfold release_value. tame_auto. Qed.

Lemma tame_os_release_rows T D ls : forall nm ver, tame T D (os_release_rows ls nm ver).
Proof.
  induction ls as [|line rest IH]; intros nm ver; cbn [os_release_rows]; [tame_auto|].
  destruct (Py.startswith "NAME=" line).
  - apply tame_bind; [apply tame_release_value | intros v; apply IH].
  - destruct (Py.startswith "VERSION_ID=" line); [|apply IH].
    apply tame_bind; [apply tame_release_value | intros v; apply IH].
Qed.

Lemma tame_cpuinfo_rows T D ls : forall m, tame T D (cpuinfo_rows ls m).
Proof.
  induction ls as [|line rest IH]; intros m; cbn [cpuinfo_rows]; [tame_auto|].
  destruct (Py.startswith "model name" line); [tame_auto | apply IH].
Qed.

Lemma tame_meminfo_value T D line : tame T D (meminfo_value line).
Proof. unfold meminfo_value. tame_auto. Qed.

Lemma tame_meminfo_rows T D ls : forall t a, tame T D (meminfo_rows ls t a).
Proof.
  induction ls as [|line rest IH]; intros t a; cbn [meminfo_rows]; [tame_auto|].
  destruct (Py.startswith "MemTotal:" line).
  - apply tame_bind; [apply tame_meminfo_value | intros v; apply IH].
  - destruct (Py.startswith "MemAvailable:" line); [|apply IH].
    apply tame_bind; [apply tame_meminfo_value | intros v; apply IH].
Qed.

Lemma tame_if_exists {A} T D p (dflt : A) body :
  (forall ls, tame T D (body ls)) -> tame T D (if_exists p dflt body).
Proof. intros Hb. unfold if_exists. tame_auto. Qed.

(** The probe changes nothing of what the installer manages and raises
    nothing but ordinary exceptions. *)
Lemma tame_detect_system T D : tame T D (detect_system host).
Proof.
  unfold detect_system, detect_os, detect_cpu, detect_ram.
  apply tame_bind; [apply tame_if_exists; intros; apply tame_os_release_rows|intros ?].
  apply tame_bind; [apply tame_if_exists; intros; apply tame_cpuinfo_rows|intros ?].
  apply tame_bind; [apply tame_if_exists; intros; apply tame_meminfo_rows|intros ?].
  apply tame_bind; [apply tame_detect_gpus|intros ?].
  tame_auto.
Qed.

Lemma tame_print_system_report T D info : tame T D (print_system_report host info).
Proof. apply tame_print_all. Qed.

#[local] Hint Resolve tame_run_step tame_run_steps_checked tame_run_steps_unchecked
  tame_is_wsl : tame.

Lemma tame_create_docker_compose (self : Installer) :
  tame [path_in (BASE_DIR host) "docker-compose.yml"] false
       (create_docker_compose host self).
Proof. unfold create_docker_compose. tame_auto. Qed.

Lemma tame_create_env_file :
  tame [path_in (BASE_DIR host) ".env"] true (create_env_file host).
Proof. unfold create_env_file. tame_auto. Qed.

Lemma tame_create_management_scripts :
  tame [ path_in (BASE_DIR host) "start.sh"; path_in (BASE_DIR host) "stop.sh";
         path_in (BASE_DIR host) "status.sh"; path_in (BASE_DIR host) "logs.sh" ]
       false (create_management_scripts host).
Proof. unfold create_management_scripts, write_script. tame_auto. Qed.

Lemma tame_pull_images T D : tame T D (pull_images host).
Proof. unfold pull_images. tame_auto. Qed.

Variable self : Installer.
Hypothesis unattended : auto_mode self = true.

Lemma tame_install_nvidia_drivers T D : tame T D (install_nvidia_drivers host self).
Proof. unfold install_nvidia_drivers. tame_auto. Qed.

Lemma tame_install_cuda_toolkit :
  tame [path_in (home host) ".bashrc"] false (install_cuda_toolkit host self).
Proof. unfold install_cuda_toolkit. tame_auto. Qed.

Lemma tame_install_docker T D : tame T D (install_docker host self).
Proof. unfold install_docker. tame_auto. Qed.

Lemma tame_install_nvidia_container_toolkit T D :
  tame T D (install_nvidia_container_toolkit host self).
Proof. unfold install_nvidia_container_toolkit. tame_auto. Qed.

(** An attempt stays in the frame of its step. *)
Lemma tame_attempt T D name func :
  tame T D func -> tame T D (attempt host self name func).
Proof. intros Hf. unfold attempt. tame_auto. Qed.

(** In unattended mode an attempt of a benign step always lets the loop
    go on. *)
Lemma attempt_continues name func w :
  benign func -> snd (attempt host self name func w) = Ok true.
Proof.
  intros Hb. unfold attempt, confirm, log, try_except. rewrite unattended. mred.
  specialize (Hb (emit (Log "INFO" (banner name)) w)).
  destruct (func (emit (Log "INFO" (banner name)) w)) as [w1 [[[|]|]|e]];
    simpl in *; try reflexivity.
  rewrite (Hb e eq_refl). reflexivity.
Qed.

(** What an attempt does to the world: the step runs on the world with
    the heading logged, and at most a line of log follows. *)
Lemma attempt_world name func w :
  exists w_in,
    frame [] false w w_in
    /\ frame [] false (fst (func w_in)) (fst (attempt host self name func w)).
Proof.
  exists (emit (Log "INFO" (banner name)) w). split; [apply frame_emit|].
  unfold attempt, confirm, log, try_except. rewrite unattended. mred.
  destruct (func (emit (Log "INFO" (banner name)) w)) as [w1 [[[|]|]|e]];
    simpl; try apply frame_refl; try apply frame_emit.
  destruct (is_Exception e); simpl; [apply frame_emit | apply frame_refl].
Qed.

(** In unattended mode the loop over benign steps attempts every one of
    them, in order, and ends with success. *)
Lemma run_steps_unattended (l : list (string * M (option bool))) :
  Forall (fun st => benign (snd st)) l ->
  forall w, run_steps host self l w = (after_attempts host self l w, Ok true).
Proof.
  induction 1 as [|[name func] rest Hb _ IH]; intros w.
  - reflexivity.
  - cbn [run_steps after_attempts fold_left fst snd]. unfold bind.
    pose proof (attempt_continues name func w Hb) as Hc.
    destruct (attempt host self name func w) as [w1 r]. simpl in Hc. subst r.
    apply IH.
Qed.

End StepFrames.
(** *** Paths under the home directory are told apart by what follows it *)

Lemma append_assoc_r (a b c : string) : (a +:+ b) +:+ c = a +:+ (b +:+ c).
Proof.
  induction a as [|x a IH]; [reflexivity|].
  change (String x ((a +:+ b) +:+ c) = String x (a +:+ (b +:+ c))).
  now rewrite IH.
Qed.

Lemma append_cancel_l (s a b : string) : s +:+ a = s +:+ b -> a = b.
Proof.
  induction s as [|x s IH]; [easy|].
  intros H. change (String x (s +:+ a) = String x (s +:+ b)) in H.
  injection H as H. now apply IH.
Qed.

(** Two paths written from the home directory differ when their parts
    after it differ. *)
Ltac path_ne :=
  unfold DATA_DIR, MODELS_DIR, LOG_DIR, CONFIG_FILE, BASE_DIR, path_in;
  rewrite ?append_assoc_r;
  let H := fresh in
  intros H; apply append_cancel_l in H; cbv in H; discriminate H.

Ltac paths_apart :=
  repeat (apply not_elem_of_cons; split; [path_ne|]); apply not_elem_of_nil.

Section Paths.

Variable host : Host.

Lemma manifest_not_a_setup_dir :
  path_in (BASE_DIR host) "docker-compose.yml"
    ∉ [BASE_DIR host; LOG_DIR host; MODELS_DIR host; DATA_DIR host].
Proof. paths_apart. Qed.

End Paths.
(** *** Headings: the trace of the attempted steps on the console *)

Lemma headings_snoc_quiet (l : list event) (e : event) :
  quiet e = true -> headings (l ++ [e]) = headings l.
Proof.
  intros Hq. unfold headings. rewrite List.filter_app. simpl. rewrite Hq. simpl.
  apply app_nil_r.
Qed.

Lemma headings_snoc_banner (l : list event) (name : string) :
  headings (l ++ [Log "INFO" (banner name)]) = headings l ++ [Log "INFO" (banner name)].
Proof. unfold headings. rewrite List.filter_app. reflexivity. Qed.

Lemma hushed_ret {A} (a : A) : hushed (ret a).
Proof. intros w. reflexivity. Qed.

Lemma hushed_raise {A} (e : exn) : hushed (@raise A e).
Proof. intros w. reflexivity. Qed.

Lemma hushed_bind {A B} (c : M A) (k : A -> M B) :
  hushed c -> (forall a, hushed (k a)) -> hushed (bind c k).
Proof.
  intros Hc Hk w. unfold bind. specialize (Hc w).
  destruct (c w) as [w1 [a|e]]; simpl in *; [|exact Hc].
  now rewrite (Hk a w1).
Qed.

Lemma hushed_try_except {A} (c : M A) (p : exn -> bool) (h : exn -> M A) :
  hushed c -> (forall e, hushed (h e)) -> hushed (try_except c p h).
Proof.
  intros Hc Hh w. unfold try_except. specialize (Hc w).
  destruct (c w) as [w1 [a|e]]; simpl in *; [exact Hc|].
  destruct (p e); simpl; [|exact Hc]. now rewrite (Hh e w1).
Qed.

Lemma hushed_log m l : quiet (Log l m) = true -> hushed (log m l).
Proof. intros Hq w. now apply headings_snoc_quiet. Qed.

Lemma hushed_print s : hushed (print s).
Proof. intros w. now apply headings_snoc_quiet. Qed.

(** Whatever leaves the console alone is hushed. *)
Lemma hushed_silent {A} (c : M A) :
  (forall w, console (fst (c w)) = console w) -> hushed c.
Proof. intros H w. now rewrite H. Qed.

Lemma hushed_of_option {A} (e : exn) (o : option A) : hushed (of_option e o).
Proof. destruct o; [apply hushed_ret | apply hushed_raise]. Qed.

Lemma hushed_item {A} (l : list A) (i : nat) : hushed (item l i).
Proof. apply hushed_of_option. Qed.

Lemma hushed_run_command host cmd : hushed (run_command host cmd).
Proof. now apply hushed_silent. Qed.

Lemma hushed_exists p : hushed (exists_ p).
Proof. now apply hushed_silent. Qed.

Lemma hushed_config_exists : hushed config_exists.
Proof. now apply hushed_silent. Qed.

Lemma hushed_dump_config c : hushed (dump_config c).
Proof. now apply hushed_silent. Qed.

Lemma hushed_load_config host : hushed (load_config host).
Proof. now apply hushed_silent. Qed.

Lemma hushed_urandom_token host : hushed (urandom_token host).
Proof. now apply hushed_silent. Qed.

Lemma hushed_open_read p : hushed (open_read p).
Proof.
  apply hushed_silent. intros w. unfold open_read.
  destruct (bool_decide (p ∈ dirs w)); [reflexivity|].
  now destruct (files w !! p).
Qed.

Lemma hushed_check_writable d p : hushed (check_writable d p).
Proof.
  apply hushed_silent. intros w. unfold check_writable.
  repeat (match goal with |- context [bool_decide ?P] => destruct (bool_decide P) end);
    reflexivity.
Qed.

Lemma hushed_write_file d n s : hushed (write_file d n s).
Proof.
  unfold write_file. apply hushed_bind; [apply hushed_check_writable|].
  intros _. now apply hushed_silent.
Qed.

Lemma hushed_append_file d n s : hushed (append_file d n s).
Proof.
  unfold append_file. apply hushed_bind; [apply hushed_check_writable|].
  intros _. now apply hushed_silent.
Qed.

Lemma hushed_mkdir_p p : hushed (mkdir_p p).
Proof.
  apply hushed_silent. intros w. unfold mkdir_p.
  now destruct (bool_decide (is_Some (files w !! p))).
Qed.

Lemma hushed_chmod_755 p : hushed (chmod_755 p).
Proof.
  apply hushed_silent. intros w. unfold chmod_755. now destruct (path_exists p w).
Qed.

Lemma hushed_confirm self m d : auto_mode self = true -> hushed (confirm self m d).
Proof. intros Ha. unfold confirm. rewrite Ha. apply hushed_ret. Qed.

Create HintDb hush.

#[local] Hint Resolve hushed_ret hushed_raise hushed_print hushed_of_option
  hushed_item hushed_run_command hushed_exists hushed_config_exists
  hushed_dump_config hushed_load_config hushed_urandom_token hushed_open_read
  hushed_write_file hushed_append_file hushed_mkdir_p hushed_chmod_755
  hushed_confirm : hush.

#[local] Hint Extern 2 (hushed (log _ _)) => apply hushed_log; reflexivity : hush.

Ltac hush_step :=
  lazymatch goal with
  | |- hushed (bind _ _) => apply hushed_bind; [|intros ?]
  | |- hushed (try_except _ _ _) => apply hushed_try_except; [|intros ?]
  | |- hushed (if ?b then _ else _) => destruct b
  | |- hushed (match ?x with _ => _ end) => destruct x
  | |- _ => solve [eauto with hush]
  end.

Ltac hush_auto := repeat hush_step.

Section Headings.

Variable host : Host.

Lemma hushed_run_step name cmd check : hushed (run_step host name cmd check).
Proof. unfold run_step. hush_auto. Qed.

Lemma hushed_run_steps_checked prefix cmds :
  hushed (run_steps_checked host prefix cmds).
Proof.
  induction cmds; cbn [run_steps_checked]; [hush_auto|].
  apply hushed_bind; [apply hushed_run_step|]. intros [|]; [exact IHcmds | hush_auto].
Qed.

Lemma hushed_run_steps_unchecked name command items :
  hushed (run_steps_unchecked host name command items).
Proof.
  induction items; cbn [run_steps_unchecked]; [hush_auto|].
  apply hushed_bind; [apply hushed_run_step|]. intros _. exact IHitems.
Qed.

Lemma hushed_make_dirs ds : hushed (make_dirs ds).
Proof. induction ds; cbn [make_dirs]; hush_auto. Qed.

Lemma hushed_is_wsl : hushed is_wsl.
Proof. unfold is_wsl. hush_auto. Qed.

#[local] Hint Resolve hushed_run_step hushed_run_steps_checked
  hushed_run_steps_unchecked hushed_make_dirs hushed_is_wsl : hush.

(** In unattended mode none of the nine steps prints a heading. *)
Lemma steps_hushed self :
  auto_mode self = true -> Forall (fun st => hushed (snd st)) (steps host self).
Proof.
  intros Ha. unfold steps. repeat constructor; cbn [snd].
  - unfold setup_directories. hush_auto.
  - unfold install_nvidia_drivers. hush_auto.
  - unfold install_cuda_toolkit. hush_auto.
  - unfold install_docker. hush_auto.
  - unfold install_nvidia_container_toolkit. hush_auto.
  - unfold create_docker_compose. hush_auto.
  - unfold create_env_file. hush_auto.
  - unfold create_management_scripts, write_script. hush_auto.
  - unfold pull_images. hush_auto.
Qed.

(** An attempt of a hushed step puts exactly its own heading on the
    console. *)
Lemma attempt_heading self name func w :
  auto_mode self = true -> hushed func ->
  headings (console (fst (attempt host self name func w)))
  = headings (console w) ++ [Log "INFO" (banner name)].
Proof.
  intros Ha Hf. unfold attempt, confirm, log, try_except. rewrite Ha. mred.
  specialize (Hf (emit (Log "INFO" (banner name)) w)).
  rewrite <- headings_snoc_banner.
  destruct (func (emit (Log "INFO" (banner name)) w)) as [w1 [[[|]|]|e]];
    simpl in *; try exact Hf.
  - rewrite headings_snoc_quiet; [exact Hf | reflexivity].
  - destruct (is_Exception e); simpl; [|exact Hf].
    rewrite headings_snoc_quiet; [exact Hf | reflexivity].
Qed.

(** The headings after a sequence of attempts: those of the steps, in the
    order of the list. *)
Lemma after_attempts_headings self (l : list (string * M (option bool))) :
  auto_mode self = true ->
  Forall (fun st => hushed (snd st)) l ->
  forall w,
    headings (console (after_attempts host self l w))
    = headings (console w) ++ map (fun st => Log "INFO" (banner (fst st))) l.
Proof.
  intros Ha. induction 1 as [|[name func] rest Hh _ IH]; intros w.
  - simpl. now rewrite app_nil_r.
  - cbn [after_attempts fold_left map fst snd].
    change (fold_left _ rest ?x) with (after_attempts host self rest x).
    rewrite IH, (attempt_heading self name func w Ha Hh), <- app_assoc. reflexivity.
Qed.

End Headings.
(** *** The installation run *)

Section Install.

Variable host : Host.

Ltac split_decisions :=
  repeat (match goal with
          | |- context [bool_decide ?P] =>
              let E := fresh "E" in destruct (bool_decide P) eqn:E; mred
          end).

Lemma setup_directories_effect w :
  setup_effect host w (fst (setup_directories host w)).
Proof.
  unfold setup_effect, setup_directories, make_dirs, mkdir_p, log, config_exists,
    dump_config, loaded.
  mred. split_decisions;
    repeat match goal with
           | H : bool_decide _ = true |- _ => apply bool_decide_eq_true_1 in H
           | H : bool_decide _ = false |- _ => apply bool_decide_eq_false_1 in H
           end.
  all: repeat split.
  all: try reflexivity.
  all: try (intros p; set_unfold; tauto).
  all: try (set_unfold; tauto).
  all: try (intros ?; exfalso; auto; fail).
  all: destruct (config_file w) as [[c|]|] eqn:Hc; simpl; try reflexivity.
  all: exfalso; match goal with H : ~ is_Some _ |- _ => apply H; eauto end.
Qed.

Lemma benign_setup_directories : benign (setup_directories host).
Proof.
  intros w e.
  unfold setup_directories, make_dirs, mkdir_p, log, config_exists, dump_config.
  mred. split_decisions; intros Hr; inversion Hr; reflexivity.
Qed.

(** Two worlds in the empty frame agree on all the installer manages. *)
Lemma frame_nil_eq w w' :
  frame [] false w w' ->
  dirs w' = dirs w /\ config_file w' = config_file w
  /\ drawn w' = drawn w /\ files w' = files w.
Proof.
  intros [Hd Hc Hr Hf]. repeat split; auto.
  apply map_eq. intros p. apply Hf. apply not_elem_of_nil.
Qed.

(** The manifest file after the manifest step. *)
Lemma create_docker_compose_manifest self w :
  files (fst (create_docker_compose host self w)) !! path_in (BASE_DIR host) "docker-compose.yml"
  = manifest_after host self w.
Proof.
  unfold manifest_after, create_docker_compose, log, load_config, loaded,
    write_file, check_writable.
  mred. destruct (config_file w) as [[c|]|]; mred; try reflexivity.
  all: split_decisions; try reflexivity; apply lookup_insert_eq.
Qed.

Lemma tame_benign {A} T D (c : M A) : tame T D c -> benign c.
Proof. now intros [_ H]. Qed.

(** In unattended mode none of the nine steps raises anything but an
    ordinary exception. *)
Lemma steps_benign self :
  auto_mode self = true -> Forall (fun st => benign (snd st)) (steps host self).
Proof.
  intros Ha. unfold steps. repeat constructor; cbn [snd].
  - apply benign_setup_directories.
  - apply (tame_benign [] false). eapply tame_install_nvidia_drivers; eassumption.
  - eapply tame_benign. eapply tame_install_cuda_toolkit; eassumption.
  - apply (tame_benign [] false). eapply tame_install_docker; eassumption.
  - apply (tame_benign [] false). eapply tame_install_nvidia_container_toolkit; eassumption.
  - eapply tame_benign. apply tame_create_docker_compose.
  - eapply tame_benign. apply tame_create_env_file.
  - eapply tame_benign. apply tame_create_management_scripts.
  - apply (tame_benign [] false). apply tame_pull_images.
Qed.

(** The run in unattended mode, once the probe has returned: the report
    is printed, the nine steps are attempted one after the other, the
    summary is printed and the run succeeds. *)
Lemma run_full_install_unattended self w wd info :
  auto_mode self = true ->
  detect_system host (emit (Log "INFO" "Starting full installation...") w) = (wd, Ok info) ->
  let self' := mkInstaller (auto_mode self) (Some info) in
  exists w_start,
    frame [] false w w_start
    /\ frame [] false (after_attempts host self' (steps host self') w_start)
                      (fst (run_full_install host self w))
    /\ snd (run_full_install host self w) = Ok true.
Proof.
  intros unattended Hd. destruct self as [am si]. cbn [auto_mode] in *. subst am.
  set (self' := mkInstaller true (Some info)).
  pose proof (proj1 (tame_print_system_report host [] false info) wd) as Hp.
  pose proof (proj2 (tame_print_system_report host [] false info) wd) as Hb.
  exists (fst (print_system_report host info wd)). split.
  { eapply frame_trans; [|exact Hp].
    eapply frame_trans; [apply (frame_emit [] false)|].
    pose proof (proj1 (tame_detect_system host [] false)
                  (emit (Log "INFO" "Starting full installation...") w)) as H.
    rewrite Hd in H. exact H. }
  unfold run_full_install, log. mred. rewrite Hd. mred.
  destruct (print_system_report host info wd) as [wp [[]|e]] eqn:Hr.
  2:{ exfalso. clear - Hr. revert wd wp Hr.
      unfold print_system_report. generalize (report_lines host info).
      induction l as [|x l IH]; intros wd wp Hr; [discriminate|].
      cbn [print_all] in Hr. unfold bind, print in Hr. now apply IH in Hr. }
  cbn [fst]. unfold confirm. cbn [auto_mode]. mred.
  assert (Ha : auto_mode self' = true) by reflexivity.
  fold self'.
  rewrite (run_steps_unattended host self' Ha (steps host self')
             (steps_benign self' Ha) wp).
  mred. unfold print. mred. split; [|reflexivity].
  repeat (eapply frame_trans; [|apply frame_emit]). apply frame_refl.
Qed.

(** One pass over the nine steps in unattended mode. *)
Lemma pass_effect_attempts self a0 :
  auto_mode self = true ->
  pass_effect host self a0 (after_attempts host self (steps host self) a0).
Proof.
  intros Ha. unfold after_attempts, steps. cbn [fold_left fst snd].
  set (a1 := fst (attempt host self "Setup directories" (setup_directories host) a0)).
  set (a2 := fst (attempt host self "Install NVIDIA drivers" _ a1)).
  set (a3 := fst (attempt host self "Install CUDA toolkit" _ a2)).
  set (a4 := fst (attempt host self "Install Docker" _ a3)).
  set (a5 := fst (attempt host self "Install NVIDIA Container Toolkit" _ a4)).
  set (a6 := fst (attempt host self "Create Docker Compose" _ a5)).
  set (a7 := fst (attempt host self "Create .env file" _ a6)).
  set (a8 := fst (attempt host self "Create management scripts" _ a7)).
  set (a9 := fst (attempt host self "Pull Docker images" _ a8)).
  set (P := path_in (BASE_DIR host) "docker-compose.yml").
  set (E := path_in (BASE_DIR host) ".env").
  set (B := BASE_DIR host).
  (* the directories step *)
  assert (S1 : setup_effect host a0 a1).
  { destruct (attempt_world host self Ha "Setup directories" (setup_directories host) a0)
      as (wi & Hin & Hout).
    pose proof (setup_directories_effect wi) as Hs.
    apply frame_nil_eq in Hin as (d1 & c1 & r1 & f1).
    apply frame_nil_eq in Hout as (d2 & c2 & r2 & f2).
    fold a1 in d2, c2, r2, f2.
    unfold setup_effect, loaded in *.
    rewrite d1, c1, r1, f1 in Hs. rewrite d2, c2, r2, f2. exact Hs. }
  (* the steps that stay in a frame *)
  pose proof (proj1 (tame_attempt host self Ha [] false "Install NVIDIA drivers" _
                (tame_install_nvidia_drivers host self Ha [] false)) a1) as F2.
  pose proof (proj1 (tame_attempt host self Ha _ _ "Install CUDA toolkit" _
                (tame_install_cuda_toolkit host self Ha)) a2) as F3.
  pose proof (proj1 (tame_attempt host self Ha [] false "Install Docker" _
                (tame_install_docker host self Ha [] false)) a3) as F4.
  pose proof (proj1 (tame_attempt host self Ha [] false "Install NVIDIA Container Toolkit" _
                (tame_install_nvidia_container_toolkit host self Ha [] false)) a4) as F5.
  pose proof (proj1 (tame_attempt host self Ha _ _ "Create Docker Compose" _
                (tame_create_docker_compose host self)) a5) as F6.
  pose proof (proj1 (tame_attempt host self Ha _ _ "Create .env file" _
                (tame_create_env_file host)) a6) as F7.
  pose proof (proj1 (tame_attempt host self Ha _ _ "Create management scripts" _
                (tame_create_management_scripts host)) a7) as F8.
  pose proof (proj1 (tame_attempt host self Ha [] false "Pull Docker images" _
                (tame_pull_images host [] false)) a8) as F9.
  fold a2 in F2. fold a3 in F3. fold a4 in F4. fold a5 in F5. fold a6 in F6.
  fold a7 in F7. fold a8 in F8. fold a9 in F9.
  (* the manifest step *)
  assert (M6 : files a6 !! P = manifest_after host self a5).
  { destruct (attempt_world host self Ha "Create Docker Compose"
                (create_docker_compose host self) a5) as (wi & Hin & Hout).
    apply frame_nil_eq in Hin as (d1 & c1 & r1 & f1).
    apply frame_nil_eq in Hout as (d2 & c2 & r2 & f2).
    fold a6 in f2. rewrite f2, create_docker_compose_manifest.
    unfold manifest_after, loaded. now rewrite d1, c1, f1. }
  (* the secrets step *)
  assert (E7 : path_exists E a6 = true -> files a7 = files a6 /\ drawn a7 = drawn a6).
  { intros Hx.
    destruct (attempt_world host self Ha "Create .env file" (create_env_file host) a6)
      as (wi & Hin & Hout).
    apply frame_nil_eq in Hin as (d1 & c1 & r1 & f1).
    apply frame_nil_eq in Hout as (d2 & c2 & r2 & f2).
    fold a7 in r2, f2.
    assert (Hxi : path_exists E wi = true).
    { unfold path_exists in *. now rewrite d1, f1. }
    rewrite (create_env_file_skips host wi Hxi) in r2, f2. cbn [fst emit files drawn] in r2, f2.
    split; congruence. }
  destruct S1 as (s_files & s_drawn & s_sub & s_new & s_file & s_dir & s_load).
  destruct F2 as [d2 c2 r2 f2]. destruct F3 as [d3 c3 r3 f3].
  destruct F4 as [d4 c4 r4 f4]. destruct F5 as [d5 c5 r5 f5].
  destruct F6 as [d6 c6 r6 f6]. destruct F7 as [d7 c7 _ f7].
  destruct F8 as [d8 c8 r8 f8]. destruct F9 as [d9 c9 r9 f9].
  specialize (r2 eq_refl). specialize (r3 eq_refl). specialize (r4 eq_refl).
  specialize (r5 eq_refl). specialize (r6 eq_refl). specialize (r8 eq_refl).
  specialize (r9 eq_refl).
  assert (D91 : dirs a9 = dirs a1) by congruence.
  assert (D51 : dirs a5 = dirs a1) by congruence.
  assert (D61 : dirs a6 = dirs a1) by congruence.
  assert (C91 : config_file a9 = config_file a1) by congruence.
  assert (C51 : config_file a5 = config_file a1) by congruence.
  assert (L51 : loaded host a5 = loaded host a0).
  { rewrite <- s_load. unfold loaded. now rewrite C51. }
  assert (P3 : P ∈ dirs a1 <-> P ∈ dirs a0).
  { split; [|apply s_sub]. intros Hp. destruct (s_new _ Hp) as [|Hq]; [assumption|].
    exfalso. revert Hq. apply manifest_not_a_setup_dir. }
  assert (FP5 : files a5 !! P = files a0 !! P).
  { rewrite f5, f4, f3, f2, s_files; try apply not_elem_of_nil; [reflexivity|].
    subst P. paths_apart. }
  assert (FP9 : files a9 !! P = files a6 !! P).
  { rewrite f9, f8, f7; try apply not_elem_of_nil; [reflexivity| |];
      subst P; paths_apart. }
  assert (FB9 : files a9 !! B = files a0 !! B).
  { rewrite f9, f8, f7, f6, f5, f4, f3, f2, s_files; try apply not_elem_of_nil;
      [reflexivity|..]; subst B; paths_apart. }
  assert (FE6 : files a6 !! E = files a0 !! E).
  { rewrite f6, f5, f4, f3, f2, s_files; try apply not_elem_of_nil;
      [reflexivity|..]; subst E; paths_apart. }
  assert (FE97 : files a9 !! E = files a7 !! E).
  { rewrite f9, f8; try apply not_elem_of_nil; [reflexivity|]. subst E. paths_apart. }
  unfold pass_effect. cbv zeta. fold P E. fold B. repeat split.
  - rewrite <- s_load. unfold loaded. now rewrite C91.
  - now rewrite D91.
  - rewrite D91. apply P3.
  - rewrite D91. apply P3.
  - intros Hf. rewrite D91. now apply s_file.
  - intros Hf. rewrite D91. now apply s_dir.
  - exact FB9.
  - rewrite FP9, M6. unfold manifest_after. fold P. fold B. rewrite L51, FP5, D51, D91.
    destruct (loaded host a0) as [c|e]; [|reflexivity].
    destruct (bool_decide (P ∈ dirs a1)) eqn:E1; destruct (bool_decide (P ∈ dirs a0)) eqn:E0;
      try reflexivity.
    + apply bool_decide_eq_true_1 in E1. apply bool_decide_eq_false_1 in E0.
      exfalso. apply E0, P3, E1.
    + apply bool_decide_eq_false_1 in E1. apply bool_decide_eq_true_1 in E0.
      exfalso. apply E1, P3, E0.
  - assert (Hx6 : path_exists E a6 = true).
    { unfold path_exists in *. rewrite FE6, D61.
      apply orb_true_iff in H as [Hd|Hf]; apply orb_true_iff; [left|now right].
      apply bool_decide_eq_true_1 in Hd. apply bool_decide_eq_true_2. now apply s_sub. }
    destruct (E7 Hx6) as [Hf Hr]. rewrite FE97, Hf. exact FE6.
  - assert (Hx6 : path_exists E a6 = true).
    { unfold path_exists in *. rewrite FE6, D61.
      apply orb_true_iff in H as [Hd|Hf]; apply orb_true_iff; [left|now right].
      apply bool_decide_eq_true_1 in Hd. apply bool_decide_eq_true_2. now apply s_sub. }
    destruct (E7 Hx6) as [Hf Hr]. congruence.
Qed.

(** The same for a whole unattended run whose probe has returned. *)
Lemma pass_effect_frame self w0 a0 a9 w1 :
  frame [] false w0 a0 -> frame [] false a9 w1 ->
  pass_effect host self a0 a9 -> pass_effect host self w0 w1.
Proof.
  intros H0 H1 Hp.
  apply frame_nil_eq in H0 as (d0 & c0 & r0 & f0).
  apply frame_nil_eq in H1 as (d1 & c1 & r1 & f1).
  unfold pass_effect, loaded, path_exists in *.
  rewrite d0, c0, r0, f0 in Hp. rewrite d1, c1, r1, f1. exact Hp.
Qed.

Lemma install_effect self w wd info :
  auto_mode self = true ->
  detect_system host (emit (Log "INFO" "Starting full installation...") w) = (wd, Ok info) ->
  pass_effect host (mkInstaller (auto_mode self) (Some info)) w
              (fst (run_full_install host self w))
  /\ snd (run_full_install host self w) = Ok true.
Proof.
  intros Ha Hd.
  destruct (run_full_install_unattended self w wd info Ha Hd) as (ws & H0 & H1 & Hr).
  split; [|exact Hr].
  eapply pass_effect_frame; [exact H0 | exact H1 |].
  apply pass_effect_attempts. exact Ha.
Qed.

(** C7.  Two unattended runs in a row on an unchanged hardware snapshot:
    both succeed, the manifest file after the second run is the one the
    first run left, a secrets file that exists after the first run is kept
    as it is without a new token being drawn, and the configuration loads
    to the same document; when the base directory could be created and the
    manifest path is free, that manifest is the rendering of the loaded
    configuration and the snapshot. *)
Theorem install_twice_same_manifest (w0 wd1 wd2 : World) (info : SystemInfo) :
  let self := mkInstaller true None in
  let self' := mkInstaller true (Some info) in
  let P := path_in (BASE_DIR host) "docker-compose.yml" in
  let E := path_in (BASE_DIR host) ".env" in
  let w1 := fst (run_full_install host self w0) in
  let w2 := fst (run_full_install host self w1) in
  detect_system host (emit (Log "INFO" "Starting full installation...") w0) = (wd1, Ok info) ->
  detect_system host (emit (Log "INFO" "Starting full installation...") w1) = (wd2, Ok info) ->
  snd (run_full_install host self w0) = Ok true
  /\ snd (run_full_install host self w1) = Ok true
  /\ files w2 !! P = files w1 !! P
  /\ (path_exists E w1 = true -> files w2 !! E = files w1 !! E /\ drawn w2 = drawn w1)
  /\ loaded host w2 = loaded host w1
  /\ (forall c,
        loaded host w0 = Ok c ->
        P ∉ dirs w0 ->
        ~ is_Some (files w0 !! BASE_DIR host) ->
        files w1 !! P = Some (docker_compose host c (manifest_tensor_parallel self' c))).
Proof.
  intros self self' P E w1 w2 Hd1 Hd2.
  destruct (install_effect self w0 wd1 info eq_refl Hd1) as [A Ar].
  destruct (install_effect self w1 wd2 info eq_refl Hd2) as [B Br].
  fold w1 in A. fold w2 in B. cbn [auto_mode] in A, B. fold self' in A, B.
  destruct A as (a_load & a_sub & a_P & a_file & a_dir & a_B & a_man & a_env).
  destruct B as (b_load & b_sub & b_P & b_file & b_dir & b_B & b_man & b_env).
  fold P in a_P, a_man, b_P, b_man. fold E in a_env, b_env.
  repeat split; try assumption.
  - (* the manifest *)
    rewrite b_man, a_load.
    destruct (loaded host w0) as [c|e]; [|reflexivity].
    assert (HB : bool_decide (BASE_DIR host ∈ dirs w2)
                 = bool_decide (BASE_DIR host ∈ dirs w1)).
    { destruct (decide (is_Some (files w0 !! BASE_DIR host))) as [Hf|Hf].
      - rewrite b_file; [reflexivity|]. now rewrite a_B.
      - rewrite !bool_decide_eq_true_2; [reflexivity | now apply a_dir |].
        apply b_sub. now apply a_dir. }
    destruct (bool_decide (P ∈ dirs w1)) eqn:E1; [reflexivity|].
    rewrite HB.
    destruct (bool_decide (BASE_DIR host ∈ dirs w1)) eqn:E2; [|reflexivity].
    apply bool_decide_eq_false_1 in E1.
    rewrite a_man.
    rewrite (bool_decide_eq_false_2 (P ∈ dirs w0)) by (intros Hp; apply E1, a_P, Hp).
    rewrite ?E2. reflexivity.
  - now apply b_env.
  - now apply b_env.
  - (* the manifest as a rendering *)
    intros c Hc Hp Hf. rewrite a_man, Hc.
    rewrite bool_decide_eq_false_2 by exact Hp.
    rewrite bool_decide_eq_true_2 by (now apply a_dir). reflexivity.
Qed.

(** C9.  In unattended mode a confirmation answers with its default and
    leaves the world, standard input included, as it is; every attempt of
    one of the nine steps lets the loop go on, whatever the step did; so
    the loop is the sequence of the nine attempts in their fixed order, it
    puts the nine headings on the console in that order, and it ends with
    success, as does the whole run once the probe has returned. *)
Theorem unattended_run_attempts_every_step (self : Installer) :
  auto_mode self = true ->
  let names :=
    [ "Setup directories"; "Install NVIDIA drivers"; "Install CUDA toolkit";
      "Install Docker"; "Install NVIDIA Container Toolkit";
      "Create Docker Compose"; "Create .env file";
      "Create management scripts"; "Pull Docker images" ] in
  (forall message dflt w, confirm self message dflt w = (w, Ok dflt))
  /\ map fst (steps host self) = names
  /\ (forall name func w,
        In (name, func) (steps host self) ->
        snd (attempt host self name func w) = Ok true)
  /\ (forall w,
        run_steps host self (steps host self) w
        = (after_attempts host self (steps host self) w, Ok true))
  /\ (forall w,
        headings (console (fst (run_steps host self (steps host self) w)))
        = headings (console w) ++ map (fun name => Log "INFO" (banner name)) names)
  /\ (forall w wd info,
        detect_system host (emit (Log "INFO" "Starting full installation...") w)
          = (wd, Ok info) ->
        snd (run_full_install host self w) = Ok true).
Proof.
  intros Ha names.
  assert (Hrun : forall w,
             run_steps host self (steps host self) w
             = (after_attempts host self (steps host self) w, Ok true)).
  { intros w. apply run_steps_unattended; [exact Ha | now apply steps_benign]. }
  split; [|split; [|split; [|split; [|split]]]].
  - intros message dflt w. unfold confirm. now rewrite Ha.
  - reflexivity.
  - intros name func w Hin. apply attempt_continues; [exact Ha|].
    pose proof (steps_benign self Ha) as Hb.
    rewrite Forall_forall in Hb. apply (Hb (name, func)).
    now apply list_elem_of_In.
  - exact Hrun.
  - intros w. rewrite Hrun. cbn [fst].
    rewrite (after_attempts_headings host self (steps host self) Ha
               (steps_hushed host self Ha) w).
    reflexivity.
  - intros w wd info Hd. now apply (install_effect self w wd info Ha Hd).
Qed.

End Install.

Lemma install_twice_same_manifest_witness :
  let h := Sample.bare in
  let self := mkInstaller true None in
  let P := path_in (BASE_DIR h) "docker-compose.yml" in
  let E := path_in (BASE_DIR h) ".env" in
  let w0 := set_dirs {[ home h ]} Sample.nothing in
  let w1 := fst (run_full_install h self w0) in
  let w2 := fst (run_full_install h self w1) in
  files w2 !! P = files w1 !! P
  /\ files w2 !! E = files w1 !! E
  /\ drawn w2 = drawn w1.
Proof.
  intros h self P E w0 w1 w2.
  pose proof (install_twice_same_manifest h w0
                (fst (detect_system h (emit (Log "INFO" "Starting full installation...") w0)))
                (fst (detect_system h (emit (Log "INFO" "Starting full installation...") w1)))
                (mkSystemInfo "Unknown" "Unknown" "Unknown" 8 GB_zero GB_zero []
                   false false false)) as H.
  cbv zeta in H.
  destruct H as (_ & _ & HP & HE & _).
  - vm_compute. reflexivity.
  - vm_compute. reflexivity.
  - split; [exact HP | apply HE]. vm_compute. reflexivity.
Defined.

Lemma unattended_run_attempts_every_step_witness :
  let self := mkInstaller true None in
  (forall message dflt w, confirm self message dflt w = (w, Ok dflt))
  /\ snd (run_full_install Sample.bare self Sample.nothing) = Ok true.
Proof.
  intros self.
  destruct (unattended_run_attempts_every_step Sample.bare self eq_refl)
    as (Hc & _ & _ & _ & _ & Hr).
  split; [exact Hc|].
  apply (Hr Sample.nothing
           (fst (detect_system Sample.bare
                   (emit (Log "INFO" "Starting full installation...") Sample.nothing)))
           (mkSystemInfo "Unknown" "Unknown" "Unknown" 8 GB_zero GB_zero []
              false false false)).
  vm_compute. reflexivity.
Defined.

(** A run on a machine with no tool at all: the Docker step fails, the
    steps after it are attempted all the same (the secrets file and the
    scripts are there at the end), and the command exits with status 0. *)
Example unattended_run_on_bare_machine :
  let h := Sample.bare in
  let w := fst (run h (Install true) Sample.nothing) in
  In (Log "ERROR" "Step failed: Install Docker") (console w)
  /\ is_Some (files w !! path_in (BASE_DIR h) ".env")
  /\ is_Some (files w !! path_in (BASE_DIR h) "logs.sh")
  /\ snd (run h (Install true) Sample.nothing) = 0.
Proof.
  intros h w. split; [|split; [|split]].
  - vm_compute. repeat (first [left; reflexivity | right]).
  - vm_compute. eexists. reflexivity.
  - vm_compute. eexists. reflexivity.
  - vm_compute. reflexivity.
Qed.
(* ===================================================================== *)
(** ** Further properties of the code *)
(* ===================================================================== *)

(** *** Prompts *)

(** In interactive mode a confirmation reads exactly one line and shows
    the default in its prompt; a blank line gives the default, "y" and
    "yes" in any letter case and with any white space around give yes, and
    every other answer gives no, whatever the default. *)
Theorem confirm_interactive
    (self : Installer) (message r : string) (dflt : bool)
    (rest : list input_item) (w : World) :
  auto_mode self = false ->
  stdin w = Line r :: rest ->
  let suffix := if dflt then " [Y/n]: " else " [y/N]: " in
  let a := Py.lower (Py.strip r) in
  exists answer,
    confirm self message dflt w
    = (set_stdin rest (emit (Prompt (message +:+ suffix)) w), Ok answer)
    /\ (a = EmptyString -> answer = dflt)
    /\ (a = "y" \/ a = "yes" -> answer = true)
    /\ (a <> EmptyString -> a <> "y" -> a <> "yes" -> answer = false).
Proof.
  intros Ha Hin suffix a. unfold confirm, input. rewrite Ha. mred. rewrite Hin.
  fold suffix. fold a. destruct a as [|c a'] eqn:Ea.
  - exists dflt. repeat split; try reflexivity; intros; try congruence.
    destruct H; discriminate.
  - exists (String.eqb (String c a') "y" || String.eqb (String c a') "yes").
    repeat split.
    + intros H. discriminate H.
    + intros [H|H]; rewrite H; reflexivity.
    + intros _ Hy Hyes.
      apply String.eqb_neq in Hy. apply String.eqb_neq in Hyes.
      now rewrite Hy, Hyes.
Qed.

Lemma confirm_interactive_witness :
  let self := mkInstaller false None in
  let w := set_stdin [Line "  YES "; Line "n"] Sample.nothing in
  exists answer,
    confirm self "Continue anyway?" false w
    = (set_stdin [Line "n"] (emit (Prompt ("Continue anyway?" +:+ " [y/N]: ")) w), Ok answer)
    /\ (Py.lower (Py.strip "  YES ") = "y" \/ Py.lower (Py.strip "  YES ") = "yes" ->
        answer = true).
Proof.
  intros self w.
  destruct (confirm_interactive self "Continue anyway?" "  YES " false [Line "n"] w
              eq_refl eq_refl) as (answer & H & _ & Hy & _).
  exists answer. split; [exact H | exact Hy].
Defined.

(** With standard input at its end a confirmation raises [EOFError]; on
    the user's interrupt it raises [KeyboardInterrupt]. *)
Lemma confirm_without_answer (self : Installer) (message : string) (dflt : bool) (w : World) :
  auto_mode self = false ->
  (stdin w = [] -> snd (confirm self message dflt w) = Raise EOFError)
  /\ (forall rest, stdin w = Interrupt :: rest ->
        snd (confirm self message dflt w) = Raise KeyboardInterrupt).
Proof.
  intros Ha. unfold confirm, input. rewrite Ha. mred.
  split; [intros H | intros rest H]; now rewrite H.
Qed.

(** *** Commands that need a prior installation *)

Section Commands.

Variable host : Host.

(** Without the base directory the commands [serve], [start], [stop] and
    [status] only print that nothing is installed and exit with status 1:
    no program is started, no probe is made and nothing is written. *)
Theorem commands_need_installation (cmd : command) (w : World) :
  cmd = Serve \/ cmd = Start \/ cmd = Stop \/ cmd = Status ->
  path_exists (BASE_DIR host) w = false ->
  let msg := match cmd with
             | Serve | Start => "❌ Not installed. Run 'python3 deploy.py install' first."
             | _ => "❌ Not installed."
             end in
  run host cmd w = (emit (Print msg) w, 1).
Proof.
  intros Hc Hx. unfold run.
  destruct Hc as [-> | [-> | [-> | ->]]]; cbn [main]; unfold require_installed, exists_, bind;
    rewrite Hx; reflexivity.
Qed.

(** With the base directory in place, [start] and [serve] exit with status
    0 whenever [docker] can be started, whatever status [docker compose]
    itself ends with; when [docker] cannot be started the command ends on
    [FileNotFoundError] with status 1. *)
Theorem start_ignores_compose_status (cmd : command) (w : World) :
  cmd = Serve \/ cmd = Start ->
  BASE_DIR host ∈ dirs w ->
  let argv := ["docker"; "compose"; "--env-file"; ".env"; "up"; "-d"] in
  (forall rc, spawn host (ticks w) argv = Some rc ->
     snd (run host cmd w) = 0
     /\ console (fst (run host cmd w)) =
          console w ++
          [ Print (Py.nl +:+ "🚀 Services starting...");
            Print "   vLLM API: http://localhost:8000";
            Print "   AnythingLLM UI: http://localhost:3001";
            Print (Py.nl +:+ "   Use 'docker compose logs -f' to monitor startup") ])
  /\ (spawn host (ticks w) argv = None ->
      snd (run host cmd w) = 1 /\ console (fst (run host cmd w)) = console w).
Proof.
  intros Hc Hb argv.
  assert (E : run host cmd w = run host Start w) by (destruct Hc as [-> | ->]; reflexivity).
  rewrite E. clear E Hc.
  unfold run, main, require_installed, exists_, path_exists, start_services,
    chdir, subprocess_run, print.
  mred. repeat (rewrite (bool_decide_eq_true_2 _ Hb); mred).
  split.
  - intros rc Hs. fold argv. rewrite Hs. mred. cbn [exit_status].
    split; [reflexivity|]. rewrite <- !app_assoc. reflexivity.
  - intros Hs. fold argv. rewrite Hs. mred. split; reflexivity.
Qed.

(** The same for [stop]. *)
Theorem stop_ignores_compose_status (w : World) :
  BASE_DIR host ∈ dirs w ->
  (forall rc, spawn host (ticks w) ["docker"; "compose"; "down"] = Some rc ->
     snd (run host Stop w) = 0
     /\ console (fst (run host Stop w)) = console w ++ [Print "Services stopped."])
  /\ (spawn host (ticks w) ["docker"; "compose"; "down"] = None ->
      snd (run host Stop w) = 1 /\ console (fst (run host Stop w)) = console w).
Proof.
  intros Hb.
  unfold run, main, require_installed, exists_, path_exists, stop_services,
    chdir, subprocess_run, print.
  mred. repeat (rewrite (bool_decide_eq_true_2 _ Hb); mred).
  split.
  - intros rc Hs. rewrite Hs. mred. split; reflexivity.
  - intros Hs. rewrite Hs. mred. split; reflexivity.
Qed.

(** The [detect] command: once the probe has returned its snapshot and the
    home directory is there, the report is printed, the snapshot is saved
    as [hardware_report.json] in the home directory and the command exits
    with status 0; nothing else of what the installer manages changes. *)
Theorem detect_saves_report (w wd : World) (info : SystemInfo) :
  detect_system host w = (wd, Ok info) ->
  home host ∈ dirs w ->
  path_in (home host) "hardware_report.json" ∉ dirs w ->
  snd (run host Detect w) = 0
  /\ files (fst (run host Detect w)) !! path_in (home host) "hardware_report.json"
     = Some (report_json host info)
  /\ frame [path_in (home host) "hardware_report.json"] false w (fst (run host Detect w))
  /\ exists before,
       console (fst (run host Detect w))
       = before ++ map Print (report_lines host info)
           ++ [Print (Py.nl +:+ "Report saved to: "
                        +:+ path_in (home host) "hardware_report.json")].
Proof.
  intros Hd Hh Hp.
  pose proof (proj1 (tame_detect_system host [] false) w) as Fd. rewrite Hd in Fd.
  cbn [fst] in Fd.
  apply frame_nil_eq in Fd as (d1 & c1 & r1 & f1).
  assert (Hpr : forall ls w0,
             print_all ls w0
             = (mkWorld (dirs w0) (files w0) (config_file w0) (executable w0)
                  (console w0 ++ map Print ls) (stdin w0) (ticks w0) (drawn w0), Ok tt)).
  { induction ls as [|l ls IH]; intros w0.
    - simpl. rewrite app_nil_r. now destruct w0.
    - cbn [print_all]. unfold bind, print. rewrite IH. cbn.
      now rewrite <- app_assoc. }
  set (p := path_in (home host) "hardware_report.json") in *.
  set (wp := mkWorld (dirs wd) (files wd) (config_file wd) (executable wd)
               (console wd ++ map Print (report_lines host info))
               (stdin wd) (ticks wd) (drawn wd)).
  assert (Hrun : run host Detect w
                 = (emit (Print (Py.nl +:+ "Report saved to: " +:+ p))
                      (set_files (<[p := report_json host info]> (files wp)) wp), 0)).
  { unfold run, main. rewrite (bind_ok _ _ _ _ _ Hd).
    rewrite (bind_ok _ _ wd wp tt) by apply Hpr.
    unfold write_file, check_writable, print. fold p. mred. subst wp. cbn [dirs files].
    rewrite d1, (bool_decide_false_not_elem _ _ Hp), (bool_decide_eq_true_2 _ Hh).
    reflexivity. }
  rewrite Hrun. cbn [fst snd emit set_files files dirs config_file drawn console wp].
  split; [reflexivity|]. split; [apply lookup_insert_eq|]. split.
  - constructor; cbn; auto.
    intros q Hn. rewrite lookup_insert_ne; [now rewrite f1|].
    intros ->. apply Hn. constructor.
  - exists (console wd). subst wp. cbn. now rewrite <- app_assoc.
Qed.

End Commands.

Lemma commands_need_installation_witness :
  run Sample.bare Status Sample.nothing
  = (emit (Print "❌ Not installed.") Sample.nothing, 1).
Proof.
  apply (commands_need_installation Sample.bare Status Sample.nothing).
  - now right; right; right.
  - vm_compute. reflexivity.
Defined.

Lemma start_ignores_compose_status_witness :
  let h := Sample.with_gpu_table EmptyString in
  snd (run h Start (Sample.installed h)) = 0.
Proof.
  intros h.
  destruct (start_ignores_compose_status h Start (Sample.installed h)) as [H _].
  - now right.
  - vm_compute. set_solver.
  - exact (proj1 (H 1 eq_refl)).
Defined.

Lemma stop_ignores_compose_status_witness :
  let h := Sample.with_gpu_table EmptyString in
  snd (run h Stop (Sample.installed h)) = 0.
Proof.
  intros h.
  destruct (stop_ignores_compose_status h (Sample.installed h)) as [H _].
  - vm_compute. set_solver.
  - exact (proj1 (H 1 eq_refl)).
Defined.

Lemma detect_saves_report_witness :
  let h := Sample.bare in
  let w := set_dirs {[ home h ]} Sample.nothing in
  snd (run h Detect w) = 0
  /\ files (fst (run h Detect w)) !! path_in (home h) "hardware_report.json"
     = Some (report_json h (mkSystemInfo "Unknown" "Unknown" "Unknown" 8 GB_zero GB_zero []
                              false false false)).
Proof.
  intros h w.
  destruct (detect_saves_report h w (fst (detect_system h w))
              (mkSystemInfo "Unknown" "Unknown" "Unknown" 8 GB_zero GB_zero []
                 false false false)) as (H0 & Hf & _).
  - vm_compute. reflexivity.
  - vm_compute. set_solver.
  - vm_compute. set_solver.
  - split; assumption.
Defined.
(** *** The installation steps one by one *)

Section StepBehaviour.

Variable host : Host.

(** One command of a step: one external call, two log lines, and a result
    that is false only for a failed command that is checked. *)
Lemma run_step_result (name cmd : string) (check : bool) (w : World) :
  let rc := returncode (shell host (ticks w) cmd) in
  exists line,
    run_step host name cmd check w
    = (emit line (tick (emit (Log "INFO" ("Running: " +:+ name)) w)),
       Ok ((rc =? 0) || negb check)).
Proof.
  intros rc. unfold run_step, log, run_command. mred. fold rc.
  destruct (rc =? 0); simpl; eexists; reflexivity.
Qed.

Lemma run_step_ticks name cmd check w :
  ticks (fst (run_step host name cmd check w)) = S (ticks w).
Proof. destruct (run_step_result name cmd check w) as [line ->]. reflexivity. Qed.

(** A checked sequence of commands stops at the first command that fails:
    its result tells whether all succeeded, and it has made one external
    call for each command up to and including the failing one. *)
Lemma run_steps_checked_stops (prefix : string) (cmds : list string) :
  forall w,
    snd (run_steps_checked host prefix cmds w)
    = Ok (bool_decide (first_failure host (ticks w) cmds = None))
    /\ ticks (fst (run_steps_checked host prefix cmds w))
       = (ticks w + match first_failure host (ticks w) cmds with
                    | Some k => S k
                    | None => length cmds
                    end)%nat.
Proof.
  induction cmds as [|cmd rest IH]; intros w.
  - simpl. split; [reflexivity | lia].
  - cbn [run_steps_checked first_failure]. unfold bind.
    destruct (run_step_result (prefix +:+ cmd) cmd true w) as [line E]. rewrite E.
    cbn [negb]. rewrite orb_false_r.
    destruct (returncode (shell host (ticks w) cmd) =? 0).
    + destruct (IH (emit line (tick (emit (Log "INFO" ("Running: " +:+ prefix +:+ cmd)) w))))
        as [Hr Ht].
      cbn [ticks emit tick] in Hr, Ht. rewrite Hr, Ht.
      destruct (first_failure host (S (ticks w)) rest) as [k|]; cbn [fmap option_fmap option_map length].
      * split; [reflexivity | lia].
      * split; [reflexivity | lia].
    + simpl. split; [reflexivity | lia].
Qed.

(** An unchecked sequence runs every one of its commands, whatever their
    outcomes, and never fails. *)
Lemma run_steps_unchecked_runs_all (name command : string -> string) (items : list string) :
  forall w,
    snd (run_steps_unchecked host name command items w) = Ok tt
    /\ ticks (fst (run_steps_unchecked host name command items w))
       = (ticks w + length items)%nat.
Proof.
  induction items as [|x rest IH]; intros w.
  - simpl. split; [reflexivity | lia].
  - cbn [run_steps_unchecked]. unfold bind.
    destruct (run_step_result (name x) (command x) false w) as [line E]. rewrite E.
    destruct (IH (emit line (tick (emit (Log "INFO" ("Running: " +:+ name x)) w))))
      as [Hr Ht].
    cbn [ticks emit tick] in Ht. rewrite Hr, Ht. cbn [length]. split; [reflexivity | lia].
Qed.

(** What [is_wsl] answers, from the kernel version file. *)
Lemma is_wsl_value (w : World) :
  "/proc/version" ∉ dirs w -> is_wsl w = (w, Ok (on_wsl w)).
Proof.
  intros Hd. unfold is_wsl, on_wsl, try_except, bind, open_read.
  rewrite (bool_decide_false_not_elem _ _ Hd).
  destruct (files w !! "/proc/version") as [content|]; [|reflexivity].
  simpl. destruct (Py.contains "microsoft" (Py.lower content)); reflexivity.
Qed.

(** A step whose check finds its tool working does nothing more: one
    external call, no prompt in either mode, no command run, and success.
    This holds for the CUDA toolkit, for Docker, for the container toolkit
    and, off a Windows host, for the drivers. *)
Theorem satisfied_checks_skip_actions (self : Installer) (w : World) :
  let ok cmd := returncode (shell host (ticks w) cmd) = 0 in
  let after checking found :=
    (emit (Log "SUCCESS" found) (tick (emit (Log "INFO" checking) w)), Ok (Some true)) in
  (ok "nvcc --version" ->
     install_cuda_toolkit host self w
     = after "Checking CUDA toolkit..." "CUDA toolkit already installed")
  /\ (ok "docker --version" ->
      install_docker host self w = after "Checking Docker..." "Docker already installed")
  /\ (ok "docker run --rm --gpus all nvidia/cuda:12.0-base nvidia-smi" ->
      install_nvidia_container_toolkit host self w
      = after "Checking NVIDIA Container Toolkit..." "NVIDIA Container Toolkit already working")
  /\ (ok "nvidia-smi" -> "/proc/version" ∉ dirs w -> on_wsl w = false ->
      install_nvidia_drivers host self w
      = after "Checking NVIDIA drivers..." "NVIDIA drivers already installed").
Proof.
  intros ok after. unfold ok, after. repeat split.
  - intros H. unfold install_cuda_toolkit, log, run_command. mred. rewrite H. reflexivity.
  - intros H. unfold install_docker, log, run_command. mred. rewrite H. reflexivity.
  - intros H. unfold install_nvidia_container_toolkit, log, run_command. mred.
    rewrite H. reflexivity.
  - intros H Hd Hw. unfold install_nvidia_drivers, log. unfold bind at 1. unfold bind at 1.
    rewrite is_wsl_value by exact Hd.
    change (on_wsl (emit (Log "INFO" "Checking NVIDIA drivers...") w)) with (on_wsl w).
    rewrite Hw. unfold run_command. mred. rewrite H. reflexivity.
Qed.

(** On a Windows host the drivers step never installs anything: it makes
    one external call, to [nvidia-smi], changes no file, and in unattended
    mode reports failure when that call fails. *)
Theorem drivers_step_on_wsl (self : Installer) (w : World) :
  "/proc/version" ∉ dirs w ->
  on_wsl w = true ->
  auto_mode self = true ->
  let w' := fst (install_nvidia_drivers host self w) in
  ticks w' = S (ticks w)
  /\ files w' = files w
  /\ stdin w' = stdin w
  /\ snd (install_nvidia_drivers host self w)
     = Ok (Some (returncode (shell host (ticks w) "nvidia-smi") =? 0)).
Proof.
  intros Hd Hw Ha. cbv zeta.
  destruct (install_nvidia_drivers host self w) as [w' r] eqn:E. cbn [fst snd].
  revert E. unfold install_nvidia_drivers, log.
  unfold bind at 1. unfold bind at 1.
  rewrite is_wsl_value by exact Hd.
  change (on_wsl (emit (Log "INFO" "Checking NVIDIA drivers...") w)) with (on_wsl w).
  rewrite Hw. unfold confirm, run_command. rewrite Ha. mred.
  destruct (returncode (shell host (ticks w) "nvidia-smi") =? 0); mred;
    intros E; injection E as <- <-; repeat split; reflexivity.
Qed.

(** Off a Windows host, in unattended mode and with [nvidia-smi] failing,
    the drivers step runs its three commands in order and stops at the
    first that fails: it succeeds exactly when all three succeeded. *)
Theorem drivers_step_installs (self : Installer) (w : World) :
  "/proc/version" ∉ dirs w ->
  on_wsl w = false ->
  auto_mode self = true ->
  returncode (shell host (ticks w) "nvidia-smi") <> 0 ->
  let failed := first_failure host (S (ticks w)) driver_commands in
  snd (install_nvidia_drivers host self w) = Ok (Some (bool_decide (failed = None)))
  /\ ticks (fst (install_nvidia_drivers host self w))
     = (S (ticks w) + match failed with Some k => S k | None => 3 end)%nat.
Proof.
  intros Hd Hw Ha Hrc failed.
  destruct (install_nvidia_drivers host self w) as [w' r'] eqn:E. cbn [fst snd].
  revert E. unfold install_nvidia_drivers, log.
  unfold bind at 1. unfold bind at 1.
  rewrite is_wsl_value by exact Hd.
  change (on_wsl (emit (Log "INFO" "Checking NVIDIA drivers...") w)) with (on_wsl w).
  rewrite Hw. unfold confirm, run_command. rewrite Ha.
  apply Z.eqb_neq in Hrc.
  unfold bind at 1. cbn [ticks emit]. rewrite Hrc.
  unfold bind at 1. unfold ret at 1. cbn [negb].
  fold driver_commands.
  destruct (run_steps_checked_stops "Driver install: " driver_commands
              (tick (emit (Log "INFO" "Checking NVIDIA drivers...") w))) as [Hr Ht].
  cbn [ticks tick emit] in Hr, Ht. fold failed in Hr, Ht.
  unfold bind.
  destruct (run_steps_checked host "Driver install: " driver_commands
              (tick (emit (Log "INFO" "Checking NVIDIA drivers...") w))) as [w2 r].
  cbn [fst snd] in Hr, Ht. subst r.
  destruct failed as [k|].
  - rewrite bool_decide_eq_false_2 by discriminate.
    simpl. intros E; injection E as <- <-. split; [reflexivity | exact Ht].
  - rewrite bool_decide_eq_true_2 by reflexivity.
    simpl. intros E; injection E as <- <-. split; [reflexivity | exact Ht].
Qed.

(** In unattended mode, when [nvcc] is not found, the CUDA step runs all
    five of its commands whatever their outcomes, appends the CUDA block
    to [~/.bashrc] (after what the file held) and reports success; so each
    such run appends the block once more. *)
Theorem cuda_step_appends_to_bashrc (self : Installer) (w : World) :
  auto_mode self = true ->
  returncode (shell host (ticks w) "nvcc --version") <> 0 ->
  home host ∈ dirs w ->
  path_in (home host) ".bashrc" ∉ dirs w ->
  let w' := fst (install_cuda_toolkit host self w) in
  snd (install_cuda_toolkit host self w) = Ok (Some true)
  /\ files w' !! path_in (home host) ".bashrc"
     = Some (default EmptyString (files w !! path_in (home host) ".bashrc")
             +:+ Py.nl +:+ "# CUDA" +:+ Py.nl +:+ cuda_path)
  /\ ticks w' = (ticks w + 6)%nat.
Proof.
  intros Ha Hrc Hh Hb. cbv zeta.
  destruct (install_cuda_toolkit host self w) as [w' r'] eqn:E. cbn [fst snd].
  revert E. unfold install_cuda_toolkit, log, run_command, confirm.
  rewrite Ha. apply Z.eqb_neq in Hrc.
  unfold bind at 1. unfold bind at 1. cbn [ticks emit]. rewrite Hrc.
  unfold bind at 1. unfold ret at 1. cbn [negb].
  unfold bind at 1.
  match goal with
  | |- context [run_steps_unchecked host ?n ?c ?l ?w1] =>
      pose proof (run_steps_unchecked_runs_all n c l w1) as [Hr Ht];
      pose proof (proj1 (tame_run_steps_unchecked host [] false n c l) w1) as Hf;
      destruct (run_steps_unchecked host n c l w1) as [w2 r]
  end.
  cbn [fst snd length] in Hr, Ht, Hf. subst r.
  apply frame_nil_eq in Hf as (d2 & c2 & r2 & f2).
  cbn [dirs files ticks tick emit] in d2, f2, Ht.
  unfold append_file, check_writable. mred.
  rewrite d2, f2, (bool_decide_false_not_elem _ _ Hb), (bool_decide_eq_true_2 _ Hh).
  mred. intros E; injection E as <- <-. cbn [files ticks emit set_files].
  repeat split.
  - rewrite lookup_insert_eq, f2. reflexivity.
  - rewrite Ht. lia.
Qed.

End StepBehaviour.

Lemma satisfied_checks_skip_actions_witness :
  let h := Sample.machine (fun _ _ => mkProc 0 EmptyString) false in
  let self := mkInstaller false None in
  install_cuda_toolkit h self Sample.nothing
  = (emit (Log "SUCCESS" "CUDA toolkit already installed")
       (tick (emit (Log "INFO" "Checking CUDA toolkit...") Sample.nothing)),
     Ok (Some true)).
Proof.
  intros h self.
  exact (proj1 (satisfied_checks_skip_actions h self Sample.nothing) eq_refl).
Defined.

Lemma drivers_step_on_wsl_witness :
  let h := Sample.bare in
  let self := mkInstaller true None in
  let w := set_files {[ "/proc/version" := "Linux version 5.15.153.1-microsoft-standard-WSL2" ]}
             Sample.nothing in
  ticks (fst (install_nvidia_drivers h self w)) = 1%nat
  /\ files (fst (install_nvidia_drivers h self w)) = files w
  /\ stdin (fst (install_nvidia_drivers h self w)) = stdin w
  /\ snd (install_nvidia_drivers h self w) = Ok (Some false).
Proof.
  intros h self w.
  apply (drivers_step_on_wsl h self w).
  - simpl. set_solver.
  - reflexivity.
  - reflexivity.
Defined.

Lemma drivers_step_installs_witness :
  let h := Sample.bare in
  let self := mkInstaller true None in
  snd (install_nvidia_drivers h self Sample.nothing) = Ok (Some false)
  /\ ticks (fst (install_nvidia_drivers h self Sample.nothing)) = 2%nat.
Proof.
  intros h self.
  apply (drivers_step_installs h self Sample.nothing).
  - simpl. set_solver.
  - reflexivity.
  - reflexivity.
  - simpl. lia.
Defined.

Lemma cuda_step_appends_to_bashrc_witness :
  let h := Sample.bare in
  let self := mkInstaller true None in
  let w := set_files {[ path_in (home h) ".bashrc" := "alias ll='ls -l'" ]}
             (set_dirs {[ home h ]} Sample.nothing) in
  snd (install_cuda_toolkit h self w) = Ok (Some true)
  /\ files (fst (install_cuda_toolkit h self w)) !! path_in (home h) ".bashrc"
     = Some (default EmptyString (files w !! path_in (home h) ".bashrc")
             +:+ Py.nl +:+ "# CUDA" +:+ Py.nl +:+ cuda_path)
  /\ ticks (fst (install_cuda_toolkit h self w)) = (ticks w + 6)%nat.
Proof.
  intros h self w.
  apply (cuda_step_appends_to_bashrc h self w).
  - reflexivity.
  - simpl. lia.
  - simpl. set_solver.
  - simpl. set_solver.
Defined.
(** *** The probe only looks *)

Lemma looked_refl P w : looked P w w.
Proof.
  constructor; try reflexivity.
  destruct P; [|reflexivity]. exists []. simpl. now rewrite app_nil_r.
Qed.

Lemma looked_trans P a b c : looked P a b -> looked P b c -> looked P a c.
Proof.
  intros [d1 f1 c1 x1 s1 r1 o1] [d2 f2 c2 x2 s2 r2 o2].
  constructor; try congruence.
  destruct P; [|congruence].
  destruct o1 as [l1 o1], o2 as [l2 o2].
  exists (l1 ++ l2). rewrite o2, o1, map_app, <- app_assoc. reflexivity.
Qed.

Lemma looked_tick P w : looked P w (tick w).
Proof.
  constructor; try reflexivity.
  destruct P; [|reflexivity]. exists []. simpl. now rewrite app_nil_r.
Qed.

Lemma looked_print s w : looked true w (emit (Print s) w).
Proof. constructor; try reflexivity. now exists [s]. Qed.

Lemma looked_frame P w w' : looked P w w' -> frame [] false w w'.
Proof.
  intros [d f c x s r o]. constructor; try assumption.
  - now intros _.
  - intros p _. now rewrite f.
Qed.

Lemma headings_prints (l : list event) (ls : list string) :
  headings (l ++ map Print ls) = headings l.
Proof.
  unfold headings. rewrite List.filter_app.
  replace (List.filter (fun e => negb (quiet e)) (map Print ls)) with (@nil event).
  - apply app_nil_r.
  - induction ls; [reflexivity | exact IHls].
Qed.

Lemma looked_headings P w w' :
  looked P w w' -> headings (console w') = headings (console w).
Proof.
  intros [_ _ _ _ _ _ o]. destruct P.
  - destruct o as [ls ->]. apply headings_prints.
  - now rewrite o.
Qed.

Section Observers.

Variable P : bool.

Lemma observer_ret {A} (a : A) : observer P (ret a).
Proof. intros w. apply looked_refl. Qed.

Lemma observer_raise {A} (e : exn) : observer P (@raise A e).
Proof. intros w. apply looked_refl. Qed.

Lemma observer_bind {A B} (c : M A) (k : A -> M B) :
  observer P c -> (forall a, observer P (k a)) -> observer P (bind c k).
Proof.
  intros Hc Hk w. unfold bind. specialize (Hc w).
  destruct (c w) as [w1 [a|e]]; simpl in *; [|exact Hc].
  eapply looked_trans; [exact Hc | apply Hk].
Qed.

Lemma observer_try_except {A} (c : M A) (p : exn -> bool) (h : exn -> M A) :
  observer P c -> (forall e, observer P (h e)) -> observer P (try_except c p h).
Proof.
  intros Hc Hh w. unfold try_except. specialize (Hc w).
  destruct (c w) as [w1 [a|e]]; simpl in *; [exact Hc|].
  destruct (p e); simpl; [|exact Hc].
  eapply looked_trans; [exact Hc | apply Hh].
Qed.

Lemma observer_of_option {A} (e : exn) (o : option A) : observer P (of_option e o).
Proof. destruct o; [apply observer_ret | apply observer_raise]. Qed.

Lemma observer_item {A} (l : list A) (i : nat) : observer P (item l i).
Proof. apply observer_of_option. Qed.

Lemma observer_run_command host cmd : observer P (run_command host cmd).
Proof. intros w. apply looked_tick. Qed.

Lemma observer_exists p : observer P (exists_ p).
Proof. intros w. apply looked_refl. Qed.

Lemma observer_open_read p : observer P (open_read p).
Proof.
  intros w. unfold open_read.
  destruct (bool_decide (p ∈ dirs w)); [apply looked_refl|].
  destruct (files w !! p); apply looked_refl.
Qed.

End Observers.

Lemma observer_print s : observer true (print s).
Proof. intros w. apply looked_print. Qed.

Create HintDb look.

#[local] Hint Resolve observer_ret observer_raise observer_of_option observer_item
  observer_print observer_run_command observer_exists observer_open_read : look.

Ltac look_step :=
  lazymatch goal with
  | |- observer _ (bind _ _) => apply observer_bind; [|intros ?]
  | |- observer _ (try_except _ _ _) => apply observer_try_except; [|intros ?]
  | |- observer _ (if ?b then _ else _) => destruct b
  | |- observer _ (match ?x with _ => _ end) => destruct x
  | |- _ => solve [eauto with look]
  end.

Ltac look_auto := repeat look_step.

Section Lookers.

Variable host : Host.
Variable P : bool.

Lemma observer_gpu_rows cuda lines : observer P (gpu_rows host cuda lines).
Proof.
  induction lines as [|line rest IH]; cbn [gpu_rows]; [look_auto|].
  destruct (Py.strip line); [exact IH|].
  destruct (5 <=? length (map Py.strip (Py.split "," line)))%nat; [|exact IH].
  look_auto.
Qed.

Lemma observer_detect_gpus : observer P (detect_gpus host).
Proof. unfold detect_gpus. look_auto. apply observer_gpu_rows. Qed.

Lemma observer_release_value line : observer P (release_value line).
Proof. unfold release_value. look_auto. Qed.

Lemma observer_os_release_rows ls : forall nm ver, observer P (os_release_rows ls nm ver).
Proof.
  induction ls as [|line rest IH]; intros nm ver; cbn [os_release_rows]; [look_auto|].
  destruct (Py.startswith "NAME=" line).
  - apply observer_bind; [apply observer_release_value | intros v; apply IH].
  - destruct (Py.startswith "VERSION_ID=" line); [|apply IH].
    apply observer_bind; [apply observer_release_value | intros v; apply IH].
Qed.

Lemma observer_cpuinfo_rows ls : forall m, observer P (cpuinfo_rows ls m).
Proof.
  induction ls as [|line rest IH]; intros m; cbn [cpuinfo_rows]; [look_auto|].
  destruct (Py.startswith "model name" line); [look_auto | apply IH].
Qed.

Lemma observer_meminfo_value line : observer P (meminfo_value line).
Proof. unfold meminfo_value. look_auto. Qed.

Lemma observer_meminfo_rows ls : forall t a, observer P (meminfo_rows ls t a).
Proof.
  induction ls as [|line rest IH]; intros t a; cbn [meminfo_rows]; [look_auto|].
  destruct (Py.startswith "MemTotal:" line).
  - apply observer_bind; [apply observer_meminfo_value | intros v; apply IH].
  - destruct (Py.startswith "MemAvailable:" line); [|apply IH].
    apply observer_bind; [apply observer_meminfo_value | intros v; apply IH].
Qed.

Lemma observer_if_exists {A} p (dflt : A) body :
  (forall ls, observer P (body ls)) -> observer P (if_exists p dflt body).
Proof. intros Hb. unfold if_exists. look_auto. Qed.

Lemma observer_print_all ls : observer true (print_all ls).
Proof. induction ls; simpl; look_auto. Qed.

Lemma print_all_ok ls : forall w, snd (print_all ls w) = Ok tt.
Proof.
  induction ls as [|l rest IH]; intros w; [reflexivity|].
  cbn [print_all]. unfold bind, print. apply IH.
Qed.

Lemma observer_detect_system : observer P (detect_system host).
Proof.
  unfold detect_system, detect_os, detect_cpu, detect_ram.
  apply observer_bind; [apply observer_if_exists; intros; apply observer_os_release_rows|intros ?].
  apply observer_bind; [apply observer_if_exists; intros; apply observer_cpuinfo_rows|intros ?].
  apply observer_bind; [apply observer_if_exists; intros; apply observer_meminfo_rows|intros ?].
  apply observer_bind; [apply observer_detect_gpus|intros ?].
  look_auto.
Qed.

End Lookers.

Section Interactive.

Variable host : Host.

(** The hardware probe only looks, whatever it finds and whether or not
    it ends on an exception: it creates and writes nothing, prints
    nothing, reads no line of input and draws no random bytes.  All it
    leaves behind is the count of the external calls it made. *)
Theorem detect_system_only_looks (w : World) :
  looked false w (fst (detect_system host w)).
Proof. apply (observer_detect_system host false). Qed.

(** *** The interactive run *)

Lemma confirm_line_refused (self : Installer) (m r : string) (rest : list input_item) w :
  auto_mode self = false ->
  stdin w = Line r :: rest ->
  refused (stdin w) = true ->
  confirm self m true w
  = (set_stdin rest (emit (Prompt (m +:+ " [Y/n]: ")) w), Ok false).
Proof.
  intros Ha Hs Hr. unfold confirm, input. rewrite Ha. unfold bind. rewrite Hs.
  rewrite Hs in Hr. cbn [refused] in Hr.
  destruct (Py.lower (Py.strip r)) as [|c a]; [discriminate|].
  unfold ret. apply negb_true_iff in Hr. rewrite Hr. reflexivity.
Qed.

Lemma frame_prompted (l : list input_item) (p : string) w :
  frame [] false w (set_stdin l (emit (Prompt p) w)).
Proof. now constructor. Qed.

Lemma exit_status_ordinary {A} (e : exn) :
  is_Exception e = true -> exit_status (@Raise A e) = 1.
Proof. destruct e; simpl; intros H; try reflexivity; discriminate H. Qed.

(** When the question whether to proceed gets no consent (a line other
    than blank, "y" or "yes", or no input at all), the interactive
    [install] exits with status 1 having attempted no step: no heading of
    a step is logged, and no directory, file, configuration or permission
    has changed.  This holds whatever the probe found, also when the
    probe itself failed. *)
Theorem install_refused_changes_nothing (w : World) :
  refused (stdin w) = true ->
  let w' := fst (run host (Install false) w) in
  snd (run host (Install false) w) = 1
  /\ frame [] false w w'
  /\ executable w' = executable w
  /\ headings (console w') = headings (console w).
Proof.
  intros Hr. cbv zeta.
  destruct (run host (Install false) w) as [w' code] eqn:E. cbn [fst snd].
  revert E. unfold run, main, run_full_install, log. unfold bind at 1. unfold bind at 1.
  unfold bind at 1.
  set (w0 := emit (Log "INFO" "Starting full installation...") w).
  pose proof (observer_detect_system host false w0) as Ld.
  pose proof (proj2 (tame_detect_system host [] false) w0) as Bd.
  destruct (detect_system host w0) as [wd [info|e]]; cbn [fst snd] in Ld, Bd.
  - unfold bind at 1.
    pose proof (observer_print_all (report_lines host info) wd) as Lp.
    pose proof (print_all_ok (report_lines host info) wd) as Op.
    unfold print_system_report.
    destruct (print_all (report_lines host info) wd) as [wp r]. cbn [fst snd] in Lp, Op.
    subst r.
    assert (Hs : stdin wp = stdin w).
    { rewrite (looked_stdin _ _ _ Lp), (looked_stdin _ _ _ Ld). reflexivity. }
    assert (Fr : frame [] false w wp).
    { eapply frame_trans; [|apply (looked_frame _ _ _ Lp)].
      eapply frame_trans; [|apply (looked_frame _ _ _ Ld)]. apply frame_emit. }
    assert (Ex : executable wp = executable w).
    { rewrite (looked_executable _ _ _ Lp), (looked_executable _ _ _ Ld). reflexivity. }
    assert (Hh : headings (console wp) = headings (console w)).
    { rewrite (looked_headings _ _ _ Lp), (looked_headings _ _ _ Ld).
      subst w0. cbn [console emit]. now apply headings_snoc_quiet. }
    unfold bind at 1.
    destruct (stdin w) as [|[r|] rest] eqn:Hw; [| |discriminate Hr].
    + unfold confirm, input. cbn [auto_mode]. unfold bind at 1. rewrite Hs.
      intros E. injection E as <- <-. cbn [exit_status].
      split; [reflexivity|]. split; [|split].
      * eapply frame_trans; [exact Fr | apply frame_emit].
      * exact Ex.
      * cbn [console emit]. rewrite headings_snoc_quiet by reflexivity. exact Hh.
    + rewrite (confirm_line_refused (mkInstaller false (Some info)) _ r rest wp eq_refl Hs)
        by (rewrite Hs; exact Hr).
      cbn [negb]. unfold ret, sys_exit, raise.
      intros E. injection E as <- <-. cbn [exit_status].
      split; [reflexivity|]. split; [|split].
      * eapply frame_trans; [exact Fr | apply frame_prompted].
      * exact Ex.
      * cbn [console emit set_stdin]. rewrite headings_snoc_quiet by reflexivity. exact Hh.
  - intros E. injection E as <- <-.
    split; [exact (@exit_status_ordinary unit e (Bd e eq_refl))|]. split; [|split].
    + eapply frame_trans; [apply frame_emit | apply (looked_frame _ _ _ Ld)].
    + rewrite (looked_executable _ _ _ Ld). reflexivity.
    + rewrite (looked_headings _ _ _ Ld). subst w0. cbn [console emit].
      now apply headings_snoc_quiet.
Qed.

(** In interactive mode, when a step reports failure or ends on an
    ordinary exception and the answer to "Continue anyway?" is a line
    other than blank, "y" or "yes", the loop ends there with failure:
    one error line is logged, one question is asked, and none of the
    steps that follow is attempted. *)
Theorem failed_step_refused_stops
    (self : Installer) (name : string) (func : M (option bool))
    (later : list (string * M (option bool)))
    (r : string) (rest : list input_item) (w : World) :
  let w0 := emit (Log "INFO" (banner name)) w in
  auto_mode self = false ->
  (snd (func w0) = Ok (Some false)
   \/ exists e, snd (func w0) = Raise e /\ is_Exception e = true) ->
  stdin (fst (func w0)) = Line r :: rest ->
  refused (stdin (fst (func w0))) = true ->
  exists message,
    run_steps host self ((name, func) :: later) w
    = (set_stdin rest
         (emit (Prompt "Continue anyway? [Y/n]: ")
            (emit (Log "ERROR" message) (fst (func w0)))),
       Ok false).
Proof.
  intros w0 Ha Hf Hs Hr.
  cbn [run_steps]. unfold attempt, log. unfold bind at 1. unfold bind at 1.
  cbn beta iota. fold w0. unfold try_except, bind at 1.
  destruct (func w0) as [w1 [res|e]]; cbn [fst snd] in *.
  - destruct Hf as [Hf | (e & Hf & _)]; [|discriminate Hf].
    injection Hf as ->. unfold bind at 1.
    rewrite (confirm_line_refused self _ r rest
               (emit (Log "ERROR" ("Step failed: " +:+ name)) w1) Ha Hs Hr).
    exists ("Step failed: " +:+ name). reflexivity.
  - destruct Hf as [Hf | (e' & Hf & He)]; [discriminate Hf|].
    injection Hf as ->. rewrite He. unfold bind at 1.
    rewrite (confirm_line_refused self _ r rest
               (emit (Log "ERROR" ("Error in " +:+ name +:+ ": " +:+ exn_message host e')) w1)
               Ha Hs Hr).
    exists ("Error in " +:+ name +:+ ": " +:+ exn_message host e'). reflexivity.
Qed.

(** A step that ends on an exception outside [Exception] (the user's
    interrupt at one of its prompts, or an exit) ends the loop at once, in
    either mode: the exception leaves the loop as it is, no error is
    logged, no question is asked and no later step is attempted. *)
Theorem interrupt_ends_run
    (self : Installer) (name : string) (func : M (option bool))
    (later : list (string * M (option bool))) (e : exn) (w : World) :
  let w0 := emit (Log "INFO" (banner name)) w in
  snd (func w0) = Raise e ->
  is_Exception e = false ->
  run_steps host self ((name, func) :: later) w = (fst (func w0), Raise e).
Proof.
  intros w0 Hf He.
  cbn [run_steps]. unfold attempt, log. unfold bind at 1. unfold bind at 1.
  cbn beta iota. fold w0. unfold try_except, bind at 1.
  destruct (func w0) as [w1 [res|e']]; cbn [fst snd] in *; [discriminate Hf|].
  injection Hf as ->. rewrite He. reflexivity.
Qed.

End Interactive.

Lemma install_refused_changes_nothing_witness :
  let w := set_stdin [Line "no"] Sample.nothing in
  snd (run Sample.bare (Install false) w) = 1
  /\ frame [] false w (fst (run Sample.bare (Install false) w))
  /\ executable (fst (run Sample.bare (Install false) w)) = executable w
  /\ headings (console (fst (run Sample.bare (Install false) w))) = headings (console w).
Proof.
  intros w. apply (install_refused_changes_nothing Sample.bare w). reflexivity.
Defined.

Lemma failed_step_refused_stops_witness :
  let self := mkInstaller false None in
  let w := set_stdin [Line "n"] Sample.nothing in
  exists message,
    run_steps Sample.bare self
      [("Install Docker", ret (Some false)); ("Pull Docker images", pull_images Sample.bare)] w
    = (set_stdin []
         (emit (Prompt "Continue anyway? [Y/n]: ")
            (emit (Log "ERROR" message)
               (fst (ret (Some false) (emit (Log "INFO" (banner "Install Docker")) w))))),
       Ok false).
Proof.
  intros self w.
  apply (failed_step_refused_stops Sample.bare self "Install Docker" (ret (Some false))
           [("Pull Docker images", pull_images Sample.bare)] "n" [] w).
  - reflexivity.
  - left. reflexivity.
  - reflexivity.
  - reflexivity.
Defined.

Lemma interrupt_ends_run_witness :
  let self := mkInstaller false None in
  let w := set_stdin [Interrupt] Sample.nothing in
  run_steps Sample.bare self
    [("Install NVIDIA drivers", install_nvidia_drivers Sample.bare self);
     ("Install CUDA toolkit", install_cuda_toolkit Sample.bare self)] w
  = (fst (install_nvidia_drivers Sample.bare self
            (emit (Log "INFO" (banner "Install NVIDIA drivers")) w)),
     Raise KeyboardInterrupt).
Proof.
  intros self w.
  apply (interrupt_ends_run Sample.bare self "Install NVIDIA drivers"
           (install_nvidia_drivers Sample.bare self)
           [("Install CUDA toolkit", install_cuda_toolkit Sample.bare self)]
           KeyboardInterrupt w).
  - reflexivity.
  - reflexivity.
Defined.
(** *** Directories, scripts and texts *)

Lemma append_nil_r (s : string) : s +:+ EmptyString = s.
Proof.
  induction s as [|c s IH]; [reflexivity|].
  change (String c (s +:+ EmptyString) = String c s). now rewrite IH.
Qed.

Lemma append_cons (c : ascii) (r s : string) : String c r +:+ s = String c (r +:+ s).
Proof. reflexivity. Qed.

Lemma append_snoc (a : string) (c : ascii) (s : string) :
  (a +:+ String c EmptyString) +:+ s = a +:+ String c s.
Proof. now rewrite append_assoc_r. Qed.

(** A text without the separator is split into itself. *)
Lemma split_go_without (sep s : string) :
  forall cur, Py.contains sep s = false -> Py.split_go sep s 0 cur = [cur +:+ s].
Proof.
  induction s as [|c r IH]; intros cur Hc.
  - simpl. now rewrite append_nil_r.
  - cbn [Py.contains] in Hc. apply orb_false_iff in Hc as [Hs Hc].
    cbn [Py.split_go]. rewrite Hs, (IH _ Hc), append_snoc. reflexivity.
Qed.

Lemma contains_slash_cons (c : ascii) (r : string) :
  Py.contains "/" (String c r) = Ascii.eqb "/" c || Py.contains "/" r.
Proof.
  cbn [Py.contains Py.startswith]. destruct r; now rewrite andb_true_r.
Qed.

Lemma contains_slash_snoc (a : string) (c : ascii) :
  Py.contains "/" a = false -> Ascii.eqb "/" c = false ->
  Py.contains "/" (a +:+ String c EmptyString) = false.
Proof.
  intros Ha Hc. induction a as [|x a IH].
  - change (Py.contains "/" (String c EmptyString) = false).
    rewrite contains_slash_cons, Hc. reflexivity.
  - rewrite append_cons, contains_slash_cons.
    rewrite contains_slash_cons in Ha. apply orb_false_iff in Ha as [Hx Ha].
    rewrite Hx, (IH Ha). reflexivity.
Qed.

Lemma last_piece_cons (x : string) (l : list string) :
  l <> [] -> last_piece (x :: l) = last_piece l.
Proof. unfold last_piece. destruct l; [congruence | reflexivity]. Qed.

(** The last piece of a text split at its slashes, with [cur] the piece
    under construction. *)
Lemma split_go_slash_last (s : string) :
  forall cur,
    Py.contains "/" cur = false ->
    let p := last_piece (Py.split_go "/" s 0 cur) in
    Py.contains "/" p = false
    /\ (exists before,
          cur +:+ s = before +:+ p
          /\ (before = EmptyString \/ exists b, before = b +:+ "/"))
    /\ (Py.contains "/" s = false -> p = cur +:+ s).
Proof.
  induction s as [|c r IH]; intros cur Hcur; cbv zeta.
  - cbn [Py.split_go last_piece List.last]. split; [exact Hcur|]. split.
    + exists EmptyString. split; [|now left]. now rewrite append_nil_r.
    + intros _. now rewrite append_nil_r.
  - cbn [Py.split_go]. rewrite contains_slash_cons.
    replace (Py.startswith "/" (String c r)) with (Ascii.eqb "/" c)
      by (cbn [Py.startswith]; destruct r; now rewrite andb_true_r).
    destruct (Ascii.eqb "/" c) eqn:Ec.
    + apply Ascii.eqb_eq in Ec. subst c.
      change (String.length "/" - 1)%nat with 0%nat.
      rewrite last_piece_cons.
      2:{ destruct (split_go_nonempty "/" r 0 EmptyString) as (x & l & ->). discriminate. }
      destruct (IH EmptyString eq_refl) as (Hp & (before & Hb & Hsh) & _).
      split; [exact Hp|]. split; [|discriminate].
      change (EmptyString +:+ r) with r in Hb.
      destruct Hsh as [-> | (b & ->)].
      * exists (cur +:+ "/"). split; [|right; now exists cur].
        change (EmptyString +:+ ?x) with x in Hb. rewrite Hb at 1.
        now rewrite append_snoc.
      * exists (cur +:+ "/" +:+ b +:+ "/"). split.
        -- rewrite Hb at 1. now rewrite !append_assoc_r.
        -- right. exists (cur +:+ "/" +:+ b). now rewrite !append_assoc_r.
    + destruct (IH (cur +:+ String c EmptyString) (contains_slash_snoc _ _ Hcur Ec))
        as (Hp & (before & Hb & Hsh) & Hn).
      rewrite append_snoc in Hb, Hn.
      split; [exact Hp|]. split; [now exists before|]. exact Hn.
Qed.

Section Files.

Variable host : Host.

(** The model preference written for AnythingLLM is the part of the
    configured model id after its last slash: it contains no slash, the id
    ends with it, what stands before it is empty or ends with a slash, and
    an id without a slash is taken whole. *)
Theorem model_pref_is_last_segment (config : Config) (tensor_parallel : Z) :
  let pref := last_piece (Py.split "/" (llm_model config)) in
  In ("      - GENERIC_OPEN_AI_MODEL_PREF=" +:+ pref)
     (compose_lines host config tensor_parallel)
  /\ Py.contains "/" pref = false
  /\ (exists before,
        llm_model config = before +:+ pref
        /\ (before = EmptyString \/ exists b, before = b +:+ "/"))
  /\ (Py.contains "/" (llm_model config) = false -> pref = llm_model config).
Proof.
  cbv zeta. split.
  - unfold compose_lines. repeat (first [left; reflexivity | right]).
  - exact (split_go_slash_last (llm_model config) EmptyString eq_refl).
Qed.

(** The toolkit version is taken only from a line that holds "release"
    in lower case: when no line of the [nvcc] output does, the version is
    "Unknown", also when a line mentions the release in capitals and so
    passes the test that ignores case. *)
Theorem scan_release_needs_lower_case (lines : list string) :
  Forall (fun line => Py.contains "release" line = false) lines ->
  scan_release lines = "Unknown".
Proof.
  induction 1 as [|line rest Hl _ IH]; [reflexivity|].
  cbn [scan_release]. unfold Py.split. rewrite (split_go_without _ _ _ Hl), IH.
  now destruct (Py.contains "release" (Py.lower line)).
Qed.



(** What writing one helper script does. *)
Lemma write_script_ok (n : string) (ls : list string) (w : World) :
  BASE_DIR host ∈ dirs w ->
  path_in (BASE_DIR host) n ∉ dirs w ->
  write_script host n ls w
  = (set_executable ({[path_in (BASE_DIR host) n]} ∪ executable w)
       (set_files (<[path_in (BASE_DIR host) n := text_of_lines ls]> (files w)) w),
     Ok tt).
Proof.
  intros Hb Hp. unfold write_script, write_file, check_writable, chmod_755, path_exists.
  mred. rewrite (bool_decide_false_not_elem _ _ Hp), (bool_decide_eq_true_2 _ Hb).
  mred. rewrite (bool_decide_false_not_elem _ _ Hp).
  rewrite bool_decide_eq_true_2 by (rewrite lookup_insert_eq; eauto).
  reflexivity.
Qed.

(** With the base directory in place (and no script path taken by a
    directory) the scripts step writes the four helper scripts, makes each
    of them executable and succeeds, creating no directory; without the
    base directory it ends on [FileNotFoundError] having written nothing. *)
Theorem management_scripts_written (w : World) :
  let B := BASE_DIR host in
  let w' := fst (create_management_scripts host w) in
  (B ∈ dirs w ->
   (forall n, n ∈ script_names -> path_in B n ∉ dirs w) ->
   snd (create_management_scripts host w) = Ok (Some true)
   /\ files w' !! path_in B "start.sh" = Some (text_of_lines (start_script_lines host))
   /\ files w' !! path_in B "stop.sh" = Some (text_of_lines (stop_script_lines host))
   /\ files w' !! path_in B "status.sh" = Some (text_of_lines (status_script_lines host))
   /\ files w' !! path_in B "logs.sh" = Some (text_of_lines (logs_script_lines host))
   /\ (forall n, n ∈ script_names -> path_in B n ∈ executable w')
   /\ dirs w' = dirs w)
  /\ (path_exists B w = false ->
      path_in B "start.sh" ∉ dirs w ->
      snd (create_management_scripts host w) = Raise FileNotFoundError
      /\ files w' = files w /\ executable w' = executable w).
Proof.
  cbv zeta. split.
  - intros Hb Hn.
    assert (H1 := Hn "start.sh"). assert (H2 := Hn "stop.sh").
    assert (H3 := Hn "status.sh"). assert (H4 := Hn "logs.sh").
    unfold script_names in *.
    specialize (H1 ltac:(set_unfold; tauto)). specialize (H2 ltac:(set_unfold; tauto)).
    specialize (H3 ltac:(set_unfold; tauto)). specialize (H4 ltac:(set_unfold; tauto)).
    destruct (create_management_scripts host w) as [w' r'] eqn:E. cbn [fst snd].
    revert E. unfold create_management_scripts.
    unfold bind at 1. rewrite write_script_ok by assumption. cbn beta iota.
    unfold bind at 1. rewrite write_script_ok by assumption. cbn beta iota.
    unfold bind at 1. rewrite write_script_ok by assumption. cbn beta iota.
    unfold bind at 1. rewrite write_script_ok by assumption. cbn beta iota.
    unfold log. mred. intros E. injection E as <- <-.
    cbn [files dirs executable emit set_files set_executable].
    split; [reflexivity|].
    split; [rewrite !lookup_insert_ne by path_ne; apply lookup_insert_eq|].
    split; [rewrite !lookup_insert_ne by path_ne; apply lookup_insert_eq|].
    split; [rewrite !lookup_insert_ne by path_ne; apply lookup_insert_eq|].
    split; [apply lookup_insert_eq|].
    split; [|reflexivity].
    intros n Hin. set_unfold. destruct Hin as [-> | [-> | [-> | [-> | []]]]]; tauto.
  - intros He Hp. unfold path_exists in He. apply orb_false_iff in He as [Hd Hf].
    destruct (create_management_scripts host w) as [w' r'] eqn:E. cbn [fst snd].
    revert E.
    unfold create_management_scripts, write_script, write_file, check_writable.
    mred. rewrite Hd, Hf, (bool_decide_false_not_elem _ _ Hp).
    intros E. injection E as <- <-. auto.
Qed.

End Files.

Lemma model_pref_is_last_segment_witness :
  let config := DEFAULT_CONFIG Sample.bare in
  last_piece (Py.split "/" (llm_model config)) = "Qwen3-32B-Instruct"
  /\ Py.contains "/" (last_piece (Py.split "/" (llm_model config))) = false.
Proof.
  intros config. split; [reflexivity|].
  exact (proj1 (proj2 (model_pref_is_last_segment Sample.bare config 1))).
Defined.

Lemma scan_release_needs_lower_case_witness :
  scan_release ["nvcc: NVIDIA (R) Cuda compiler driver";
                "Cuda compilation tools, Release 12.4, V12.4.131"] = "Unknown".
Proof.
  apply scan_release_needs_lower_case.
  repeat constructor.
Defined.

(** The usual output of [nvcc --version], for comparison. *)
Example scan_release_usual_output :
  scan_release ["nvcc: NVIDIA (R) Cuda compiler driver";
                "Cuda compilation tools, release 12.4, V12.4.131"] = "12.4".
Proof. reflexivity. Qed.


Lemma management_scripts_written_witness :
  let h := Sample.bare in
  let w' := fst (create_management_scripts h (Sample.installed h)) in
  snd (create_management_scripts h (Sample.installed h)) = Ok (Some true)
  /\ (forall n, n ∈ script_names -> path_in (BASE_DIR h) n ∈ executable w').
Proof.
  intros h w'.
  destruct (proj1 (management_scripts_written h (Sample.installed h)))
    as (Hr & _ & _ & _ & _ & Hx & _).
  - vm_compute. set_solver.
  - intros n _. vm_compute. set_solver.
  - split; assumption.
Defined.
(** *** The secrets file read back by the other tools *)

Lemma space_is_not_newline_free (c : ascii) :
  Py.is_space c = false -> Ascii.eqb c "010" = false.
Proof.
  intros Hs. destruct (Ascii.eqb c "010") eqn:E; [|reflexivity].
  apply Ascii.eqb_eq in E. subst c. discriminate Hs.
Qed.

(** One line of a text and its newline, read off the front of the text. *)
Lemma lines_go_line (l : string) :
  forall cur rest,
    spaceless l = true \/ Py.contains Py.nl l = false ->
    Py.lines_go (l +:+ Py.nl +:+ rest) cur = (cur +:+ l +:+ Py.nl) :: Py.lines_go rest EmptyString.
Proof.
  induction l as [|c r IH]; intros cur rest Hl.
  - reflexivity.
  - rewrite append_cons. cbn [Py.lines_go].
    assert (Hc : Ascii.eqb c "010" = false /\
                 (spaceless r = true \/ Py.contains Py.nl r = false)).
    { destruct Hl as [Hl | Hl].
      - cbn [spaceless] in Hl. apply andb_prop in Hl as [Hc Hr].
        apply negb_true_iff in Hc. split; [now apply space_is_not_newline_free | now left].
      - cbn [Py.contains] in Hl. apply orb_false_iff in Hl as [Hs Hr].
        split; [|now right].
        unfold Py.nl in Hs. cbn [Py.startswith] in Hs.
        rewrite Ascii.eqb_sym.
        destruct (Ascii.eqb "010" c); [|reflexivity]. now destruct r. }
    destruct Hc as [Hc Hr]. rewrite Hc, (IH _ _ Hr), append_snoc. reflexivity.
Qed.

(** A text written line by line is read back line by line. *)
Lemma file_lines_text_of_lines (ls : list string) :
  Forall (fun l => spaceless l = true \/ Py.contains Py.nl l = false) ls ->
  Py.file_lines (text_of_lines ls) = map (fun l => l +:+ Py.nl) ls.
Proof.
  unfold Py.file_lines, text_of_lines.
  induction 1 as [|l rest Hl _ IH]; [reflexivity|].
  cbn [map Py.concat fold_right]. rewrite append_assoc_r, (lines_go_line l _ _ Hl).
  f_equal. exact IH.
Qed.

Lemma spaceless_app (a b : string) :
  spaceless a = true -> spaceless b = true -> spaceless (a +:+ b) = true.
Proof.
  intros Ha Hb. induction a as [|c a IH]; [exact Hb|].
  rewrite append_cons. cbn [spaceless] in *. apply andb_prop in Ha as [Hc Ha].
  now rewrite Hc, (IH Ha).
Qed.

Lemma rstrip_spaceless_nl (s : string) :
  spaceless s = true -> Py.rstrip_by Py.is_space (s +:+ Py.nl) = s.
Proof.
  induction s as [|c r IH]; intros Hs; [reflexivity|].
  cbn [spaceless] in Hs. apply andb_prop in Hs as [Hc Hr].
  apply negb_true_iff in Hc.
  rewrite append_cons. cbn [Py.rstrip_by]. rewrite (IH Hr), Hc. now destruct r.
Qed.

(** Stripping a text without white space that is followed by a newline
    gives the text. *)
Lemma strip_spaceless_nl (s : string) :
  spaceless s = true -> Py.strip (s +:+ Py.nl) = s.
Proof.
  intros Hs. unfold Py.strip. destruct s as [|c r]; [reflexivity|].
  rewrite append_cons. cbn [Py.lstrip_by].
  pose proof Hs as Hs'. cbn [spaceless] in Hs'. apply andb_prop in Hs' as [Hc _].
  apply negb_true_iff in Hc. rewrite Hc, <- append_cons.
  now apply rstrip_spaceless_nl.
Qed.

Section Tools.

Variable host : Host.

(** The loop of [get_api_key] leaves the world alone and raises nothing
    but ordinary exceptions. *)
Lemma api_key_rows_outcome (lines : list string) (w : World) :
  fst (TestServer.api_key_rows lines w) = w
  /\ forall e, snd (TestServer.api_key_rows lines w) = Raise e -> is_Exception e = true.
Proof.
  induction lines as [|line rest IH]; cbn [TestServer.api_key_rows].
  - split; [reflexivity | discriminate].
  - destruct (Py.startswith "VLLM_API_KEY=" line); [|exact IH].
    unfold bind, item, of_option.
    destruct (split1 "=" line !! 1%nat); cbn; split; try reflexivity; try discriminate.
    intros e E. inversion E. reflexivity.
Qed.

(** [get_api_key] always returns a key and changes nothing: whatever goes
    wrong while reading the secrets file is swallowed.  When there is no
    file at the path (nothing there, or a directory), the key is
    "not-needed". *)
Theorem get_api_key_falls_back (w : World) :
  (exists key, TestServer.get_api_key host w = (w, Ok key))
  /\ (files w !! TestServer.env_path host = None ->
      TestServer.get_api_key host w = (w, Ok "not-needed")).
Proof.
  unfold TestServer.get_api_key, try_except, exists_, open_read, path_exists.
  unfold bind at 1. unfold bind at 1. cbn beta iota.
  unfold bind at 2. unfold bind at 2. cbn beta iota.
  destruct (bool_decide (TestServer.env_path host ∈ dirs w)) eqn:Ed; cbn [orb].
  - unfold bind. cbn. rewrite Ed. cbn. split; [now eexists | reflexivity].
  - destruct (files w !! TestServer.env_path host) as [text|] eqn:Ef.
    + rewrite bool_decide_eq_true_2 by eauto.
      unfold bind at 1. unfold bind at 1. rewrite Ed, Ef. cbn beta iota.
      destruct (api_key_rows_outcome (Py.file_lines text) w) as [Hw He].
      destruct (TestServer.api_key_rows (Py.file_lines text) w) as [w1 [[key|]|e]];
        cbn [fst snd] in *; subst w1.
      * split; [now eexists | discriminate].
      * split; [now eexists | discriminate].
      * rewrite (He e eq_refl). cbn. split; [now eexists | discriminate].
    + rewrite bool_decide_eq_false_2 by (intros [x Hx]; discriminate Hx).
      cbn. split; [now eexists | reflexivity].
Qed.

(** The world after the secrets step has created the file. *)
Lemma create_env_file_world (w : World) :
  path_exists (path_in (BASE_DIR host) ".env") w = false ->
  BASE_DIR host ∈ dirs w ->
  let w1 := fst (create_env_file host w) in
  (path_in (BASE_DIR host) ".env" ∉ dirs w1)
  /\ files w1 !! path_in (BASE_DIR host) ".env"
     = Some (text_of_lines (env_lines (urandom_hex host (drawn w)))).
Proof.
  intros Hx Hb w1. split.
  - subst w1. rewrite (frame_dirs _ _ _ _ (proj1 (tame_create_env_file host) w)).
    unfold path_exists in Hx. apply orb_false_elim in Hx as [Hd _].
    now apply bool_decide_eq_false_1 in Hd.
  - apply (create_env_file_creates host w Hx Hb).
Qed.

(** The key that the secrets step generates is the key that
    [test_server.py] reads back: after the step has created the file,
    [get_api_key] returns the token drawn for it, provided the token
    holds no white space (a run of hexadecimal digits holds none). *)
Theorem generated_key_read_back (w : World) :
  let token := urandom_hex host (drawn w) in
  path_exists (path_in (BASE_DIR host) ".env") w = false ->
  BASE_DIR host ∈ dirs w ->
  spaceless token = true ->
  let w1 := fst (create_env_file host w) in
  TestServer.get_api_key host w1 = (w1, Ok token).
Proof.
  intros token Hx Hb Ht w1.
  destruct (create_env_file_world w Hx Hb) as [Hd Hf]. fold w1 token in Hd, Hf.
  unfold TestServer.get_api_key, try_except, exists_, open_read, path_exists.
  change (TestServer.env_path host) with (path_in (BASE_DIR host) ".env").
  unfold bind at 1. unfold bind at 1. cbn beta iota.
  rewrite (bool_decide_false_not_elem _ _ Hd), Hf.
  rewrite bool_decide_eq_true_2 by eauto. cbn [orb].
  unfold bind at 1. rewrite (bool_decide_false_not_elem _ _ Hd), Hf. cbn beta iota.
  rewrite file_lines_text_of_lines.
  2:{ unfold env_lines.
      repeat (apply List.Forall_cons;
              [first [right; reflexivity
                     | left; apply spaceless_app; [reflexivity | exact Ht]]|]).
      apply List.Forall_nil. }
  unfold env_lines. cbn [map TestServer.api_key_rows].
  change (Py.startswith "VLLM_API_KEY=" (("VLLM_API_KEY=" +:+ token) +:+ Py.nl)) with true.
  cbn match.
  change (split1 "=" (("VLLM_API_KEY=" +:+ token) +:+ Py.nl))
    with ["VLLM_API_KEY"; token +:+ Py.nl].
  unfold bind, item, of_option. cbn. rewrite (strip_spaceless_nl _ Ht). reflexivity.
Qed.

(** The secrets file as the secrets step creates it holds no HuggingFace
    token: [check_hf_token] answers no until the file is edited, whatever
    key was generated. *)
Theorem fresh_env_has_no_hf_token (w : World) :
  path_exists (path_in (BASE_DIR host) ".env") w = false ->
  BASE_DIR host ∈ dirs w ->
  let w1 := fst (create_env_file host w) in
  Models.check_hf_token host w1 = (w1, Ok false).
Proof.
  intros Hx Hb w1.
  destruct (create_env_file_world w Hx Hb) as [Hd Hf]. fold w1 in Hd, Hf.
  unfold Models.check_hf_token, exists_, open_read, path_exists.
  change (Models.env_file host) with (path_in (BASE_DIR host) ".env").
  unfold bind at 1. cbn beta iota.
  rewrite (bool_decide_false_not_elem _ _ Hd), Hf.
  rewrite bool_decide_eq_true_2 by eauto. cbn [orb negb].
  unfold bind at 1. rewrite (bool_decide_false_not_elem _ _ Hd), Hf. cbn beta iota.
  unfold read.
  set (token := urandom_hex host (drawn w)).
  assert (Hc : Py.contains "HF_TOKEN=" (text_of_lines (env_lines token)) = true)
    by (lazy; reflexivity).
  assert (Hs : exists rest,
             Py.split Py.nl (text_of_lines (env_lines token))
             = "# Local AI Server Environment Variables"
               :: "# Add your HuggingFace token here for gated models (e.g., Llama-2)"
               :: "HF_TOKEN=" :: rest)
    by (eexists; lazy; reflexivity).
  destruct Hs as [rest Hs]. rewrite Hc, Hs. reflexivity.
Qed.

End Tools.

Lemma generated_key_read_back_witness :
  let h := Sample.bare in
  let w1 := fst (create_env_file h (Sample.installed h)) in
  TestServer.get_api_key h w1 = (w1, Ok "000102030405060708090a0b0c0d0e0f").
Proof.
  intros h w1.
  apply (generated_key_read_back h (Sample.installed h)).
  - vm_compute. reflexivity.
  - vm_compute. set_solver.
  - reflexivity.
Defined.

Lemma get_api_key_falls_back_witness :
  TestServer.get_api_key Sample.bare Sample.nothing = (Sample.nothing, Ok "not-needed").
Proof.
  apply (proj2 (get_api_key_falls_back Sample.bare Sample.nothing)). reflexivity.
Defined.

Lemma fresh_env_has_no_hf_token_witness :
  let h := Sample.bare in
  let w1 := fst (create_env_file h (Sample.installed h)) in
  Models.check_hf_token h w1 = (w1, Ok false).
Proof.
  intros h w1.
  apply (fresh_env_has_no_hf_token h (Sample.installed h)).
  - vm_compute. reflexivity.
  - vm_compute. set_solver.
Defined.

(** *** The model table and the configuration *)

Lemma find_by_id_found (model_id : string) (models : list Models.ModelInfo) (m : Models.ModelInfo) :
  Models.find_by_id model_id models = Some m -> Models.id m = model_id /\ In m models.
Proof.
  induction models as [|x rest IH]; [discriminate|].
  cbn [Models.find_by_id]. destruct (String.eqb (Models.id x) model_id) eqn:E.
  - intros H. injection H as <-. apply String.eqb_eq in E. split; [exact E | now left].
  - intros H. destruct (IH H) as [Hi Hin]. split; [exact Hi | now right].
Qed.

Lemma find_by_id_none (model_id : string) (models : list Models.ModelInfo) :
  Models.find_by_id model_id models = None ->
  forall m, In m models -> Models.id m <> model_id.
Proof.
  induction models as [|x rest IH]; [intros _ m []|].
  cbn [Models.find_by_id]. destruct (String.eqb (Models.id x) model_id) eqn:E; [discriminate|].
  intros H m [<- | Hin].
  - now apply String.eqb_neq.
  - now apply IH.
Qed.

(** Looking a model up by its id: every model of the table is found
    under its own id (no two share one), what is found has the id asked
    for and is in the table, and nothing is found only for an id that no
    model of the table has. *)
Theorem get_model_by_id_finds :
  (forall m, In m Models.MODELS -> Models.get_model_by_id (Models.id m) = Some m)
  /\ (forall model_id m,
        Models.get_model_by_id model_id = Some m ->
        Models.id m = model_id /\ In m Models.MODELS)
  /\ (forall model_id,
        Models.get_model_by_id model_id = None ->
        forall m, In m Models.MODELS -> Models.id m <> model_id).
Proof.
  split; [|split].
  - intros m Hin. unfold Models.MODELS in Hin. cbn [In] in Hin.
    repeat (destruct Hin as [<- | Hin]; [reflexivity|]). contradiction.
  - intros model_id m. apply find_by_id_found.
  - intros model_id. apply find_by_id_none.
Qed.

(** Every model of the table asks for one device. *)
Lemma table_min_gpus (m : Models.ModelInfo) :
  In m Models.MODELS -> Models.min_gpus m = 1.
Proof.
  intros Hin. unfold Models.MODELS in Hin. cbn [In] in Hin.
  repeat (destruct Hin as [<- | Hin]; [reflexivity|]). contradiction.
Qed.

Section Selection.

Variable host : Host.

Lemma update_config_model_effect (model : Models.ModelInfo) (w : World) :
  let w' := fst (Models.update_config_model host model w) in
  (config_file w = None ->
   Models.update_config_model host model w
   = (emit (Print "   Run 'python3 deploy.py install' first")
        (emit (Print ("❌ Config file not found: " +:+ Models.CONFIG_FILE host)) w),
      Ok false))
  /\ (forall c, config_file w = Some (cfg_ok c) ->
      snd (Models.update_config_model host model w) = Ok true
      /\ config_file w' = Some (cfg_ok (Models.with_model model c))
      /\ files w' = files w /\ dirs w' = dirs w
      /\ stdin w' = stdin w /\ ticks w' = ticks w).
Proof.
  cbv zeta. split.
  - intros Hc. unfold Models.update_config_model, config_exists, print. mred.
    rewrite Hc. rewrite bool_decide_eq_false_2 by (intros [x Hx]; discriminate Hx).
    reflexivity.
  - intros c Hc.
    destruct (Models.update_config_model host model w) as [w' r] eqn:E. cbn [fst snd].
    revert E.
    unfold Models.update_config_model, config_exists, load_config, loaded, dump_config, print.
    mred. rewrite Hc. rewrite bool_decide_eq_true_2 by eauto. mred. rewrite ?Hc.
    intros E. injection E as <- <-. cbn. repeat split; reflexivity.
Qed.

(** From [models.py] to the manifest: after a model of the table has been
    set in a readable configuration, the manifest step of the installer
    writes a manifest that serves this model with tensor parallelism 1,
    or with the smaller of 1 and the number of detected devices when the
    installer holds a hardware snapshot, whatever degree the configuration
    held before. *)
Theorem selected_model_reaches_manifest
    (self : Installer) (model_id : string) (model : Models.ModelInfo)
    (c : Config) (w : World) :
  Models.get_model_by_id model_id = Some model ->
  config_file w = Some (cfg_ok c) ->
  BASE_DIR host ∈ dirs w ->
  path_in (BASE_DIR host) "docker-compose.yml" ∉ dirs w ->
  let w1 := fst (Models.update_config_model host model w) in
  let c1 := Models.with_model model c in
  let degree := match system_info self with
                | Some info => Z.min 1 (Z.of_nat (length (gpus info)))
                | None => 1
                end in
  snd (Models.update_config_model host model w) = Ok true
  /\ snd (create_docker_compose host self w1) = Ok (Some true)
  /\ files (fst (create_docker_compose host self w1))
       !! path_in (BASE_DIR host) "docker-compose.yml"
     = Some (docker_compose host c1 degree)
  /\ In ("      --model " +:+ model_id) (compose_lines host c1 degree)
  /\ In ("      --tensor-parallel-size " +:+ Py.str_of_int degree)
        (compose_lines host c1 degree).
Proof.
  intros Hm Hc Hb Hp. cbv zeta.
  destruct (find_by_id_found _ _ _ Hm) as [Hid Hin].
  destruct (proj2 (update_config_model_effect model w) c Hc) as (Hu & Hc1 & _ & Hd1 & _).
  destruct (create_docker_compose_writes host self (Models.with_model model c)
              (fst (Models.update_config_model host model w)) Hc1)
    as [Hf Hr].
  { rewrite Hd1. exact Hb. }
  { rewrite Hd1. exact Hp. }
  assert (Hdeg : manifest_tensor_parallel self (Models.with_model model c)
                 = match system_info self with
                   | Some info => Z.min 1 (Z.of_nat (length (gpus info)))
                   | None => 1
                   end).
  { unfold manifest_tensor_parallel. cbn [llm_tensor_parallel_size Models.with_model default].
    rewrite (table_min_gpus model Hin). reflexivity. }
  rewrite Hdeg in Hf.
  split; [exact Hu|]. split; [exact Hr|]. split; [exact Hf|]. split.
  - rewrite <- Hid. unfold compose_lines. cbn [llm_model Models.with_model].
    repeat (first [left; reflexivity | right]).
  - unfold compose_lines. repeat (first [left; reflexivity | right]).
Qed.

End Selection.

Lemma get_model_by_id_finds_witness :
  Models.get_model_by_id "google/gemma-3-27b"
  = Some (Models.mkModelInfo "google/gemma-3-27b" "Gemma 3 27B (2026)" 15 18 1 "awq"
            "Google's latest, excellent performance-per-watt, strong reasoning"
            "General purpose, efficient deployment" false).
Proof.
  apply (proj1 get_model_by_id_finds
           (Models.mkModelInfo "google/gemma-3-27b" "Gemma 3 27B (2026)" 15 18 1 "awq"
              "Google's latest, excellent performance-per-watt, strong reasoning"
              "General purpose, efficient deployment" false)).
  unfold Models.MODELS. cbn [In]. right. right. left. reflexivity.
Defined.

Lemma selected_model_reaches_manifest_witness :
  let h := Sample.bare in
  let self := mkInstaller true (Some (Sample.snapshot [Sample.gpu 0 32768; Sample.gpu 1 32768])) in
  let w := set_config (Some (cfg_ok (DEFAULT_CONFIG h))) (Sample.installed h) in
  let model :=
    Models.mkModelInfo "casperhansen/llama-3.3-70b-instruct-awq"
      "Llama 3.3 70B Instruct (AWQ)" 37 30 1 "awq"
      "Meta's latest 70B, 128k context, high quality but tight VRAM fit"
      "High-quality general purpose, tool use" true in
  files (fst (create_docker_compose h self (fst (Models.update_config_model h model w))))
    !! path_in (BASE_DIR h) "docker-compose.yml"
  = Some (docker_compose h (Models.with_model model (DEFAULT_CONFIG h)) 1).
Proof.
  intros h self w model.
  destruct (selected_model_reaches_manifest h self
              "casperhansen/llama-3.3-70b-instruct-awq" model (DEFAULT_CONFIG h) w)
    as (_ & _ & H & _).
  - reflexivity.
  - reflexivity.
  - vm_compute. set_solver.
  - vm_compute. set_solver.
  - exact H.
Defined.
(** *** Steps that cannot fail, and steps that are declined *)

Section Modes.

Variable host : Host.

(** The image step and, in unattended mode, the container-toolkit step
    report success whatever their commands do: the image step always makes
    its two pulls, the toolkit step makes its check and, when the check
    fails, all six of its commands; neither changes a file. *)
Theorem unchecked_steps_always_succeed (self : Installer) (w : World) :
  (snd (pull_images host w) = Ok (Some true)
   /\ ticks (fst (pull_images host w)) = (ticks w + 2)%nat
   /\ files (fst (pull_images host w)) = files w)
  /\ (auto_mode self = true ->
      let ok := returncode (shell host (ticks w)
                  "docker run --rm --gpus all nvidia/cuda:12.0-base nvidia-smi") =? 0 in
      snd (install_nvidia_container_toolkit host self w) = Ok (Some true)
      /\ ticks (fst (install_nvidia_container_toolkit host self w))
         = (ticks w + if ok then 1 else 7)%nat
      /\ files (fst (install_nvidia_container_toolkit host self w)) = files w).
Proof.
  split.
  - destruct (pull_images host w) as [w' r] eqn:E. cbn [fst snd].
    revert E. unfold pull_images, log. unfold bind at 1. unfold bind at 1. cbn beta iota.
    match goal with
    | |- context [run_steps_unchecked host ?n ?c ?l ?w1] =>
        pose proof (run_steps_unchecked_runs_all host n c l w1) as [Hr Ht];
        pose proof (proj1 (tame_run_steps_unchecked host [] false n c l) w1) as Hf;
        destruct (run_steps_unchecked host n c l w1) as [w2 r2]
    end.
    cbn [fst snd length] in Hr, Ht, Hf. subst r2.
    apply frame_nil_eq in Hf as (_ & _ & _ & f2).
    cbn [files ticks emit] in f2, Ht.
    unfold ret. intros E. injection E as <- <-.
    split; [reflexivity|]. split; [exact Ht | exact f2].
  - intros Ha. cbv zeta.
    destruct (install_nvidia_container_toolkit host self w) as [w' r] eqn:E. cbn [fst snd].
    revert E. unfold install_nvidia_container_toolkit, log, run_command, confirm.
    rewrite Ha. unfold bind at 1. unfold bind at 1. cbn [ticks emit].
    destruct (returncode _ =? 0).
    + mred. intros E. injection E as <- <-. repeat split. cbn. lia.
    + unfold bind at 1. unfold ret at 1. cbn [negb]. unfold bind at 1.
      match goal with
      | |- context [run_steps_unchecked host ?n ?c ?l ?w1] =>
          pose proof (run_steps_unchecked_runs_all host n c l w1) as [Hr Ht];
          pose proof (proj1 (tame_run_steps_unchecked host [] false n c l) w1) as Hf;
          destruct (run_steps_unchecked host n c l w1) as [w2 r2]
      end.
      cbn [fst snd length] in Hr, Ht, Hf. subst r2.
      apply frame_nil_eq in Hf as (_ & _ & _ & f2).
      cbn [files ticks emit tick] in f2, Ht.
      mred. intros E. injection E as <- <-. cbn [files ticks emit].
      split; [reflexivity|]. split; [rewrite Ht; lia | exact f2].
Qed.

(** In unattended mode, when [docker] is not found, the Docker step runs
    the installer script and succeeds exactly when that script does; the
    user is then added to the docker group when [USER] is set, and the
    outcome of that command is ignored. *)
Theorem docker_step_installs (self : Installer) (w : World) :
  auto_mode self = true ->
  returncode (shell host (ticks w) "docker --version") <> 0 ->
  let installed :=
    returncode (shell host (S (ticks w)) "curl -fsSL https://get.docker.com | sh") =? 0 in
  let grouped := installed && negb (String.eqb (env_user host) EmptyString) in
  snd (install_docker host self w) = Ok (Some installed)
  /\ ticks (fst (install_docker host self w))
     = (ticks w + 2 + if grouped then 1 else 0)%nat
  /\ files (fst (install_docker host self w)) = files w.
Proof.
  intros Ha Hrc. cbv zeta.
  destruct (install_docker host self w) as [w' r] eqn:E. cbn [fst snd].
  revert E. unfold install_docker, log, run_command, confirm.
  rewrite Ha. apply Z.eqb_neq in Hrc.
  unfold bind at 1. unfold bind at 1. cbn [ticks emit]. rewrite Hrc.
  unfold bind at 1. unfold ret at 1. cbn [negb]. unfold bind at 1.
  destruct (run_step_result host "Install Docker" "curl -fsSL https://get.docker.com | sh"
              true (tick (emit (Log "INFO" "Checking Docker...") w))) as [line ->].
  cbn [ticks tick emit negb]. rewrite orb_false_r.
  destruct (returncode (shell host (S (ticks w)) _) =? 0); cbn [negb andb].
  - destruct (env_user host) as [|c u] eqn:Eu.
    + unfold ret. intros E. injection E as <- <-. cbn. repeat split. lia.
    + unfold bind at 1.
      match goal with
      | |- context [run_step host ?n ?c ?k ?w1] =>
          destruct (run_step_result host n c k w1) as [line2 ->]
      end.
      unfold ret. intros E. injection E as <- <-. cbn. repeat split. lia.
  - unfold ret. intros E. injection E as <- <-. cbn. repeat split. lia.
Qed.

(** In interactive mode, a step whose check fails and whose question is
    answered with a line other than blank, "y" or "yes" reports failure
    having run nothing but its check: one external call, no file changed.
    This holds for the CUDA toolkit, Docker, the container toolkit and,
    off a Windows host, the drivers. *)
Theorem declined_step_runs_nothing
    (self : Installer) (r : string) (rest : list input_item) (w : World) :
  auto_mode self = false ->
  stdin w = Line r :: rest ->
  refused (stdin w) = true ->
  let failing cmd := returncode (shell host (ticks w) cmd) <> 0 in
  let nothing_run (out : World * result (option bool)) :=
    snd out = Ok (Some false)
    /\ ticks (fst out) = S (ticks w)
    /\ files (fst out) = files w
    /\ stdin (fst out) = rest in
  (failing "nvcc --version" -> nothing_run (install_cuda_toolkit host self w))
  /\ (failing "docker --version" -> nothing_run (install_docker host self w))
  /\ (failing "docker run --rm --gpus all nvidia/cuda:12.0-base nvidia-smi" ->
      nothing_run (install_nvidia_container_toolkit host self w))
  /\ (failing "nvidia-smi" -> "/proc/version" ∉ dirs w -> on_wsl w = false ->
      nothing_run (install_nvidia_drivers host self w)).
Proof.
  intros Ha Hs Hr failing nothing_run. unfold failing, nothing_run.
  assert (Hc : forall m e,
             confirm self m true (tick (emit e w))
             = (set_stdin rest (emit (Prompt (m +:+ " [Y/n]: ")) (tick (emit e w))), Ok false)).
  { intros m e. apply (confirm_line_refused self m r rest); [exact Ha | exact Hs | exact Hr]. }
  split; [|split; [|split]].
  - intros H. apply Z.eqb_neq in H.
    destruct (install_cuda_toolkit host self w) as [w' r'] eqn:E. cbn [fst snd].
    revert E. unfold install_cuda_toolkit, log, run_command. mred. rewrite H.
    rewrite Hc. cbn [negb]. intros E. injection E as <- <-. repeat split.
  - intros H. apply Z.eqb_neq in H.
    destruct (install_docker host self w) as [w' r'] eqn:E. cbn [fst snd].
    revert E. unfold install_docker, log, run_command. mred. rewrite H.
    rewrite Hc. cbn [negb]. intros E. injection E as <- <-. repeat split.
  - intros H. apply Z.eqb_neq in H.
    destruct (install_nvidia_container_toolkit host self w) as [w' r'] eqn:E. cbn [fst snd].
    revert E. unfold install_nvidia_container_toolkit, log, run_command. mred. rewrite H.
    rewrite Hc. cbn [negb]. intros E. injection E as <- <-. repeat split.
  - intros H Hd Hw. apply Z.eqb_neq in H.
    destruct (install_nvidia_drivers host self w) as [w' r'] eqn:E. cbn [fst snd].
    revert E. unfold install_nvidia_drivers, log. unfold bind at 1. unfold bind at 1.
    rewrite is_wsl_value by exact Hd.
    change (on_wsl (emit (Log "INFO" "Checking NVIDIA drivers...") w)) with (on_wsl w).
    rewrite Hw. unfold run_command. mred. rewrite H.
    rewrite Hc. cbn [negb]. intros E. injection E as <- <-. repeat split.
Qed.

End Modes.

Lemma unchecked_steps_always_succeed_witness :
  let self := mkInstaller true None in
  snd (install_nvidia_container_toolkit Sample.bare self Sample.nothing) = Ok (Some true)
  /\ ticks (fst (install_nvidia_container_toolkit Sample.bare self Sample.nothing)) = 7%nat.
Proof.
  intros self.
  destruct (proj2 (unchecked_steps_always_succeed Sample.bare self Sample.nothing) eq_refl)
    as (Hr & Ht & _).
  split; [exact Hr | exact Ht].
Defined.

Lemma docker_step_installs_witness :
  let h := Sample.machine
             (fun t _ => if (t =? 1)%nat then mkProc 0 EmptyString else Sample.not_found)
             false in
  let self := mkInstaller true None in
  snd (install_docker h self Sample.nothing) = Ok (Some true)
  /\ ticks (fst (install_docker h self Sample.nothing)) = 3%nat.
Proof.
  intros h self.
  destruct (docker_step_installs h self Sample.nothing) as (Hr & Ht & _).
  - reflexivity.
  - simpl. lia.
  - split; [exact Hr | exact Ht].
Defined.

Lemma declined_step_runs_nothing_witness :
  let self := mkInstaller false None in
  let w := set_stdin [Line "n"; Line "y"] Sample.nothing in
  snd (install_docker Sample.bare self w) = Ok (Some false)
  /\ ticks (fst (install_docker Sample.bare self w)) = 1%nat
  /\ files (fst (install_docker Sample.bare self w)) = files w
  /\ stdin (fst (install_docker Sample.bare self w)) = [Line "y"].
Proof.
  intros self w.
  apply (proj1 (proj2 (declined_step_runs_nothing Sample.bare self "n" [Line "y"] w
                         eq_refl eq_refl eq_refl))).
  simpl. lia.
Defined.
